(** * Verification of the cookie-authentication gateway

    Shallow embedding of
    - [src/utils/crypto-utils.ts]   ([calculateSecretHash]),
    - [src/utils/error-handler.ts]  ([AppError], [handleCognitoError]),
    - the authentication plugin     ([getJwks], [validateToken],
      [authentication]),
    and of the standards the specification names for the credential hash
    (module [Standard]), followed by the theorems that settle the
    specification's claims.

    Conventions.  A JavaScript string is a Rocq [string], read as the
    sequence of its UTF-8 bytes (strings without unpaired surrogates, for
    which [+] on strings is concatenation of the encodings).  A byte and a
    32-bit word are a [Z] with the wrap-around written out.  [undefined]
    and [null] are [None]. *)

From Stdlib Require Import ZArith List String Ascii Bool Lia.
Import ListNotations.

Local Open Scope Z_scope.
Local Open Scope string_scope.

(* ===================================================================== *)
(** * Part I: the program                                                  *)
(* ===================================================================== *)

(** ** Node's [crypto] primitives used by the source

    [crypto.createHmac("SHA256", key).update(data).digest("base64")] needs
    SHA-256 (FIPS 180-4), HMAC (RFC 2104) and base64 (RFC 4648).  They are
    written out so that the credential hash can be run on test vectors. *)
Module Crypto.
Local Open Scope list_scope.

Definition bytes := list Z.

Definition bytes_of_string (s : string) : bytes :=
  map (fun a => Z.of_N (N_of_ascii a)) (list_ascii_of_string s).

Definition w32 (x : Z) : Z := Z.land x 0xFFFFFFFF.
Definition add32 (x y : Z) : Z := w32 (x + y).
Definition not32 (x : Z) : Z := Z.lxor x 0xFFFFFFFF.
Definition rotr (n x : Z) : Z :=
  Z.lor (Z.shiftr x n) (w32 (Z.shiftl x (32 - n))).

Definition Ch (x y z : Z) := Z.lxor (Z.land x y) (Z.land (not32 x) z).
Definition Maj (x y z : Z) :=
  Z.lxor (Z.lxor (Z.land x y) (Z.land x z)) (Z.land y z).
Definition Sigma0 x := Z.lxor (Z.lxor (rotr 2 x) (rotr 13 x)) (rotr 22 x).
Definition Sigma1 x := Z.lxor (Z.lxor (rotr 6 x) (rotr 11 x)) (rotr 25 x).
Definition sigma0 x := Z.lxor (Z.lxor (rotr 7 x) (rotr 18 x)) (Z.shiftr x 3).
Definition sigma1 x := Z.lxor (Z.lxor (rotr 17 x) (rotr 19 x)) (Z.shiftr x 10).

(** The constants are defined as the standard defines them: the first
    32 bits of the fractional parts of the cube roots (for [K256]) and of
    the square roots (for [H256]) of the first primes. *)
Definition primes64 : list Z :=
  [ 2; 3; 5; 7; 11; 13; 17; 19; 23; 29; 31; 37; 41; 43; 47; 53;
    59; 61; 67; 71; 73; 79; 83; 89; 97; 101; 103; 107; 109; 113; 127; 131;
    137; 139; 149; 151; 157; 163; 167; 173; 179; 181; 191; 193; 197; 199;
    211; 223; 227; 229; 233; 239; 241; 251; 257; 263; 269; 271; 277; 281;
    283; 293; 307; 311 ].

(** The integer cube root, one bit at a time from bit [bits - 1] down. *)
Fixpoint cube_root (bits : nat) (x r : Z) : Z :=
  match bits with
  | O => r
  | S b =>
      let r' := r + Z.shiftl 1 (Z.of_nat b) in
      cube_root b x (if (r' * r' * r' <=? x)%Z then r' else r)
  end.

Definition K256 : list Z :=
  Eval vm_compute in
    map (fun p => w32 (cube_root 40 (Z.shiftl p 96) 0)) primes64.

Definition H256 : list Z :=
  Eval vm_compute in
    map (fun p => w32 (Z.sqrt (Z.shiftl p 64))) (firstn 8 primes64).

(** Big-endian encodings. *)
Definition be_bytes (width : nat) (x : Z) : bytes :=
  map (fun i => Z.land (Z.shiftr x (8 * Z.of_nat i)) 0xFF)
      (rev (seq 0 width)).

Fixpoint be_words (bs : bytes) : list Z :=
  match bs with
  | a :: b :: c :: d :: rest =>
      Z.lor (Z.shiftl a 24) (Z.lor (Z.shiftl b 16) (Z.lor (Z.shiftl c 8) d))
      :: be_words rest
  | _ => []
  end.

(** Padding: one [0x80], zeroes up to 56 mod 64, the bit length on
    eight bytes. *)
Definition pad (msg : bytes) : bytes :=
  let len := Z.of_nat (List.length msg) in
  let zeros := Z.to_nat ((55 - len) mod 64) in
  msg ++ 0x80 :: repeat 0 zeros ++ be_bytes 8 (8 * len).

(** The message schedule, most recent word first. *)
Fixpoint schedule (n : nat) (ws : list Z) : list Z :=
  match n with
  | O => ws
  | S n' =>
      let w := add32 (add32 (sigma1 (nth 1 ws 0)) (nth 6 ws 0))
                     (add32 (sigma0 (nth 14 ws 0)) (nth 15 ws 0)) in
      schedule n' (w :: ws)
  end.

Definition regs := (Z * Z * Z * Z * Z * Z * Z * Z)%type.

Definition round (r : regs) (kw : Z * Z) : regs :=
  let '(a, b, c, d, e, f, g, h) := r in
  let t1 := add32 (add32 (add32 h (Sigma1 e)) (add32 (Ch e f g) (fst kw)))
                  (snd kw) in
  let t2 := add32 (Sigma0 a) (Maj a b c) in
  (add32 t1 t2, a, b, c, add32 d t1, e, f, g).

Definition regs_of (l : list Z) : regs :=
  (nth 0 l 0, nth 1 l 0, nth 2 l 0, nth 3 l 0,
   nth 4 l 0, nth 5 l 0, nth 6 l 0, nth 7 l 0).

Definition list_of (r : regs) : list Z :=
  let '(a, b, c, d, e, f, g, h) := r in [a; b; c; d; e; f; g; h].

Definition compress (hs : list Z) (block : list Z) : list Z :=
  let ws := rev (schedule 48 (rev block)) in
  let r := fold_left round (combine K256 ws) (regs_of hs) in
  map (fun p => add32 (fst p) (snd p)) (combine hs (list_of r)).

(** The blocks, sixteen words at a time; [n] bounds their number. *)
Fixpoint blocks (n : nat) (hs : list Z) (ws : list Z) : list Z :=
  match n, ws with
  | S n', _ :: _ => blocks n' (compress hs (firstn 16 ws)) (skipn 16 ws)
  | _, _ => hs
  end.

Definition sha256 (msg : bytes) : bytes :=
  let ws := be_words (pad msg) in
  flat_map (be_bytes 4) (blocks (List.length ws) H256 ws).

(** HMAC over SHA-256: block size 64, a longer key is hashed first. *)
Definition hmac_block_size : nat := 64.

Definition hmac_key_block (key : bytes) : bytes :=
  let k := if Nat.ltb hmac_block_size (List.length key)
           then sha256 key else key in
  k ++ repeat 0 (hmac_block_size - List.length k).

Definition hmac_sha256 (key msg : bytes) : bytes :=
  let kb := hmac_key_block key in
  let ipad := map (Z.lxor 0x36) kb in
  let opad := map (Z.lxor 0x5c) kb in
  sha256 (opad ++ sha256 (ipad ++ msg)).

(** Base64 with the standard alphabet and [=] padding. *)
Definition base64_alphabet : string :=
  "ABCDEFGHIJKLMNOPQRSTUVWXYZabcdefghijklmnopqrstuvwxyz0123456789+/".

Definition base64_char (i : Z) : ascii :=
  match get (Z.to_nat i) base64_alphabet with
  | Some c => c
  | None => "="%char
  end.

Fixpoint base64_encode (bs : bytes) : string :=
  match bs with
  | [] => EmptyString
  | [a] =>
      String (base64_char (Z.shiftr a 2))
     (String (base64_char (Z.shiftl (Z.land a 3) 4)) "==")
  | [a; b] =>
      String (base64_char (Z.shiftr a 2))
     (String (base64_char (Z.lor (Z.shiftl (Z.land a 3) 4) (Z.shiftr b 4)))
     (String (base64_char (Z.shiftl (Z.land b 15) 2)) "="))
  | a :: b :: c :: rest =>
      String (base64_char (Z.shiftr a 2))
     (String (base64_char (Z.lor (Z.shiftl (Z.land a 3) 4) (Z.shiftr b 4)))
     (String (base64_char (Z.lor (Z.shiftl (Z.land b 15) 2) (Z.shiftr c 6)))
     (String (base64_char (Z.land c 63)) (base64_encode rest))))
  end.

(** Lower-case hexadecimal, used to state test vectors. *)
Definition hex_digit (i : Z) : ascii :=
  match get (Z.to_nat i) "0123456789abcdef" with
  | Some c => c
  | None => "?"%char
  end.

Fixpoint hex_encode (bs : bytes) : string :=
  match bs with
  | [] => EmptyString
  | b :: rest =>
      String (hex_digit (Z.shiftr b 4))
             (String (hex_digit (Z.land b 15)) (hex_encode rest))
  end.

(** The [Hmac] object of Node: the key given at creation and the data
    fed so far. *)
Inductive HashAlgorithm := SHA256.

Record Hmac := mkHmac {
  hmac_algorithm : HashAlgorithm;
  hmac_key : bytes;
  hmac_data : bytes
}.

Definition createHmac (algorithm : HashAlgorithm) (key : string) : Hmac :=
  mkHmac algorithm (bytes_of_string key) [].

Definition update (h : Hmac) (data : string) : Hmac :=
  mkHmac (hmac_algorithm h) (hmac_key h)
         (hmac_data h ++ bytes_of_string data).

Inductive Encoding := base64 | hex.

Definition digest (h : Hmac) (encoding : Encoding) : string :=
  let mac := match hmac_algorithm h with
             | SHA256 => hmac_sha256 (hmac_key h) (hmac_data h)
             end in
  match encoding with
  | base64 => base64_encode mac
  | hex => hex_encode mac
  end.

End Crypto.

(** ** [src/utils/crypto-utils.ts] *)
Module CryptoUtils.
Import Crypto.

Definition calculateSecretHash (clientId clientSecret username : string)
  : string :=
  digest (update (createHmac SHA256 clientSecret) (username ++ clientId))
         base64.

End CryptoUtils.

(** ** JavaScript values shared by the modules below *)
Module JS.

(** [!!v] for a string-or-undefined: the empty string is falsy too. *)
Definition truthy (v : option string) : bool :=
  match v with
  | Some s => negb (s =? "")
  | None => false
  end.

(** [a || b] on such values. *)
Definition or (a b : option string) : option string :=
  if truthy a then a else b.

(** [a === b] on such values. *)
Definition strict_eq (a b : option string) : bool :=
  match a, b with
  | Some x, Some y => x =? y
  | None, None => true
  | _, _ => false
  end.

(** A template literal renders an unset variable as [undefined]. *)
Definition render (v : option string) : string :=
  match v with
  | Some s => s
  | None => "undefined"
  end.

End JS.

(** ** [src/utils/error-handler.ts]

    The mapper's [default] case also writes the raw error to the
    console; what is modelled is the value it returns. *)
Module ErrorHandler.

Record AppError := mkAppError {
  message : string;
  statusCode : Z;
  errorCode : string;
  name : string
}.

(** [new AppError(message, statusCode = 500,
                  errorCode = "INTERNAL_SERVER_ERROR")]. *)
Definition new_AppError (message : string) (statusCode : option Z)
    (errorCode : option string) : AppError :=
  mkAppError message
    (match statusCode with Some c => c | None => 500 end)
    (match errorCode with Some c => c | None => "INTERNAL_SERVER_ERROR" end)
    "AppError".

(** The raw error object of the identity provider ([any] in the source):
    the two fields the mapper reads, and its text. *)
Record RawError := mkRawError {
  __type : option string;
  raw_name : option string;
  raw_message : option string
}.

(** [error?.__type || error?.name || "UnknownError"]. *)
Definition errorType (error : option RawError) : string :=
  let ty := match error with Some e => __type e | None => None end in
  let nm := match error with Some e => raw_name e | None => None end in
  match JS.or (JS.or ty nm) (Some "UnknownError") with
  | Some s => s
  | None => "UnknownError"
  end.

Definition handleCognitoError (error : option RawError) : AppError :=
  let errorType := errorType error in
  if errorType =? "UserNotConfirmedException" then
    new_AppError
      "User not confirmed. Please check your email for a verification link."
      (Some 403) (Some errorType)
  else if errorType =? "NotAuthorizedException" then
    new_AppError
      "Incorrect username or password. Please verify your credentials."
      (Some 401) (Some errorType)
  else if errorType =? "UserNotFoundException" then
    new_AppError
      "User not found. Please register or check your email address."
      (Some 404) (Some errorType)
  else if errorType =? "PasswordResetRequiredException" then
    new_AppError
      "Password reset required. Please reset your password before logging in."
      (Some 403) (Some errorType)
  else if errorType =? "CodeMismatchException" then
    new_AppError "Invalid verification code. Please try again."
      (Some 400) (Some errorType)
  else if errorType =? "ExpiredCodeException" then
    new_AppError "Verification code has expired. Please request a new one."
      (Some 400) (Some errorType)
  else if errorType =? "TooManyRequestsException" then
    new_AppError "Too many requests. Please try again later."
      (Some 429) (Some errorType)
  else if errorType =? "InvalidPasswordException" then
    new_AppError
      "Password does not meet requirements. It should include uppercase, lowercase, numbers, and special characters."
      (Some 400) (Some errorType)
  else if errorType =? "UsernameExistsException" then
    new_AppError "An account with this email already exists."
      (Some 409) (Some errorType)
  else if errorType =? "LimitExceededException" then
    new_AppError "Operation limit exceeded. Please try again later."
      (Some 429) (Some errorType)
  else
    new_AppError "An authentication error occurred. Please try again later."
      (Some 500) (Some "INTERNAL_AUTH_ERROR").

(** The codes the [switch] has a [case] for, with the status of each,
    in its order. *)
Definition switch_codes : list (string * Z) :=
  [ ("UserNotConfirmedException", 403);
    ("NotAuthorizedException", 401);
    ("UserNotFoundException", 404);
    ("PasswordResetRequiredException", 403);
    ("CodeMismatchException", 400);
    ("ExpiredCodeException", 400);
    ("TooManyRequestsException", 429);
    ("InvalidPasswordException", 400);
    ("UsernameExistsException", 409);
    ("LimitExceededException", 429) ]%list.

Definition generic_error : AppError :=
  mkAppError "An authentication error occurred. Please try again later."
             500 "INTERNAL_AUTH_ERROR" "AppError".

Definition lookup_code (c : string) (table : list (string * Z)) : option Z :=
  match find (fun p => c =? fst p) table with
  | Some p => Some (snd p)
  | None => None
  end.

End ErrorHandler.

(** ** The authentication plugin ([getJwks], [validateToken],
       [authentication]) *)

(** A JSON Web Key as the key endpoint publishes it. *)
Module JWK.
Record t := mk {
  kid : option string;
  kty : string;
  alg : string;
  n : string;
  e : string
}.
End JWK.

(** The header of a decoded token. *)
Module Header.
Record t := mk {
  alg : option string;
  kid : option string;
  typ : option string
}.
End Header.

(** The claims of a decoded token; the instants are seconds. *)
Module Payload.
Record t := mk {
  sub : option string;
  email : option string;
  iss : option string;
  iat : option Z;
  nbf : option Z;
  exp : option Z
}.
End Payload.

Module AuthPlugin.

(** *** Exceptions and results *)

Inductive Exn :=
| Error (message : string)                 (* [new Error(message)] *)
| TypeError (message : string)             (* a property of [undefined] *)
| LibraryError (name message : string).    (* thrown inside a dependency *)

Inductive Result (A : Type) :=
| Ok (a : A)
| Throw (e : Exn).
Arguments Ok {A} a.
Arguments Throw {A} e.

(** *** The dependencies

    [jsonwebtoken] and [jwk-to-pem] are not part of the repository.
    Parsing and public-key arithmetic stay abstract; what the source
    relies on ([decode] before [verify], the checks [verify] makes for
    the options it is given) is written out in [jwt_verify] below. *)

Definition Pem := string.

Record Jwt := mkJwt {
  header : Header.t;
  payload : Payload.t;
  signature : string
}.

Class JwtLibrary := {
  (** [jwt.decode(token, { complete: true })]; [Ok None] is [null]. *)
  jwt_decode : string -> Result (option Jwt);
  (** [jws.verify(token, alg, key)], with the checks of the key material
      that precede it. *)
  jws_verify : string -> string -> Pem -> bool;
  (** [jwkToPem(key)]; it throws on a key it cannot convert. *)
  jwkToPem : JWK.t -> Result Pem
}.

(** [process.env]. *)
Class ProcessEnv := {
  AWS_COGNITO_USER_POOL_ID : option string;
  AWS_REGION : option string
}.

(** *** The world: module state, surroundings, and what was done *)

Record JwksDocument := mkDoc { keys : option (list JWK.t) }.

(** How one [axios.get] ends: rejected, or resolved with [data]. *)
Inductive AxiosOutcome :=
| Rejected
| Resolved (data : option JwksDocument).

Inductive Event :=
| EvCall (fn : string)        (* entry of a function of the plugin *)
| EvDateNow                   (* [Date.now()] *)
| EvHttpGet (url : string)    (* [axios.get(url)] *)
| EvConsoleError (text : string).

Record World := mkWorld {
  jwksCache : option (list JWK.t);   (* [let jwksCache: any = null] *)
  jwksLastFetch : Z;                 (* [let jwksLastFetch = 0] *)
  clock : nat -> Z;                  (* what the k-th [Date.now()] reads *)
  network : nat -> AxiosOutcome;     (* how the k-th [axios.get] ends *)
  trace : list Event                 (* latest first *)
}.

Definition is_DateNow (ev : Event) : bool :=
  match ev with EvDateNow => true | _ => false end.
Definition is_HttpGet (ev : Event) : bool :=
  match ev with EvHttpGet _ => true | _ => false end.
Definition is_Call (fn : string) (ev : Event) : bool :=
  match ev with EvCall g => g =? fn | _ => false end.

Definition count (p : Event -> bool) (w : World) : nat :=
  List.length (filter p (trace w)).

(** The number of clock readings, of key fetches, of calls so far. *)
Definition ticks (w : World) : nat := count is_DateNow w.
Definition fetches (w : World) : nat := count is_HttpGet w.
Definition calls (fn : string) (w : World) : nat := count (is_Call fn) w.

Definition log (ev : Event) (w : World) : World :=
  mkWorld (jwksCache w) (jwksLastFetch w) (clock w) (network w)
          (ev :: trace w).

(** The state of a process that has just started. *)
Definition boot (clock : nat -> Z) (network : nat -> AxiosOutcome) : World :=
  mkWorld None 0 clock network [].

(** *** Computations: state that survives a [throw] *)

Definition M (A : Type) : Type := World -> Result A * World.

Definition ret {A} (a : A) : M A := fun w => (Ok a, w).
Definition throw {A} (e : Exn) : M A := fun w => (Throw e, w).
Definition bind {A B} (m : M A) (k : A -> M B) : M B :=
  fun w =>
    match m w with
    | (Ok a, w') => k a w'
    | (Throw e, w') => (Throw e, w')
    end.
Definition try_catch {A} (body : M A) (handler : Exn -> M A) : M A :=
  fun w =>
    match body w with
    | (Ok a, w') => (Ok a, w')
    | (Throw e, w') => handler e w'
    end.
Definition lift {A} (r : Result A) : M A := fun w => (r, w).
Definition emit (ev : Event) : M unit := fun w => (Ok tt, log ev w).

Notation "x <- m ;; k" := (bind m (fun x => k))
  (at level 61, m at next level, right associativity).
Notation "m ;;; k" := (bind m (fun _ => k))
  (at level 61, right associativity).

Definition Date_now : M Z :=
  fun w => (Ok (clock w (ticks w)), log EvDateNow w).

Definition axios_get (url : string) : M (option JwksDocument) :=
  fun w =>
    match network w (fetches w) with
    | Rejected => (Throw (LibraryError "AxiosError" "Network Error"),
                   log (EvHttpGet url) w)
    | Resolved data => (Ok data, log (EvHttpGet url) w)
    end.

Definition get_jwksCache : M (option (list JWK.t)) :=
  fun w => (Ok (jwksCache w), w).
Definition get_jwksLastFetch : M Z :=
  fun w => (Ok (jwksLastFetch w), w).
Definition set_jwksCache (v : option (list JWK.t)) : M unit :=
  fun w => (Ok tt, mkWorld v (jwksLastFetch w) (clock w) (network w) (trace w)).
Definition set_jwksLastFetch (v : Z) : M unit :=
  fun w => (Ok tt, mkWorld (jwksCache w) v (clock w) (network w) (trace w)).

Section Plugin.
Context {lib : JwtLibrary} {env : ProcessEnv}.

Definition USER_POOL_ID : option string := AWS_COGNITO_USER_POOL_ID.
Definition REGION : option string := AWS_REGION.

Definition JWK_URL : string :=
  "https://cognito-idp." ++ JS.render REGION ++ ".amazonaws.com/"
    ++ JS.render USER_POOL_ID ++ "/.well-known/jwks.json".

Definition CACHE_TTL : Z := 24 * 60 * 60 * 1000.

(** [!jwksCache]: an array, even an empty one, is truthy. *)
Definition no_cache (cache : option (list JWK.t)) : bool :=
  match cache with Some _ => false | None => true end.

Definition getJwks : M (option (list JWK.t)) :=
  emit (EvCall "getJwks") ;;;
  now <- Date_now ;;
  cache <- get_jwksCache ;;
  last <- get_jwksLastFetch ;;
  (if no_cache cache || (now - last >? CACHE_TTL) then
     try_catch
       (response_data <- axios_get JWK_URL ;;
        match response_data with
        | None => throw (TypeError "Cannot read properties of undefined")
        | Some data =>
            set_jwksCache (keys data) ;;;
            set_jwksLastFetch now
        end)
       (fun error =>
          emit (EvConsoleError "Error fetching JWKs from Cognito:") ;;;
          throw (Error "Failed to retrieve JWKs"))
   else ret tt) ;;;
  get_jwksCache.

(** *** [jwt.verify(token, pem, { issuer, algorithms })]

    Modelled on [verify] of [jsonwebtoken], which is a dependency and
    not a source of the repository: its checks for these two options,
    in its order:
    the token decodes, its algorithm is on the list, the signature
    holds for the key, [nbf] is not ahead of the clock, [exp] is, the
    issuer is the given one.  The clock is read once, in seconds. *)
Record VerifyOptions := mkOptions {
  issuer : string;
  algorithms : list string
}.

Definition lib_error (message : string) : Exn :=
  LibraryError "JsonWebTokenError" message.

Definition jwt_verify (token : string) (pem : Pem)
    (options : VerifyOptions) : M Payload.t :=
  now <- Date_now ;;
  let clockTimestamp := now / 1000 in
  decoded <- lift (jwt_decode token) ;;
  match decoded with
  | None => throw (lib_error "invalid token")
  | Some decodedToken =>
      let alg := Header.alg (header decodedToken) in
      let payload := payload decodedToken in
      if negb (existsb (fun a => JS.strict_eq (Some a) alg)
                       (algorithms options)) then
        throw (lib_error "invalid algorithm")
      else if negb (jws_verify token (JS.render alg) pem) then
        throw (lib_error "invalid signature")
      else if match Payload.nbf payload with
              | Some nbf => nbf >? clockTimestamp
              | None => false
              end then
        throw (LibraryError "NotBeforeError" "jwt not active")
      else if match Payload.exp payload with
              | Some exp => clockTimestamp >=? exp
              | None => false
              end then
        throw (LibraryError "TokenExpiredError" "jwt expired")
      else if negb (JS.strict_eq (Payload.iss payload)
                                 (Some (issuer options))) then
        throw (lib_error "jwt issuer invalid")
      else ret payload
  end.

Definition expected_issuer : string :=
  "https://cognito-idp." ++ JS.render REGION ++ ".amazonaws.com/"
    ++ JS.render USER_POOL_ID.

(** [jwks.find((k) => k.kid === kid)]; a [TypeError] when [jwks] is
    not an array. *)
Definition find_key (jwks : option (list JWK.t)) (kid : option string)
  : M (option JWK.t) :=
  match jwks with
  | None => throw (TypeError "Cannot read properties of undefined")
  | Some l => ret (find (fun k => JS.strict_eq (JWK.kid k) kid) l)
  end.

Definition validateToken (token : string) : M Payload.t :=
  emit (EvCall "validateToken") ;;;
  decodedToken <- lift (jwt_decode token) ;;
  match decodedToken with
  | None => throw (Error "Invalid token format")
  | Some decodedToken =>
      if negb (JS.truthy (Header.kid (header decodedToken))) then
        throw (Error "Invalid token format")
      else
        jwks <- getJwks ;;
        key <- find_key jwks (Header.kid (header decodedToken)) ;;
        match key with
        | None => throw (Error "Invalid token signature: Key ID not found")
        | Some key =>
            pem <- lift (jwkToPem key) ;;
            try_catch
              (jwt_verify token pem
                 (mkOptions expected_issuer ["RS256"]))
              (fun error =>
                 emit (EvConsoleError "JWT Verification Failed:") ;;;
                 throw (Error "Invalid token"))
        end
  end.

(** *** The request, the reply, and the decorator *)

Record Request := mkRequest {
  cookies : list (string * string);
  user : option Payload.t
}.

Record Body := mkBody { message : string }.

Record Reply := mkReply {
  statusCode : Z;
  sent : option Body
}.

Definition code (reply : Reply) (c : Z) : Reply := mkReply c (sent reply).
Definition send (reply : Reply) (b : Body) : Reply :=
  mkReply (statusCode reply) (Some b).

(** [request.cookies.authToken]: the first cookie of that name. *)
Definition cookie (name : string) (request : Request) : option string :=
  match find (fun c => fst c =? name) (cookies request) with
  | Some c => Some (snd c)
  | None => None
  end.

Definition set_user (request : Request) (v : Payload.t) : Request :=
  mkRequest (cookies request) (Some v).

(** Past the test [!token] the cookie is a non-empty string, which
    [JS.render] hands over as it is.  The function answers through
    [reply] and [request]: both are returned as it leaves them. *)
Definition authentication (request : Request) (reply : Reply)
  : M (Request * Reply) :=
  try_catch
    (let token := cookie "authToken" request in
     if negb (JS.truthy token) then
       ret (request,
            send (code reply 401)
                 (mkBody "No authentication token provided"))
     else
       verifiedToken <- validateToken (JS.render token) ;;
       ret (set_user request verifiedToken, reply))
    (fun error =>
       ret (request,
            send (code reply 401)
                 (mkBody "Invalid authentication token"))).

(** *** Vocabulary for the statements *)

(** The test of [getJwks]: no cached set, or one older than the TTL at
    the instant [getJwks] reads. *)
Definition needs_fetch (w : World) : bool :=
  no_cache (jwksCache w)
  || (clock w (ticks w) - jwksLastFetch w >? CACHE_TTL).

(** A fetch fails when the request is rejected or carries no data. *)
Definition fetch_fails (outcome : AxiosOutcome) : bool :=
  match outcome with
  | Rejected | Resolved None => true
  | Resolved (Some _) => false
  end.

(** The worlds [getJwks] leaves behind on its three paths. *)
Definition after_hit (w : World) : World :=
  log EvDateNow (log (EvCall "getJwks") w).

Definition after_refresh (w : World) (data : JwksDocument) : World :=
  mkWorld (keys data) (clock w (ticks w)) (clock w) (network w)
          (EvHttpGet JWK_URL :: EvDateNow :: EvCall "getJwks" :: trace w).

Definition after_failure (w : World) : World :=
  mkWorld (jwksCache w) (jwksLastFetch w) (clock w) (network w)
          (EvConsoleError "Error fetching JWKs from Cognito:"
           :: EvHttpGet JWK_URL :: EvDateNow :: EvCall "getJwks"
           :: trace w).

(** The world in which [validateToken], called in [w], calls
    [getJwks], and the instant its [jwt.verify] reads: [getJwks] has
    read the clock once before. *)
Definition entered (w : World) : World := log (EvCall "validateToken") w.
Definition verify_instant (w : World) : Z := clock w (S (ticks w)).

(** Steps 1 to 3 of [validateToken] pass: the token decodes, names a
    key identifier, [getJwks] returns a set holding a key of that
    identifier, and the key converts. *)
Definition resolves (token : string) (w : World) (key : JWK.t)
    (pem : Pem) : Prop :=
  exists decodedToken jwks,
    jwt_decode token = Ok (Some decodedToken)
    /\ JS.truthy (Header.kid (header decodedToken)) = true
    /\ fst (getJwks (entered w)) = Ok (Some jwks)
    /\ find (fun k => JS.strict_eq (JWK.kid k)
                                   (Header.kid (header decodedToken)))
            jwks = Some key
    /\ jwkToPem key = Ok pem.

(** The token's expiry lies before the instant (in milliseconds). *)
Definition expired (decodedToken : Jwt) (instant : Z) : Prop :=
  exists exp,
    Payload.exp (payload decodedToken) = Some exp /\ exp * 1000 < instant.

(** What stands behind an identity: a key of the cache [w'] carries
    the token's key identifier and validates its signature under
    RS256, the issuer is the configured one, the expiry is ahead. *)
Definition validated (token : string) (verified : Payload.t)
    (w' : World) (instant : Z) : Prop :=
  exists decodedToken key pem cached,
    jwt_decode token = Ok (Some decodedToken)
    /\ verified = payload decodedToken
    /\ JS.truthy (Header.kid (header decodedToken)) = true
    /\ jwksCache w' = Some cached
    /\ In key cached
    /\ JWK.kid key = Header.kid (header decodedToken)
    /\ jwkToPem key = Ok pem
    /\ Header.alg (header decodedToken) = Some "RS256"
    /\ jws_verify token "RS256" pem = true
    /\ Payload.iss verified = Some expected_issuer
    /\ (forall exp, Payload.exp verified = Some exp ->
                    instant / 1000 < exp).

(** No key of the cache carries the token's key identifier. *)
Definition unknown_kid (decodedToken : Jwt) (w' : World) : Prop :=
  forall cached key,
    jwksCache w' = Some cached -> In key cached ->
    JWK.kid key <> Header.kid (header decodedToken).

(** The two replies of [authentication]. *)
Definition no_token_reply (reply : Reply) : Reply :=
  send (code reply 401) (mkBody "No authentication token provided").
Definition invalid_token_reply (reply : Reply) : Reply :=
  send (code reply 401) (mkBody "Invalid authentication token").

End Plugin.

End AuthPlugin.

(** ** The standards the specification names

    "HMAC with SHA-256 ..., base64-encoded" refers to three published
    functions.  They are written here from the text of the standards
    themselves (FIPS 180-4 for the hash, RFC 2104 for the MAC, RFC 4648
    for the encoding), with arithmetic on numbers where the standards
    speak of numbers and with words and blocks found by their index, and
    they share no definition with the model of Node's [crypto] above. *)
Module Standard.
Local Open Scope list_scope.

(** The octets of a string. *)
Definition octets (s : string) : list Z :=
  map (fun a => Z.of_nat (nat_of_ascii a)) (list_ascii_of_string s).

(** *** FIPS 180-4: SHA-256 *)

(** Section 3.2: operations on words of 32 bits. *)
Definition SHR (n x : Z) : Z := x / 2 ^ n.
Definition ROTR (n x : Z) : Z :=
  Z.lor (x / 2 ^ n) ((x * 2 ^ (32 - n)) mod 2 ^ 32).

(** Section 4.1.2: the six logical functions. *)
Definition Ch (x y z : Z) : Z :=
  Z.lxor (Z.land x y) (Z.land (Z.lxor x (Z.ones 32)) z).
Definition Maj (x y z : Z) : Z :=
  Z.lxor (Z.lxor (Z.land x y) (Z.land x z)) (Z.land y z).
Definition Sigma0 (x : Z) : Z :=
  Z.lxor (Z.lxor (ROTR 2 x) (ROTR 13 x)) (ROTR 22 x).
Definition Sigma1 (x : Z) : Z :=
  Z.lxor (Z.lxor (ROTR 6 x) (ROTR 11 x)) (ROTR 25 x).
Definition sigma0 (x : Z) : Z :=
  Z.lxor (Z.lxor (ROTR 7 x) (ROTR 18 x)) (SHR 3 x).
Definition sigma1 (x : Z) : Z :=
  Z.lxor (Z.lxor (ROTR 17 x) (ROTR 19 x)) (SHR 10 x).

(** Section 4.2.2: the sixty-four constants, in decimal. *)
Definition K : list Z :=
  [ 1116352408; 1899447441; 3049323471; 3921009573; 961987163; 1508970993;
    2453635748; 2870763221; 3624381080; 310598401; 607225278; 1426881987;
    1925078388; 2162078206; 2614888103; 3248222580; 3835390401; 4022224774;
    264347078; 604807628; 770255983; 1249150122; 1555081692; 1996064986;
    2554220882; 2821834349; 2952996808; 3210313671; 3336571891; 3584528711;
    113926993; 338241895; 666307205; 773529912; 1294757372; 1396182291;
    1695183700; 1986661051; 2177026350; 2456956037; 2730485921; 2820302411;
    3259730800; 3345764771; 3516065817; 3600352804; 4094571909; 275423344;
    430227734; 506948616; 659060556; 883997877; 958139571; 1322822218;
    1537002063; 1747873779; 1955562222; 2024104815; 2227730452; 2361852424;
    2428436474; 2756734187; 3204031479; 3329325298 ].

(** Section 5.3.3: the initial hash value. *)
Definition H0 : list Z :=
  [ 1779033703; 3144134277; 1013904242; 2773480762; 1359893119; 2600822924;
    528734635; 1541459225 ].

(** A number on [n] octets, the most significant first. *)
Fixpoint big_endian (n : nat) (x : Z) : list Z :=
  match n with
  | O => []
  | S n' => (x / 256 ^ Z.of_nat n') mod 256 :: big_endian n' x
  end.

(** Section 5.1.1: after the message come the bit 1, then as few zero
    bits as bring the length to 448 modulo 512, then the length of the
    message in bits on 64 bits.  In octets: [128], zeroes up to 56
    modulo 64, eight octets of length. *)
Definition padding (len : Z) : list Z :=
  128 :: repeat 0 (Z.to_nat ((56 - (len + 1)) mod 64))
  ++ big_endian 8 (8 * len).

(** Section 5.2.1: the padded message is parsed into blocks of sixteen
    words; word [i] of the message is made of its octets [4i .. 4i+3]. *)
Definition word_at (M : list Z) (i : nat) : Z :=
  Z.lor (nth (4 * i) M 0 * 2 ^ 24)
 (Z.lor (nth (4 * i + 1) M 0 * 2 ^ 16)
 (Z.lor (nth (4 * i + 2) M 0 * 2 ^ 8)
        (nth (4 * i + 3) M 0))).

Definition block (M : list Z) (i : nat) : list Z :=
  map (fun t => word_at M (16 * i + t)%nat) (seq 0 16).

(** Section 6.2.2, step 1: the message schedule [W0 .. W63];
    [W_t = sigma1(W_(t-2)) + W_(t-7) + sigma0(W_(t-15)) + W_(t-16)],
    the sum taken modulo [2^32]. *)
Definition next_word (W : list Z) : Z :=
  let t := List.length W in
  (sigma1 (nth (t - 2) W 0) + nth (t - 7) W 0
   + sigma0 (nth (t - 15) W 0) + nth (t - 16) W 0) mod 2 ^ 32.

Fixpoint extend (n : nat) (W : list Z) : list Z :=
  match n with
  | O => W
  | S n' => extend n' (W ++ [next_word W])
  end.

Definition message_schedule (block : list Z) : list Z := extend 48 block.

(** Section 6.2.2, steps 2 and 3: the eight working variables and the
    step for index [t]. *)
Definition variables := (Z * Z * Z * Z * Z * Z * Z * Z)%type.

Definition step (W : list Z) (t : nat) (v : variables) : variables :=
  let '(a, b, c, d, e, f, g, h) := v in
  let T1 := (h + Sigma1 e + Ch e f g + nth t K 0 + nth t W 0) mod 2 ^ 32 in
  let T2 := (Sigma0 a + Maj a b c) mod 2 ^ 32 in
  ((T1 + T2) mod 2 ^ 32, a, b, c, (d + T1) mod 2 ^ 32, e, f, g).

(** The steps for [t = 0 .. n - 1]. *)
Fixpoint steps (n : nat) (W : list Z) (v : variables) : variables :=
  match n with
  | O => v
  | S t => step W t (steps t W v)
  end.

(** Section 6.2.2, step 4: the next hash value. *)
Definition hash_block (H : list Z) (block : list Z) : list Z :=
  let W := message_schedule block in
  let '(a, b, c, d, e, f, g, h) :=
    steps 64 W (nth 0 H 0, nth 1 H 0, nth 2 H 0, nth 3 H 0,
                nth 4 H 0, nth 5 H 0, nth 6 H 0, nth 7 H 0) in
  [ (a + nth 0 H 0) mod 2 ^ 32; (b + nth 1 H 0) mod 2 ^ 32;
    (c + nth 2 H 0) mod 2 ^ 32; (d + nth 3 H 0) mod 2 ^ 32;
    (e + nth 4 H 0) mod 2 ^ 32; (f + nth 5 H 0) mod 2 ^ 32;
    (g + nth 6 H 0) mod 2 ^ 32; (h + nth 7 H 0) mod 2 ^ 32 ].

(** The hash value after the first [n] blocks of [M]. *)
Fixpoint hash_blocks (n : nat) (M : list Z) : list Z :=
  match n with
  | O => H0
  | S i => hash_block (hash_blocks i M) (block M i)
  end.

Definition sha256 (message : list Z) : list Z :=
  let M := message ++ padding (Z.of_nat (List.length message)) in
  flat_map (big_endian 4) (hash_blocks (List.length M / 64) M).

(** *** RFC 2104: HMAC

    [H(K XOR opad, H(K XOR ipad, text))] for a hash [H] with blocks of
    [B] octets, where [ipad] is the octet [0x36] and [opad] the octet
    [0x5C], each repeated [B] times, and [K] is the key with zeroes
    appended up to [B] octets, a key longer than [B] being hashed
    first. *)
Section HMAC.
Variable H : list Z -> list Z.
Variable B : nat.

Definition xor (x y : list Z) : list Z :=
  map (fun p => Z.lxor (fst p) (snd p)) (combine x y).

Definition ipad : list Z := repeat 54 B.
Definition opad : list Z := repeat 92 B.

Definition key_block (key : list Z) : list Z :=
  let key' := if (B <? List.length key)%nat then H key else key in
  key' ++ repeat 0 (B - List.length key').

Definition hmac (key text : list Z) : list Z :=
  H (xor (key_block key) opad ++ H (xor (key_block key) ipad ++ text)).

End HMAC.

Definition hmac_sha256 : list Z -> list Z -> list Z := hmac sha256 64.

(** *** RFC 4648, section 4: base64

    Three octets form a group of 24 bits, read as four numbers of 6
    bits, each written with the letter of that index.  A last group of
    8 bits gets four zero bits and is written with two letters and
    [==]; one of 16 bits gets two zero bits and is written with three
    letters and [=]. *)
Definition letters : list ascii :=
  list_ascii_of_string
    "ABCDEFGHIJKLMNOPQRSTUVWXYZabcdefghijklmnopqrstuvwxyz0123456789+/".

Definition letter (i : Z) : ascii := nth (Z.to_nat i) letters "="%char.

(** An octet is a number below 256; there are 256 of them. *)
Definition is_octet (x : Z) : Prop := 0 <= x < 256.
Definition all_octets : list Z := map Z.of_nat (seq 0 256).

Fixpoint base64 (octets : list Z) : string :=
  match octets with
  | [] => EmptyString
  | [a] =>
      let group := a * 2 ^ 4 in
      String (letter (group / 2 ^ 6))
     (String (letter (group mod 2 ^ 6)) "==")
  | [a; b] =>
      let group := (a * 2 ^ 8 + b) * 2 ^ 2 in
      String (letter (group / 2 ^ 12))
     (String (letter ((group / 2 ^ 6) mod 2 ^ 6))
     (String (letter (group mod 2 ^ 6)) "="))
  | a :: b :: c :: rest =>
      let group := a * 2 ^ 16 + b * 2 ^ 8 + c in
      String (letter (group / 2 ^ 18))
     (String (letter ((group / 2 ^ 12) mod 2 ^ 6))
     (String (letter ((group / 2 ^ 6) mod 2 ^ 6))
     (String (letter (group mod 2 ^ 6)) (base64 rest))))
  end.

End Standard.

(** ** The specification's wording, for comparison with the code *)
Module Spec.

(** "HMAC with SHA-256 over [username + clientId], keyed by
    [clientSecret], base64-encoded". *)
Definition hash (clientId clientSecret username : string) : string :=
  Standard.base64
    (Standard.hmac_sha256 (Standard.octets clientSecret)
                          (Standard.octets (username ++ clientId))).

End Spec.

(** ** A concrete deployment, to run the program on *)
Module Sample.
Import AuthPlugin.

Definition key_abc : JWK.t := JWK.mk (Some "abc") "RSA" "RS256" "n-abc" "AQAB".
Definition key_xyz : JWK.t := JWK.mk (Some "xyz") "RSA" "RS256" "n-xyz" "AQAB".

Definition iss_ok : string :=
  "https://cognito-idp.us-east-1.amazonaws.com/us-east-1_Pool".

Definition claims (exp : Z) : Payload.t :=
  Payload.mk (Some "user-1") (Some "user@example.com") (Some iss_ok)
             (Some 1700000000) None (Some exp).

(** Six tokens, named by what their header and claims are. *)
Definition tok_abc : string := "token:kid=abc,alg=RS256".
Definition tok_xyz : string := "token:kid=xyz,alg=RS256".
Definition tok_hs256 : string := "token:kid=abc,alg=HS256".
Definition tok_none_nokid : string := "token:alg=none".
Definition tok_expired : string := "token:kid=abc,alg=RS256,exp=1000".
Definition tok_expired_xyz : string := "token:kid=xyz,alg=RS256,exp=1000".

Definition decode (token : string) : Result (option Jwt) :=
  if token =? tok_abc then
    Ok (Some (mkJwt (Header.mk (Some "RS256") (Some "abc") (Some "JWT"))
                    (claims 1800000000) "sig-abc"))
  else if token =? tok_xyz then
    Ok (Some (mkJwt (Header.mk (Some "RS256") (Some "xyz") (Some "JWT"))
                    (claims 1800000000) "sig-xyz"))
  else if token =? tok_hs256 then
    Ok (Some (mkJwt (Header.mk (Some "HS256") (Some "abc") (Some "JWT"))
                    (claims 1800000000) "mac-abc"))
  else if token =? tok_none_nokid then
    Ok (Some (mkJwt (Header.mk (Some "none") None (Some "JWT"))
                    (claims 1800000000) ""))
  else if token =? tok_expired then
    Ok (Some (mkJwt (Header.mk (Some "RS256") (Some "abc") (Some "JWT"))
                    (claims 1000) "sig-abc"))
  else if token =? tok_expired_xyz then
    Ok (Some (mkJwt (Header.mk (Some "RS256") (Some "xyz") (Some "JWT"))
                    (claims 1000) "sig-xyz"))
  else Ok None.

(** A key converts to a text naming its modulus; a token verifies
    under the key whose identifier it names, whatever its algorithm. *)
Definition to_pem (key : JWK.t) : Result Pem := Ok ("PEM:" ++ JWK.n key).

Definition verifies (token alg : string) (pem : Pem) : bool :=
  match decode token with
  | Ok (Some d) =>
      match Header.kid (header d) with
      | Some k => pem =? "PEM:n-" ++ k
      | None => false
      end
  | _ => false
  end.

#[export] Instance lib : JwtLibrary := {
  jwt_decode := decode;
  jws_verify := verifies;
  jwkToPem := to_pem
}.

#[export] Instance env : ProcessEnv := {
  AWS_COGNITO_USER_POOL_ID := Some "us-east-1_Pool";
  AWS_REGION := Some "us-east-1"
}.

(** Instants, in milliseconds. *)
Definition t0 : Z := 1700000000000.
Definition one_minute : Z := 60 * 1000.
Definition one_day : Z := 24 * 60 * 60 * 1000.

Definition up (_ : nat) : AxiosOutcome :=
  Resolved (Some (mkDoc (Some [key_abc; key_xyz]))).
Definition down (_ : nat) : AxiosOutcome := Rejected.

(** The cache holds [key_abc]; it was fetched at [t0]; it is [age] old. *)
Definition cached (age : Z) (network : nat -> AxiosOutcome) : World :=
  mkWorld (Some [key_abc]) t0 (fun _ => t0 + age) network [].

(** An error of the identity provider. *)
Definition limit_exceeded : option ErrorHandler.RawError :=
  Some (ErrorHandler.mkRawError
          (Some "LimitExceededException") None
          (Some "Attempt limit exceeded, please try after some time.")).

Definition request_with (token : string) : Request :=
  mkRequest [("authToken", token)] None.
Definition request_without : Request :=
  mkRequest [("email", "user@example.com")] None.
Definition fresh_reply : Reply := mkReply 200 None.

End Sample.

(** ** The rest of [src/utils/error-handler.ts]: [AuthError] and
       [sendErrorResponse] *)

(** What the JavaScript engine provides and the source relies on. *)
Module Runtime.

Class t := {
  (** [String.prototype.toLowerCase]. *)
  toLowerCase : string -> string;
  (** The text of the [TypeError] raised by destructuring [undefined]. *)
  destructure_undefined : string
}.

(** [s.includes(needle)]. *)
Fixpoint includes (s needle : string) : bool :=
  prefix needle s
  || match s with
     | String _ rest => includes rest needle
     | EmptyString => false
     end.

End Runtime.

(** Values handed to [reply.send], requests and replies of the routes. *)
Module Http.

#[local] Set Warnings "-register-all".
Inductive Json :=
| JUndefined
| JNull
| JString (s : string)
| JObject (fields : list (string * Json)).

(** A string or [null] as a property value. *)
Definition null_or (v : option string) : Json :=
  match v with
  | Some s => JString s
  | None => JNull
  end.

(** A possibly undefined string as a property value. *)
Definition optional (v : option string) : Json :=
  match v with
  | Some s => JString s
  | None => JUndefined
  end.

Record CookieOptions := mkOptions {
  httpOnly : bool;
  secure : bool;
  sameSite : string;
  path : string;
  maxAge : option Z
}.

Inductive CookieOp :=
| SetCookie (name : string) (value : option string) (options : CookieOptions)
| ClearCookie (name : string).

Record Reply := mkReply {
  statusCode : Z;
  cookieOps : list CookieOp;     (* in the order of the calls *)
  sent : option Json
}.

Definition code (reply : Reply) (c : Z) : Reply :=
  mkReply c (cookieOps reply) (sent reply).
Definition send (reply : Reply) (payload : Json) : Reply :=
  mkReply (statusCode reply) (cookieOps reply) (Some payload).
Definition setCookie (reply : Reply) (name : string) (value : option string)
    (options : CookieOptions) : Reply :=
  mkReply (statusCode reply)
          (cookieOps reply ++ [SetCookie name value options])%list
          (sent reply).
Definition clearCookie (reply : Reply) (name : string) : Reply :=
  mkReply (statusCode reply) (cookieOps reply ++ [ClearCookie name])%list
          (sent reply).

(** [request.body.user]: the fields the schemas of the routes require. *)
Record UserFields := mkUser {
  email : string;
  password : string;
  firstName : string;
  lastName : string;
  confirmationCode : string;
  code_ : string
}.

Record Request := mkRequest {
  cookies : list (string * string);
  origin : option string;        (* [request.headers.origin] *)
  body_user : UserFields
}.

(** [request.cookies[name]]: the first cookie of that name. *)
Definition cookie (name : string) (request : Request) : option string :=
  match find (fun c => fst c =? name) (cookies request) with
  | Some c => Some (snd c)
  | None => None
  end.

End Http.

Module ErrorResponse.
Import ErrorHandler.

(** [new AuthError(message, errorCode)]: an [AppError] with status 401. *)
Definition new_AuthError (message errorCode : string) : AppError :=
  mkAppError message 401 errorCode "AuthError".

(** A value that was thrown: an instance of [AppError], or any other
    object, of which the fields [__type], [name] and [message] are
    read. *)
Inductive Thrown :=
| App (e : AppError)
| Raw (e : RawError).

(** [new Error(message)]. *)
Definition plain_error (message : string) : Thrown :=
  Raw (mkRawError None (Some "Error") (Some message)).

Section SendErrorResponse.
Context {rt : Runtime.t}.

(** [error.message?.toLowerCase().includes("unauthorized") ||
     error.message?.toLowerCase().includes("token")]. *)
Definition mentions_auth (message : option string) : bool :=
  match message with
  | Some m =>
      Runtime.includes (Runtime.toLowerCase m) "unauthorized"
      || Runtime.includes (Runtime.toLowerCase m) "token"
  | None => false
  end.

(** [message || fallback]. *)
Definition or_else (message : option string) (fallback : string) : string :=
  JS.render (JS.or message (Some fallback)).

(** The [AppError] the response is built from. *)
Definition to_AppError (error : Thrown) : AppError :=
  let error :=
    match error with
    | Raw raw =>
        if mentions_auth (raw_message raw) then
          App (new_AuthError
                 (or_else (raw_message raw) "Authentication required")
                 "AUTH_REQUIRED")
        else error
    | App _ => error
    end in
  match error with
  | App e => e
  | Raw raw =>
      if JS.truthy (__type raw) then handleCognitoError (Some raw)
      else new_AppError
             (or_else (raw_message raw) "An unexpected error occurred")
             (Some 500) None
  end.

Definition sendErrorResponse (reply : Http.Reply) (error : Thrown)
    (requestId : option string) : Http.Reply :=
  let appError := to_AppError error in
  Http.send (Http.code reply (statusCode appError))
    (Http.JObject
       [ ("error", Http.JString (message appError));
         ("errorCode", Http.JString (errorCode appError));
         ("requestId", Http.optional requestId) ]).

End SendErrorResponse.

(** The statuses the mapper and the responder can produce by
    themselves. *)
Definition own_statuses : list Z := [400; 401; 403; 404; 409; 429; 500].

(** The body [sendErrorResponse] sends for an [AppError]. *)
Definition error_body (e : AppError) (requestId : option string) : Http.Json :=
  Http.JObject
    [ ("error", Http.JString (message e));
      ("errorCode", Http.JString (errorCode e));
      ("requestId", Http.optional requestId) ].

(** The same thrown object with another [name]. *)
Definition rename (raw : RawError) (name : option string) : RawError :=
  mkRawError (__type raw) name (raw_message raw).

End ErrorResponse.

(** ** [src/services/user-service.ts] *)
Module UserService.
Import ErrorHandler ErrorResponse.

Record AttributeType := mkAttr {
  Name : string;
  Value : option string
}.

Record AuthenticationResultType := mkAuth {
  AccessToken : option string;
  RefreshToken : option string
}.

(** The part of a command output the service reads. *)
Record Output := mkOutput {
  AuthenticationResult : option AuthenticationResultType;
  UserAttributes : option (list AttributeType)
}.

Inductive Command :=
| SignUpCommand (ClientId Username Password : string)
    (UserAttributes : list AttributeType) (SecretHash : string)
| ConfirmSignUpCommand (Username ConfirmationCode ClientId SecretHash : string)
| InitiateAuthCommand (ClientId AuthFlow : string)
    (AuthParameters : list (string * string))
| GetUserCommand (AccessToken : string)
| ForgotPasswordCommand (ClientId SecretHash Username : string)
| ConfirmForgotPasswordCommand
    (ClientId Username ConfirmationCode Password SecretHash : string)
| ResendConfirmationCodeCommand (ClientId Username SecretHash : string).

(** How [cognitoClient.send] ends. *)
Inductive Outcome :=
| Fails (error : RawError)
| Returns (output : Output).

(** The identity provider, and the two variables the module reads and
    finds set when it is loaded. *)
Class Provider := {
  cognito : Command -> Outcome;
  CLIENT_ID : string;
  CLIENT_SECRET : string
}.

Inductive Result (A : Type) :=
| Ok (a : A)
| Throw (e : Thrown).
Arguments Ok {A} a.
Arguments Throw {A} e.

(** Computations that send commands; the list is what was sent so far,
    latest last. *)
Definition T (A : Type) : Type := list Command -> Result A * list Command.

Definition ret {A} (a : A) : T A := fun sent => (Ok a, sent).
Definition throw {A} (e : Thrown) : T A := fun sent => (Throw e, sent).
Definition bind {A B} (m : T A) (k : A -> T B) : T B :=
  fun sent =>
    match m sent with
    | (Ok a, sent') => k a sent'
    | (Throw e, sent') => (Throw e, sent')
    end.
Definition try_catch {A} (body : T A) (handler : Thrown -> T A) : T A :=
  fun sent =>
    match body sent with
    | (Ok a, sent') => (Ok a, sent')
    | (Throw e, sent') => handler e sent'
    end.

Notation "x <- m ;; k" := (bind m (fun x => k))
  (at level 61, m at next level, right associativity).

Definition USER_PASSWORD_AUTH : string := "USER_PASSWORD_AUTH".
Definition REFRESH_TOKEN_AUTH : string := "REFRESH_TOKEN_AUTH".

Record UserDetails := mkDetails {
  d_email : string;
  d_firstName : string;
  d_lastName : string
}.

Record VerifiedUser := mkVerified {
  v_email : option string;
  v_firstName : option string;
  v_lastName : option string;
  v_userId : option string
}.

(** [attr.Value || null]. *)
Definition or_null (v : option string) : option string :=
  if JS.truthy v then v else None.

(** One turn of the loop of [verifyUser]. *)
Definition read_attribute (u : VerifiedUser) (attr : AttributeType)
  : VerifiedUser :=
  if Name attr =? "email" then
    mkVerified (or_null (Value attr)) (v_firstName u) (v_lastName u) (v_userId u)
  else if Name attr =? "given_name" then
    mkVerified (v_email u) (or_null (Value attr)) (v_lastName u) (v_userId u)
  else if Name attr =? "family_name" then
    mkVerified (v_email u) (v_firstName u) (or_null (Value attr)) (v_userId u)
  else if Name attr =? "sub" then
    mkVerified (v_email u) (v_firstName u) (v_lastName u) (or_null (Value attr))
  else u.

Definition read_attributes (attrs : option (list AttributeType))
  : VerifiedUser :=
  match attrs with
  | Some l => fold_left read_attribute l (mkVerified None None None None)
  | None => mkVerified None None None None
  end.

Section Service.
Context {provider : Provider}.

(** [cognitoClient.send(command)]. *)
Definition cognitoClient_send (command : Command) : T Output :=
  fun sent =>
    match cognito command with
    | Fails error => (Throw (Raw error), sent ++ [command])%list
    | Returns output => (Ok output, sent ++ [command])%list
    end.

Definition generateSecretHash (email : string) : string :=
  CryptoUtils.calculateSecretHash CLIENT_ID CLIENT_SECRET email.

Definition createUser (user : Http.UserFields) : T UserDetails :=
  _ <- cognitoClient_send (SignUpCommand CLIENT_ID (Http.email user) (Http.password user)
               [ mkAttr "email" (Some (Http.email user));
                 mkAttr "given_name" (Some (Http.firstName user));
                 mkAttr "family_name" (Some (Http.lastName user)) ]
               (generateSecretHash (Http.email user))) ;;
  ret (mkDetails (Http.email user) (Http.firstName user) (Http.lastName user)).

Definition confirmUser (email confirmationCode : string) : T unit :=
  _ <- cognitoClient_send (ConfirmSignUpCommand email confirmationCode CLIENT_ID
               (generateSecretHash email)) ;;
  ret tt.

Definition login (email password : string) : T AuthenticationResultType :=
  let secretHash := CryptoUtils.calculateSecretHash CLIENT_ID CLIENT_SECRET email in
  response <- cognitoClient_send (InitiateAuthCommand CLIENT_ID USER_PASSWORD_AUTH
                      [ ("USERNAME", email); ("PASSWORD", password);
                        ("SECRET_HASH", secretHash) ]) ;;
  match AuthenticationResult response with
  | Some result =>
      if JS.truthy (AccessToken result) then ret result
      else throw (plain_error "Missing authentication token")
  | None => throw (plain_error "Missing authentication token")
  end.

Definition verifyUser (token : option string) : T VerifiedUser :=
  if negb (JS.truthy token) then
    throw (App (new_AuthError "Authentication required" "MISSING_TOKEN"))
  else
    response <- cognitoClient_send (GetUserCommand (JS.render token)) ;;
    ret (read_attributes (UserAttributes response)).

Definition forgotPassword (email : string) : T unit :=
  _ <- cognitoClient_send (ForgotPasswordCommand CLIENT_ID (generateSecretHash email) email) ;;
  ret tt.

Definition confirmForgotPassword (email code password : string) : T unit :=
  _ <- cognitoClient_send (ConfirmForgotPasswordCommand CLIENT_ID email code password
               (generateSecretHash email)) ;;
  ret tt.

Definition resendConfirmationCode (email : string) : T unit :=
  _ <- cognitoClient_send (ResendConfirmationCodeCommand CLIENT_ID email
               (generateSecretHash email)) ;;
  ret tt.

Definition refreshToken (refreshToken email : string)
  : T (option AuthenticationResultType) :=
  response <- cognitoClient_send (InitiateAuthCommand CLIENT_ID REFRESH_TOKEN_AUTH
                      [ ("REFRESH_TOKEN", refreshToken);
                        ("SECRET_HASH", generateSecretHash email) ]) ;;
  ret (AuthenticationResult response).

End Service.

(** The user a command names and the secret hash it carries, when it has
    both. *)
Definition named_user (command : Command) : option (string * string) :=
  match command with
  | SignUpCommand _ u _ _ h => Some (u, h)
  | ConfirmSignUpCommand u _ _ h => Some (u, h)
  | InitiateAuthCommand _ _ params =>
      match find (fun p => fst p =? "USERNAME") params,
            find (fun p => fst p =? "SECRET_HASH") params with
      | Some u, Some h => Some (snd u, snd h)
      | _, _ => None
      end
  | GetUserCommand _ => None
  | ForgotPasswordCommand _ h u => Some (u, h)
  | ConfirmForgotPasswordCommand _ u _ _ h => Some (u, h)
  | ResendConfirmationCodeCommand _ u h => Some (u, h)
  end.

(** The value of the last attribute of that name, [null] when there is
    none or when its value is empty. *)
Definition last_value (name : string) (attrs : list AttributeType)
  : option string :=
  match find (fun a => Name a =? name) (rev attrs) with
  | Some a => or_null (Value a)
  | None => None
  end.

End UserService.

(** ** [src/controllers/user-controllers.ts] *)
Module UserController.
Import Http ErrorResponse UserService.

(** [process.env] as the routes read it. *)
Class Process := { NODE_ENV : option string }.

Definition AUTH_TOKEN : string := "authToken".
Definition REFRESH_TOKEN : string := "refreshToken".

(** A user as [verifyUser] returns it, with [null] for what is absent. *)
Definition verified_json (u : VerifiedUser) : Json :=
  JObject [ ("email", null_or (v_email u));
            ("firstName", null_or (v_firstName u));
            ("lastName", null_or (v_lastName u));
            ("userId", null_or (v_userId u)) ].

Definition details_json (u : UserDetails) : Json :=
  JObject [ ("email", JString (d_email u));
            ("firstName", JString (d_firstName u));
            ("lastName", JString (d_lastName u)) ].

Section Routes.
Context {rt : Runtime.t} {provider : Provider} {proc : Process}.

(** [GET /me] *)
Definition get_me (request : Request) (reply : Reply) : T Reply :=
  try_catch
    (user <- verifyUser (cookie "authToken" request) ;;
     ret (send reply (JObject [ ("user", verified_json user) ])))
    (fun error =>
       let reply := clearCookie reply "authToken" in
       let reply := clearCookie reply "refreshToken" in
       let reply := clearCookie reply "email" in
       ret (sendErrorResponse reply error None)).

(** The origins [GET /get-auth-token] answers to. *)
Definition allowedOrigins : list string :=
  let allowedOrigins :=
    [ "https://ai.jonathanmau.com";
      "https://www.ai.jonathanmau.com";
      "https://api.jonathanmau.com" ] in
  if JS.strict_eq NODE_ENV (Some "development")
  then (allowedOrigins ++ [ "http://localhost:5173" ])%list
  else allowedOrigins.

(** [allowedOrigins.includes(requestOrigin)]. *)
Definition origin_allowed (requestOrigin : option string) : bool :=
  existsb (fun o => JS.strict_eq (Some o) requestOrigin) allowedOrigins.

(** [GET /get-auth-token] *)
Definition get_auth_token (request : Request) (reply : Reply) : T Reply :=
  try_catch
    (let requestOrigin := origin request in
     if JS.truthy requestOrigin && negb (origin_allowed requestOrigin) then
       ret (send (code reply 403) (JObject [ ("error", JString "Forbidden") ]))
     else
       let authToken := cookie "authToken" request in
       ret (send reply (JObject [ ("authToken", optional authToken) ])))
    (fun error => ret (sendErrorResponse reply error None)).

(** [POST /] *)
Definition post_signup (request : Request) (reply : Reply) : T Reply :=
  try_catch
    (user <- createUser (body_user request) ;;
     ret (send (code reply 200) (JObject [ ("user", details_json user) ])))
    (fun error => ret (sendErrorResponse reply error None)).

(** [POST /confirm] *)
Definition post_confirm (request : Request) (reply : Reply) : T Reply :=
  try_catch
    (_ <- confirmUser (email (body_user request))
                      (confirmationCode (body_user request)) ;;
     ret (send (code reply 200) (JObject [])))
    (fun error => ret (sendErrorResponse reply error None)).

(** The options both cookie-setting routes start from. *)
Definition cookieConfig (maxAge : option Z) : CookieOptions :=
  mkOptions true (JS.strict_eq NODE_ENV (Some "production")) "strict" "/"
            maxAge.

(** [const { AccessToken, RefreshToken } = ...] of a value that may be
    [undefined]. *)
Definition destructure (result : option AuthenticationResultType)
  : T AuthenticationResultType :=
  match result with
  | Some r => ret r
  | None =>
      throw (Raw (ErrorHandler.mkRawError None (Some "TypeError")
                    (Some Runtime.destructure_undefined)))
  end.

(** [POST /refresh-token] *)
Definition post_refresh_token (request : Request) (reply : Reply) : T Reply :=
  try_catch
    (let refreshToken := cookie "refreshToken" request in
     let email := cookie "email" request in
     if negb (JS.truthy refreshToken) || negb (JS.truthy email) then
       ret (send (code reply 401)
              (JObject [ ("error", JString "Missing refresh token or email");
                         ("errorCode", JString "INVALID_REFRESH_REQUEST") ]))
     else
       result <- UserService.refreshToken (JS.render refreshToken)
                                          (JS.render email) ;;
       tokens <- destructure result ;;
       let reply := setCookie reply AUTH_TOKEN (AccessToken tokens)
                              (cookieConfig (Some (12 * 60 * 60))) in
       let reply :=
         if JS.truthy (RefreshToken tokens) then
           setCookie reply REFRESH_TOKEN (RefreshToken tokens)
                     (cookieConfig (Some (7 * 24 * 60 * 60)))
         else reply in
       ret (send (code reply 200) (JObject [])))
    (fun error =>
       let reply := clearCookie reply AUTH_TOKEN in
       let reply := clearCookie reply REFRESH_TOKEN in
       let reply := clearCookie reply "email" in
       ret (sendErrorResponse reply error None)).

(** [POST /login] *)
Definition post_login (request : Request) (reply : Reply) : T Reply :=
  try_catch
    (tokens <- login (Http.email (body_user request))
                     (password (body_user request)) ;;
     let email := Http.email (body_user request) in
     let reply := setCookie reply AUTH_TOKEN (AccessToken tokens)
                            (cookieConfig None) in
     let reply := setCookie reply REFRESH_TOKEN (RefreshToken tokens)
                            (cookieConfig None) in
     let reply := setCookie reply "email" (Some email) (cookieConfig None) in
     ret (send (code reply 200) (JObject [])))
    (fun error => ret (sendErrorResponse reply error None)).

(** [POST /logout] *)
Definition post_logout (request : Request) (reply : Reply) : T Reply :=
  let reply := clearCookie reply AUTH_TOKEN in
  let reply := clearCookie reply REFRESH_TOKEN in
  let reply := clearCookie reply "email" in
  ret (send (code reply 200) (JObject [])).

(** [POST /forgot-password] *)
Definition post_forgot_password (request : Request) (reply : Reply)
  : T Reply :=
  try_catch
    (_ <- forgotPassword (email (body_user request)) ;;
     ret (send (code reply 200) (JObject [])))
    (fun error => ret (sendErrorResponse reply error None)).

(** [POST /confirm-forgot-password] *)
Definition post_confirm_forgot_password (request : Request) (reply : Reply)
  : T Reply :=
  try_catch
    (_ <- confirmForgotPassword (email (body_user request))
            (code_ (body_user request)) (password (body_user request)) ;;
     ret (send (code reply 200) (JObject [])))
    (fun error => ret (sendErrorResponse reply error None)).

(** [POST /resend-confirmation-code] *)
Definition post_resend_confirmation_code (request : Request) (reply : Reply)
  : T Reply :=
  try_catch
    (_ <- resendConfirmationCode (email (body_user request)) ;;
     ret (send (code reply 200) (JObject [])))
    (fun error => ret (sendErrorResponse reply error None)).

(** The routes, by name. *)
Inductive Route :=
| GetMe | GetAuthToken | PostSignup | PostConfirm | PostRefreshToken
| PostLogin | PostLogout | PostForgotPassword | PostConfirmForgotPassword
| PostResendConfirmationCode.

Definition handle (route : Route) : Request -> Reply -> T Reply :=
  match route with
  | GetMe => get_me
  | GetAuthToken => get_auth_token
  | PostSignup => post_signup
  | PostConfirm => post_confirm
  | PostRefreshToken => post_refresh_token
  | PostLogin => post_login
  | PostLogout => post_logout
  | PostForgotPassword => post_forgot_password
  | PostConfirmForgotPassword => post_confirm_forgot_password
  | PostResendConfirmationCode => post_resend_confirmation_code
  end.

End Routes.

(** The three cookies of a session, cleared in the order of the source. *)
Definition cleared : list CookieOp :=
  [ ClearCookie "authToken"; ClearCookie "refreshToken"; ClearCookie "email" ].

End UserController.

(** ** A concrete application, to run the routes on *)
Module SampleApp.
Import Http ErrorHandler ErrorResponse UserService UserController.

Definition lower_ascii (c : ascii) : ascii :=
  let n := nat_of_ascii c in
  if (Nat.leb 65 n && Nat.leb n 90)%bool then ascii_of_nat (n + 32) else c.

Fixpoint lower (s : string) : string :=
  match s with
  | EmptyString => EmptyString
  | String c rest => String (lower_ascii c) (lower rest)
  end.

(** Lower case of the ASCII letters, which is what the engine does on
    the texts used below. *)
#[export] Instance runtime : Runtime.t := {
  toLowerCase := lower;
  destructure_undefined :=
    "Cannot destructure property 'AccessToken' of '(intermediate value)' as it is undefined."
}.

(** A provider that knows one user and one refresh token. *)
Definition answer (command : Command) : Outcome :=
  match command with
  | InitiateAuthCommand _ flow params =>
      if flow =? "USER_PASSWORD_AUTH" then
        match find (fun p => fst p =? "PASSWORD") params with
        | Some p =>
            if snd p =? "correct horse" then
              Returns (mkOutput (Some (mkAuth (Some "access-1") (Some "refresh-1")))
                                None)
            else Fails (mkRawError (Some "NotAuthorizedException")
                          (Some "NotAuthorizedException")
                          (Some "Incorrect username or password."))
        | None => Returns (mkOutput None None)
        end
      else
        match find (fun p => fst p =? "REFRESH_TOKEN") params with
        | Some p =>
            if snd p =? "refresh-1" then
              Returns (mkOutput (Some (mkAuth (Some "access-2") None)) None)
            else Fails (mkRawError (Some "NotAuthorizedException")
                          (Some "NotAuthorizedException")
                          (Some "Invalid Refresh Token"))
        | None => Returns (mkOutput None None)
        end
  | GetUserCommand token =>
      if token =? "access-1" then
        Returns (mkOutput None
                   (Some [ mkAttr "sub" (Some "user-1");
                           mkAttr "email_verified" (Some "true");
                           mkAttr "given_name" (Some "Ada");
                           mkAttr "family_name" (Some "");
                           mkAttr "email" (Some "old@example.com");
                           mkAttr "email" (Some "user@example.com") ]))
      else Fails (mkRawError (Some "NotAuthorizedException")
                    (Some "NotAuthorizedException")
                    (Some "Invalid Access Token"))
  | _ => Returns (mkOutput None None)
  end.

#[export] Instance provider : Provider := {
  cognito := answer;
  CLIENT_ID := "client123";
  CLIENT_SECRET := "s3cr3t"
}.

#[export] Instance production : Process := { NODE_ENV := Some "production" }.

Definition nobody : UserFields := mkUser "" "" "" "" "" "".
Definition ada (password : string) : UserFields :=
  mkUser "user@example.com" password "Ada" "Lovelace" "" "".

Definition request_of (cookies : list (string * string))
    (origin : option string) (user : UserFields) : Request :=
  mkRequest cookies origin user.

Definition blank : Reply := mkReply 200 [] None.

End SampleApp.

(** ** More vocabulary for the authentication plugin *)
Module AuthPluginRuns.
Import AuthPlugin.

Section Runs.
Context {lib : JwtLibrary} {env : ProcessEnv}.

(** [n] calls of [getJwks] in a row: what each returned, first call
    first, and the world after the last. *)
Fixpoint getJwks_times (n : nat) (w : World)
  : list (Result (option (list JWK.t))) * World :=
  match n with
  | O => ([], w)
  | S n' =>
      let (r, w1) := getJwks w in
      let (rs, w') := getJwks_times n' w1 in
      (r :: rs, w')
  end.

(** The token's [nbf] lies after the instant (in milliseconds), taken in
    whole seconds as [jwt.verify] does. *)
Definition not_yet_valid (decodedToken : Jwt) (instant : Z) : Prop :=
  exists nbf,
    Payload.nbf (payload decodedToken) = Some nbf /\ instant / 1000 < nbf.

(** The checks of step 4 on a decoded token, for the options
    [validateToken] passes. *)
Definition passes (token : string) (decodedToken : Jwt) (pem : Pem)
    (instant : Z) : Prop :=
  Header.alg (header decodedToken) = Some "RS256"
  /\ jws_verify token "RS256" pem = true
  /\ ~ not_yet_valid decodedToken instant
  /\ (forall exp, Payload.exp (payload decodedToken) = Some exp ->
                  instant / 1000 < exp)
  /\ Payload.iss (payload decodedToken) = Some expected_issuer.

End Runs.

End AuthPluginRuns.

(** ** More of the sample deployment: other tokens, other libraries *)
Module SampleMore.
Import AuthPlugin Sample.

Definition key_ec : JWK.t := JWK.mk (Some "ec1") "EC" "ES256" "" "".

Definition tok_foreign : string := "token:kid=abc,alg=RS256,iss=elsewhere".
Definition tok_early : string := "token:kid=abc,alg=RS256,nbf=1900000000".
Definition tok_ec : string := "token:kid=ec1,alg=RS256".
Definition tok_broken : string := "token:payload-not-json".

Definition foreign_claims : Payload.t :=
  Payload.mk (Some "user-1") (Some "user@example.com")
             (Some "https://elsewhere.example/pool")
             (Some 1700000000) None (Some 1800000000).

Definition early_claims : Payload.t :=
  Payload.mk (Some "user-1") (Some "user@example.com") (Some iss_ok)
             (Some 1700000000) (Some 1900000000) (Some 2000000000).

(** The decoder of [Sample], with four more tokens; the last one makes
    it throw. *)
Definition decode_more (token : string) : Result (option Jwt) :=
  if token =? tok_foreign then
    Ok (Some (mkJwt (Header.mk (Some "RS256") (Some "abc") (Some "JWT"))
                    foreign_claims "sig-abc"))
  else if token =? tok_early then
    Ok (Some (mkJwt (Header.mk (Some "RS256") (Some "abc") (Some "JWT"))
                    early_claims "sig-abc"))
  else if token =? tok_ec then
    Ok (Some (mkJwt (Header.mk (Some "RS256") (Some "ec1") (Some "JWT"))
                    (claims 1800000000) "sig-ec1"))
  else if token =? tok_broken then
    Throw (LibraryError "SyntaxError" "Unexpected token in JSON")
  else decode token.

Definition verifies_more (token alg : string) (pem : Pem) : bool :=
  match decode_more token with
  | Ok (Some d) =>
      match Header.kid (header d) with
      | Some k => pem =? "PEM:n-" ++ k
      | None => false
      end
  | _ => false
  end.

(** The converter of [Sample], which refuses keys that are not RSA. *)
Definition to_pem_rsa (key : JWK.t) : Result Pem :=
  if JWK.kty key =? "RSA" then to_pem key
  else Throw (LibraryError "Error" "Unsupported key type").

#[export] Instance lib_more : JwtLibrary := {
  jwt_decode := decode_more;
  jws_verify := verifies_more;
  jwkToPem := to_pem_rsa
}.

(** An endpoint that answers with a document that has no [keys]. *)
Definition keyless (_ : nat) : AxiosOutcome := Resolved (Some (mkDoc None)).

(** The clock advances by one hour from reading to reading. *)
Definition hourly (k : nat) : Z := t0 + Z.of_nat k * (60 * 60 * 1000).

(** The cache holds [key_abc] and [key_ec], fetched at [t0]. *)
Definition cached_two (age : Z) (network : nat -> AxiosOutcome) : World :=
  mkWorld (Some [key_abc; key_ec]) t0 (fun _ => t0 + age) network [].

End SampleMore.

(** ** More of the sample application *)
Module SampleAppMore.
Import UserService.

(** A provider that answers every command with an empty output. *)
#[export] Instance silent : Provider := {
  cognito := fun _ => Returns (mkOutput None None);
  CLIENT_ID := "client123";
  CLIENT_SECRET := "s3cr3t"
}.

(** Errors as the provider's client throws them: an expired refresh
    token, an unknown user, and a connection that was refused (which
    has no [__type]). *)
Definition token_expired : ErrorHandler.RawError :=
  ErrorHandler.mkRawError (Some "NotAuthorizedException")
    (Some "NotAuthorizedException") (Some "Refresh Token has expired").

Definition user_not_found : ErrorHandler.RawError :=
  ErrorHandler.mkRawError (Some "UserNotFoundException")
    (Some "UserNotFoundException") (Some "User does not exist.").

Definition connection_refused : ErrorHandler.RawError :=
  ErrorHandler.mkRawError None (Some "Error")
    (Some "connect ECONNREFUSED 10.0.0.12:443").

End SampleAppMore.

(* ===================================================================== *)
(** * Part II: the properties                                              *)
(* ===================================================================== *)

(** ** The credential hash *)
Section CredentialHash.
Import Crypto CryptoUtils.

(** The primitives compute the published vectors: FIPS 180-4 for the
    hash, RFC 4231 (case 2) for the MAC, RFC 4648 for the encoding.
    That they are the functions of the standards on every input is
    shown in Part III, after the lemmas on the length of a digest. *)
Example sha256_constants :
  (nth 0 K256 0, nth 63 K256 0, nth 0 H256 0, nth 7 H256 0)
  = (0x428a2f98, 0xc67178f2, 0x6a09e667, 0x5be0cd19).
Proof. vm_compute. reflexivity. Qed.

Example sha256_abc :
  hex_encode (sha256 (bytes_of_string "abc"))
  = "ba7816bf8f01cfea414140de5dae2223b00361a396177a9cb410ff61f20015ad".
Proof. vm_compute. reflexivity. Qed.

Example sha256_two_blocks :
  hex_encode (sha256 (bytes_of_string
    "abcdbcdecdefdefgefghfghighijhijkijkljklmklmnlmnomnopnopq"))
  = "248d6a61d20638b8e5c026930c3e6039a33ce45964ff2167f6ecedd419db06c1".
Proof. vm_compute. reflexivity. Qed.

Example hmac_rfc4231_case2 :
  hex_encode (hmac_sha256 (bytes_of_string "Jefe")
                          (bytes_of_string "what do ya want for nothing?"))
  = "5bdcc146bf60754e6a042426089575c75a003f089d2739839dec58b964ec3843".
Proof. vm_compute. reflexivity. Qed.

Example base64_rfc4648 :
  (base64_encode (bytes_of_string "foob"),
   base64_encode (bytes_of_string "fooba"),
   base64_encode (bytes_of_string "foobar"))
  = ("Zm9vYg==", "Zm9vYmE=", "Zm9vYmFy").
Proof. vm_compute. reflexivity. Qed.

Example calculateSecretHash_run :
  calculateSecretHash "client123" "s3cr3t" "user@example.com"
  = "HUcyXOagzC8xPg5OF5Z6P1nV4llo7nnI7sDP2pYyq1k=".
Proof. vm_compute. reflexivity. Qed.

(** The [Hmac] object only accumulates: what [digest] sees is the key
    it was created with and the data of the updates, in order. *)
Lemma update_data (h : Hmac) (data : string) :
  hmac_data (update h data) = (hmac_data h ++ bytes_of_string data)%list
  /\ hmac_key (update h data) = hmac_key h.
Proof. split; reflexivity. Qed.

(** C10.  The hash depends on the secret and on the concatenation
    [username + clientId] only: two pairs with the same concatenation
    get the same hash under every secret. *)
Theorem calculateSecretHash_concat :
  forall clientSecret username1 clientId1 username2 clientId2 : string,
    username1 ++ clientId1 = username2 ++ clientId2 ->
    calculateSecretHash clientId1 clientSecret username1
    = calculateSecretHash clientId2 clientSecret username2.
Proof.
  intros s u1 c1 u2 c2 Hcat.
  unfold calculateSecretHash, update. rewrite Hcat. reflexivity.
Qed.

(** Two different pairs that collide. *)
Lemma calculateSecretHash_concat_witness :
  ("user", "1client") <> ("user1", "client")
  /\ calculateSecretHash "1client" "s3cr3t" "user"
     = calculateSecretHash "client" "s3cr3t" "user1".
Proof.
  split.
  - discriminate.
  - apply (calculateSecretHash_concat "s3cr3t" "user" "1client"
                                      "user1" "client").
    reflexivity.
Defined.

End CredentialHash.

(** ** The error mapper *)
Section ErrorMapper.
Import ErrorHandler Sample.

(** Split on the next comparison of a string with a literal. *)
Ltac next_case :=
  match goal with
  | |- context [String.eqb ?a ?b] =>
      destruct (String.eqb_spec a b) as [-> | ?]
  end.

Ltac by_cases := repeat (next_case; cbn in * ); try congruence.

(** The mapper is a function of the error code it extracts. *)
Lemma handleCognitoError_by_code (e1 e2 : option RawError) :
  errorType e1 = errorType e2 ->
  handleCognitoError e1 = handleCognitoError e2.
Proof. unfold handleCognitoError. intros ->. reflexivity. Qed.

(** What the [switch] does, read off as a table. *)
Lemma handleCognitoError_cases (error : option RawError) :
  match lookup_code (errorType error) switch_codes with
  | Some status =>
      statusCode (handleCognitoError error) = status
      /\ errorCode (handleCognitoError error) = errorType error
  | None => handleCognitoError error = generic_error
  end.
Proof.
  unfold lookup_code, handleCognitoError.
  generalize (errorType error) as c. intros c.
  cbn [switch_codes find fst snd].
  by_cases; split; reflexivity.
Qed.

(** The kinds the mapper returns: a recognised code gets its status and
    itself as machine-readable code, which sets its kind apart from the
    generic one and from the kind of every other code; every other code
    gets the generic kind; nothing but the code is looked at. *)
Lemma handleCognitoError_kinds (error : option RawError) :
  (forall status, lookup_code (errorType error) switch_codes = Some status ->
     statusCode (handleCognitoError error) = status
     /\ errorCode (handleCognitoError error) = errorType error
     /\ handleCognitoError error <> generic_error)
  /\ (lookup_code (errorType error) switch_codes = None ->
        handleCognitoError error = generic_error
        /\ statusCode (handleCognitoError error) = 500)
  /\ (forall other : option RawError,
        lookup_code (errorType error) switch_codes <> None ->
        errorType other <> errorType error ->
        handleCognitoError other <> handleCognitoError error)
  /\ (forall other : option RawError,
        errorType other = errorType error ->
        handleCognitoError other = handleCognitoError error).
Proof.
  pose proof (handleCognitoError_cases error) as Hc.
  assert (Hgen : forall status,
             lookup_code (errorType error) switch_codes = Some status ->
             errorType error <> "INTERNAL_AUTH_ERROR").
  { intros status. unfold lookup_code.
    generalize (errorType error) as c. intros c.
    cbn [switch_codes find fst snd].
    by_cases; discriminate. }
  repeat split.
  - rewrite H in Hc. apply Hc.
  - rewrite H in Hc. apply Hc.
  - intros Heq. rewrite H in Hc. destruct Hc as [_ Hcode].
    rewrite Heq in Hcode. cbn in Hcode.
    apply (Hgen status H). symmetry. exact Hcode.
  - rewrite H in Hc. exact Hc.
  - rewrite H in Hc. rewrite Hc. reflexivity.
  - intros other Hin Hne Heq.
    destruct (lookup_code (errorType error) switch_codes) as [status |] eqn:Hl;
      [| congruence].
    destruct Hc as [_ Hcode].
    pose proof (handleCognitoError_cases other) as Ho.
    destruct (lookup_code (errorType other) switch_codes) as [status' |] eqn:Hl'.
    + destruct Ho as [_ Hcode']. congruence.
    + rewrite Ho in Heq. rewrite <- Heq in Hcode. cbn in Hcode.
      apply (Hgen status); [reflexivity | congruence].
  - intros other Heq. apply handleCognitoError_by_code. exact Heq.
Qed.

End ErrorMapper.

(** ** The key cache, the verifier and the resolver *)
Section Authentication.
Import AuthPlugin.
Context {lib : JwtLibrary} {env : ProcessEnv}.

#[local] Arguments JWK_URL : simpl never.
#[local] Arguments expected_issuer : simpl never.
#[local] Arguments ticks : simpl never.
#[local] Arguments fetches : simpl never.
#[local] Arguments calls : simpl never.

(** Events of one kind do not move the counters of another. *)
Lemma ticks_log_call fn w : ticks (log (EvCall fn) w) = ticks w.
Proof. reflexivity. Qed.

Lemma fetches_log_call fn w : fetches (log (EvCall fn) w) = fetches w.
Proof. reflexivity. Qed.

Lemma fetches_log_now w : fetches (log EvDateNow w) = fetches w.
Proof. reflexivity. Qed.

Lemma needs_fetch_entered w : needs_fetch (entered w) = needs_fetch w.
Proof. reflexivity. Qed.

(** [getJwks], path by path. *)
Lemma getJwks_eq (w : World) :
  getJwks w
  = if needs_fetch w then
      match network w (fetches w) with
      | Resolved (Some data) => (Ok (keys data), after_refresh w data)
      | _ => (Throw (Error "Failed to retrieve JWKs"), after_failure w)
      end
    else (Ok (jwksCache w), after_hit w).
Proof.
  unfold getJwks, needs_fetch, bind, emit, Date_now, get_jwksCache,
    get_jwksLastFetch.
  cbn. rewrite ticks_log_call.
  match goal with
  | |- context [if ?c then _ else _] => destruct c
  end; cbn.
  - unfold try_catch, axios_get. cbn.
    rewrite fetches_log_now, fetches_log_call.
    destruct (network w (fetches w)) as [| [data |]]; reflexivity.
  - reflexivity.
Qed.

(** [validateToken], step by step. *)
Lemma validateToken_eq (token : string) (w : World) :
  validateToken token w
  = match jwt_decode token with
    | Throw e => (Throw e, entered w)
    | Ok None => (Throw (Error "Invalid token format"), entered w)
    | Ok (Some decodedToken) =>
        if negb (JS.truthy (Header.kid (header decodedToken))) then
          (Throw (Error "Invalid token format"), entered w)
        else
          match getJwks (entered w) with
          | (Throw e, w1) => (Throw e, w1)
          | (Ok None, w1) =>
              (Throw (TypeError "Cannot read properties of undefined"), w1)
          | (Ok (Some jwks), w1) =>
              match find (fun k => JS.strict_eq (JWK.kid k)
                              (Header.kid (header decodedToken))) jwks with
              | None =>
                  (Throw (Error "Invalid token signature: Key ID not found"),
                   w1)
              | Some key =>
                  match jwkToPem key with
                  | Throw e => (Throw e, w1)
                  | Ok pem =>
                      match jwt_verify token pem
                              (mkOptions expected_issuer ["RS256"]) w1 with
                      | (Ok verified, w2) => (Ok verified, w2)
                      | (Throw _, w2) =>
                          (Throw (Error "Invalid token"),
                           log (EvConsoleError "JWT Verification Failed:") w2)
                      end
                  end
              end
          end
    end.
Proof.
  unfold validateToken, bind, emit, lift, throw, ret, find_key, try_catch,
    entered.
  destruct (jwt_decode token) as [[decodedToken |] | e]; try reflexivity.
  destruct (negb (JS.truthy (Header.kid (header decodedToken))));
    try reflexivity.
  destruct (getJwks (log (EvCall "validateToken") w)) as [[[jwks |] | e] w1];
    try reflexivity.
  destruct (find _ jwks) as [key |]; reflexivity.
Qed.

(** [jwt.verify] reads the clock once and touches nothing else. *)
Lemma jwt_verify_world token pem options w :
  snd (jwt_verify token pem options w) = log EvDateNow w.
Proof.
  unfold jwt_verify, bind, Date_now, lift, throw, ret.
  destruct (jwt_decode token) as [[d |] | e]; try reflexivity.
  repeat match goal with
         | |- context [if ?c then _ else _] => destruct c
         end; reflexivity.
Qed.

(** What a payload returned by [jwt.verify] has passed. *)
Lemma jwt_verify_ok token pem options w verified :
  fst (jwt_verify token pem options w) = Ok verified ->
  exists decodedToken alg,
    jwt_decode token = Ok (Some decodedToken)
    /\ verified = payload decodedToken
    /\ Header.alg (header decodedToken) = Some alg
    /\ In alg (algorithms options)
    /\ jws_verify token alg pem = true
    /\ Payload.iss verified = Some (issuer options)
    /\ (forall exp, Payload.exp verified = Some exp ->
                    clock w (ticks w) / 1000 < exp).
Proof.
  unfold jwt_verify, bind, Date_now, lift, throw, ret.
  destruct (jwt_decode token) as [[d |] | e]; cbn; try discriminate.
  destruct (existsb _ (algorithms options)) eqn:Halg; cbn; [| discriminate].
  destruct (jws_verify token (JS.render (Header.alg (header d))) pem) eqn:Hsig;
    cbn; [| discriminate].
  destruct (match Payload.nbf (payload d) with
            | Some nbf => _ | None => false end); cbn; [discriminate |].
  destruct (match Payload.exp (payload d) with
            | Some exp => _ | None => false end) eqn:Hexp; cbn;
    [discriminate |].
  destruct (JS.strict_eq (Payload.iss (payload d)) (Some (issuer options)))
    eqn:Hiss; cbn; [| discriminate].
  intros [= <-].
  apply existsb_exists in Halg. destruct Halg as [alg [Hin Heq]].
  destruct (Header.alg (header d)) as [alg' |] eqn:Hhdr; cbn in Heq;
    [| discriminate].
  apply String.eqb_eq in Heq. subst alg'.
  exists d, alg. repeat split; try assumption; try reflexivity.
  - destruct (Payload.iss (payload d)) as [iss |]; cbn in Hiss;
      [| discriminate].
    apply String.eqb_eq in Hiss. congruence.
  - intros exp Hsome. rewrite Hsome in Hexp.
    rewrite Z.geb_leb in Hexp. apply Z.leb_gt in Hexp. exact Hexp.
Qed.

(** [getJwks] returns what the cache holds when it is done, reads the
    clock once, and fetches at most once, and only when it has to. *)
Lemma getJwks_frame (w : World) :
  let w1 := snd (getJwks w) in
  clock w1 = clock w /\ network w1 = network w
  /\ ticks w1 = S (ticks w)
  /\ calls "getJwks" w1 = S (calls "getJwks" w)
  /\ (forall r, fst (getJwks w) = Ok r -> jwksCache w1 = r)
  /\ (if needs_fetch w then fetches w1 = S (fetches w)
      else fetches w1 = fetches w /\ jwksCache w1 = jwksCache w).
Proof.
  rewrite getJwks_eq.
  destruct (needs_fetch w);
    [destruct (network w (fetches w)) as [| [data |]] |]; cbn;
    repeat split; try reflexivity; intros r [= <-]; reflexivity.
Qed.

(** [validateToken] calls [getJwks] at most once, so it fetches at
    most once, and not at all when the cached set is within its TTL. *)
Lemma validateToken_frame (token : string) (w : World) :
  let w' := snd (validateToken token w) in
  (calls "getJwks" w' <= S (calls "getJwks" w))%nat
  /\ (fetches w' <= S (fetches w))%nat
  /\ (needs_fetch w = false -> fetches w' = fetches w)
  /\ calls "validateToken" w' = S (calls "validateToken" w).
Proof.
  rewrite validateToken_eq.
  assert (Hbase :
    (calls "getJwks" (entered w) <= S (calls "getJwks" w))%nat
    /\ (fetches (entered w) <= S (fetches w))%nat
    /\ (needs_fetch w = false -> fetches (entered w) = fetches w)
    /\ calls "validateToken" (entered w) = S (calls "validateToken" w)).
  { repeat split; try reflexivity; apply Nat.le_succ_diag_r. }
  destruct (jwt_decode token) as [[d |] | e]; try exact Hbase.
  destruct (negb (JS.truthy (Header.kid (header d)))); try exact Hbase.
  clear Hbase.
  pose proof (getJwks_frame (entered w)) as Hf. cbv zeta in Hf.
  destruct Hf as (_ & _ & _ & Hcalls & _ & Hfetch).
  rewrite needs_fetch_entered in Hfetch.
  assert (Hw1 :
    let w1 := snd (getJwks (entered w)) in
    (calls "getJwks" w1 <= S (calls "getJwks" w))%nat
    /\ (fetches w1 <= S (fetches w))%nat
    /\ (needs_fetch w = false -> fetches w1 = fetches w)
    /\ calls "validateToken" w1 = S (calls "validateToken" w)).
  { cbv zeta. repeat split.
    - rewrite Hcalls. apply Nat.le_refl.
    - destruct (needs_fetch w).
      + rewrite Hfetch. apply Nat.le_refl.
      + destruct Hfetch as [-> _]. apply Nat.le_succ_diag_r.
    - intros Hno. rewrite Hno in Hfetch. apply Hfetch.
    - rewrite getJwks_eq, needs_fetch_entered.
      destruct (needs_fetch w);
        [destruct (network (entered w) (fetches (entered w))) as [| [data |]] |];
        reflexivity. }
  cbv zeta in Hw1.
  destruct (getJwks (entered w)) as [[[jwks |] | e] w1]; cbn [snd] in *;
    try exact Hw1.
  destruct (find _ jwks) as [key |]; try exact Hw1.
  destruct (jwkToPem key) as [pem | e]; try exact Hw1.
  pose proof (jwt_verify_world token pem
                (mkOptions expected_issuer ["RS256"]) w1) as Hv.
  destruct (jwt_verify token pem _ w1) as [[verified | e] w2];
    cbn [snd] in *; subst w2; exact Hw1.
Qed.

(** *** The key cache *)

(** C5.  When a cached set exists and its age, at the instant
    [getJwks] reads the clock, is within the 24-hour TTL, [getJwks]
    returns that set and issues no request, whatever the state of the
    remote endpoint: the world it leaves differs from the one it found
    by the call and the clock reading only. *)
Theorem getJwks_within_ttl :
  forall (w : World) (cached : list JWK.t),
    jwksCache w = Some cached ->
    clock w (ticks w) - jwksLastFetch w <= CACHE_TTL ->
    getJwks w = (Ok (Some cached), after_hit w)
    /\ fetches (after_hit w) = fetches w
    /\ jwksCache (after_hit w) = Some cached
    /\ jwksLastFetch (after_hit w) = jwksLastFetch w.
Proof.
  intros w cached Hcache Hage.
  rewrite getJwks_eq. unfold needs_fetch. rewrite Hcache. cbn [no_cache orb].
  destruct (Z.gtb_spec (clock w (ticks w) - jwksLastFetch w) CACHE_TTL)
    as [Hgt | _]; [lia |].
  repeat split; assumption.
Qed.

(** C2, amended.  When [getJwks] has to fetch (no cached set, or one
    older than the TTL) and the fetch fails, it throws
    "Failed to retrieve JWKs", whether or not a cached set exists; the
    cached set and its timestamp are left as they were, and exactly
    one request was made. *)
Theorem getJwks_fetch_failure :
  forall w : World,
    needs_fetch w = true ->
    fetch_fails (network w (fetches w)) = true ->
    getJwks w = (Throw (Error "Failed to retrieve JWKs"), after_failure w)
    /\ jwksCache (after_failure w) = jwksCache w
    /\ jwksLastFetch (after_failure w) = jwksLastFetch w
    /\ fetches (after_failure w) = S (fetches w).
Proof.
  intros w Hneeds Hfails.
  rewrite getJwks_eq, Hneeds.
  destruct (network w (fetches w)) as [| [data |]]; cbn in Hfails;
    try discriminate; repeat split.
Qed.

(** *** The session resolver *)

(** C7.  A request without an authentication cookie (or with an empty
    one) is answered 401 "No authentication token provided"; the world
    is left exactly as it was: no call of [validateToken], no reading
    of the key cache, no request. *)
Theorem authentication_no_cookie :
  forall (request : Request) (reply : Reply) (w : World),
    JS.truthy (cookie "authToken" request) = false ->
    authentication request reply w = (Ok (request, no_token_reply reply), w)
    /\ statusCode (no_token_reply reply) = 401
    /\ calls "validateToken" (snd (authentication request reply w))
       = calls "validateToken" w
    /\ calls "getJwks" (snd (authentication request reply w))
       = calls "getJwks" w
    /\ fetches (snd (authentication request reply w)) = fetches w.
Proof.
  intros request reply w Hfalsy.
  assert (Heq : authentication request reply w
                = (Ok (request, no_token_reply reply), w)).
  { unfold authentication, try_catch. rewrite Hfalsy. reflexivity. }
  rewrite Heq. repeat split.
Qed.

(** *** The token verifier *)

(** C1, amended.  [validateToken] never retries: it calls [getJwks]
    at most once, hence fetches at most once, and not at all when the
    cached set is within its TTL; and whenever the set [getJwks]
    returns holds no key with the token's key identifier it throws
    "Invalid token signature: Key ID not found" at once, also when the
    remote key set holds such a key. *)
Theorem validateToken_no_retry :
  forall (token : string) (w : World),
    (calls "getJwks" (snd (validateToken token w))
     <= S (calls "getJwks" w))%nat
    /\ (fetches (snd (validateToken token w)) <= S (fetches w))%nat
    /\ (needs_fetch w = false ->
        fetches (snd (validateToken token w)) = fetches w)
    /\ (forall decodedToken jwks,
          jwt_decode token = Ok (Some decodedToken) ->
          JS.truthy (Header.kid (header decodedToken)) = true ->
          fst (getJwks (entered w)) = Ok (Some jwks) ->
          find (fun k => JS.strict_eq (JWK.kid k)
                           (Header.kid (header decodedToken))) jwks = None ->
          fst (validateToken token w)
          = Throw (Error "Invalid token signature: Key ID not found")).
Proof.
  intros token w.
  pose proof (validateToken_frame token w) as Hf. cbv zeta in Hf.
  destruct Hf as (Hcalls & Hfetch & Hfresh & _).
  repeat split; try assumption.
  intros d jwks Hdec Hkid Hjwks Hfind.
  rewrite validateToken_eq, Hdec, Hkid. cbn [negb].
  destruct (getJwks (entered w)) as [r w1]. cbn [fst] in Hjwks. subst r.
  rewrite Hfind. reflexivity.
Qed.

Lemma strict_eq_true (a b : option string) :
  JS.strict_eq a b = true -> a = b.
Proof.
  destruct a as [x |], b as [y |]; cbn; try discriminate; try reflexivity.
  intros Heq. apply String.eqb_eq in Heq. congruence.
Qed.

(** A payload returned by [validateToken] has passed every check. *)
Lemma validateToken_ok token w verified w' :
  validateToken token w = (Ok verified, w') ->
  validated token verified w' (verify_instant w).
Proof.
  rewrite validateToken_eq.
  destruct (jwt_decode token) as [[d |] | e] eqn:Hdec; try discriminate.
  destruct (JS.truthy (Header.kid (header d))) eqn:Hkid; cbn [negb];
    try discriminate.
  pose proof (getJwks_frame (entered w)) as Hf. cbv zeta in Hf.
  destruct Hf as (Hclock & _ & Hticks & _ & Hcache & _).
  destruct (getJwks (entered w)) as [[[jwks |] | e] w1]; try discriminate.
  cbn [fst snd] in *. specialize (Hcache _ eq_refl).
  destruct (find _ jwks) as [key |] eqn:Hfind; try discriminate.
  destruct (jwkToPem key) as [pem | e] eqn:Hpem; try discriminate.
  pose proof (jwt_verify_world token pem
                (mkOptions expected_issuer ["RS256"]) w1) as Hworld.
  pose proof (jwt_verify_ok token pem
                (mkOptions expected_issuer ["RS256"]) w1) as Hpassed.
  destruct (jwt_verify token pem _ w1) as [[v | e] w2]; try discriminate.
  cbn [fst snd] in *. intros [= <- <-]. subst w2.
  destruct (Hpassed v eq_refl)
    as (d' & alg & Hdec' & Hv & Halg & Hin & Hsig & Hiss & Hexp).
  rewrite Hdec in Hdec'. injection Hdec' as <-.
  destruct Hin as [<- | []].
  apply find_some in Hfind. destruct Hfind as [Hmem Hsame].
  apply strict_eq_true in Hsame.
  exists d, key, pem, jwks. repeat split; try assumption.
  intros exp Hsome. specialize (Hexp exp Hsome).
  rewrite Hticks, Hclock in Hexp. exact Hexp.
Qed.

(** Once steps 1 to 3 have passed, a rejection is "Invalid token". *)
Lemma validateToken_invalid token w key pem :
  resolves token w key pem ->
  (forall verified, fst (validateToken token w) <> Ok verified) ->
  fst (validateToken token w) = Throw (Error "Invalid token").
Proof.
  intros (d & jwks & Hdec & Hkid & Hjwks & Hfind & Hpem).
  rewrite validateToken_eq, Hdec, Hkid. cbn [negb].
  destruct (getJwks (entered w)) as [r w1]. cbn [fst] in Hjwks. subst r.
  rewrite Hfind, Hpem.
  destruct (jwt_verify token pem _ w1) as [[v | e] w2]; cbn [fst].
  - intros Hnever. destruct (Hnever v eq_refl).
  - reflexivity.
Qed.

Lemma past_expiry (exp instant : Z) :
  exp * 1000 < instant -> instant / 1000 < exp -> False.
Proof.
  intros Hpast Hahead.
  assert (exp <= instant / 1000) by (apply Z.div_le_lower_bound; lia).
  lia.
Qed.

(** C4, amended.  A token whose header declares an algorithm other
    than RS256 (or none at all) is never accepted, whatever
    [jws.verify] says of its signature; the rejection is
    "Invalid token" whenever steps 1 to 3 pass, that is, whenever the
    token names a key identifier that [getJwks] resolves to a
    convertible key.  (Before that, the rejection is the one of the
    step that fails.) *)
Theorem validateToken_rejects_other_algorithms :
  forall (token : string) (decodedToken : Jwt) (w : World),
    jwt_decode token = Ok (Some decodedToken) ->
    Header.alg (header decodedToken) <> Some "RS256" ->
    (exists e, fst (validateToken token w) = Throw e)
    /\ (forall key pem,
          resolves token w key pem ->
          fst (validateToken token w) = Throw (Error "Invalid token")).
Proof.
  intros token d w Hdec Halg.
  assert (Hnever : forall verified, fst (validateToken token w) <> Ok verified).
  { intros v Hok.
    destruct (validateToken token w) as [r w'] eqn:Hrun. cbn [fst] in Hok.
    subst r. apply validateToken_ok in Hrun.
    destruct Hrun as (d' & key & pem & cached & Hdec' & _ & _ & _ & _ & _ & _
                      & Halg' & _).
    rewrite Hdec in Hdec'. injection Hdec' as <-. contradiction. }
  split.
  - destruct (fst (validateToken token w)) as [v | e] eqn:Hrun.
    + destruct (Hnever v eq_refl).
    + exists e. reflexivity.
  - intros key pem Hres. apply (validateToken_invalid token w key pem Hres Hnever).
Qed.

(** C6, amended.  A token whose expiry lies before the instant
    [jwt.verify] reads is never accepted, even with a valid
    signature, issuer and algorithm; the rejection is "Invalid token"
    whenever steps 1 to 3 pass.  (Before that, the rejection is the
    one of the step that fails.) *)
Theorem validateToken_rejects_expired :
  forall (token : string) (decodedToken : Jwt) (w : World),
    jwt_decode token = Ok (Some decodedToken) ->
    expired decodedToken (verify_instant w) ->
    (exists e, fst (validateToken token w) = Throw e)
    /\ (forall key pem,
          resolves token w key pem ->
          fst (validateToken token w) = Throw (Error "Invalid token")).
Proof.
  intros token d w Hdec (exp & Hexp & Hpast).
  assert (Hnever : forall verified, fst (validateToken token w) <> Ok verified).
  { intros v Hok.
    destruct (validateToken token w) as [r w'] eqn:Hrun. cbn [fst] in Hok.
    subst r. apply validateToken_ok in Hrun.
    destruct Hrun as (d' & key & pem & cached & Hdec' & Hv & _ & _ & _ & _ & _
                      & _ & _ & _ & Hahead).
    rewrite Hdec in Hdec'. injection Hdec' as <-. subst v.
    apply (past_expiry exp (verify_instant w) Hpast). apply Hahead. exact Hexp. }
  split.
  - destruct (fst (validateToken token w)) as [v | e] eqn:Hrun.
    + destruct (Hnever v eq_refl).
    + exists e. reflexivity.
  - intros key pem Hres. apply (validateToken_invalid token w key pem Hres Hnever).
Qed.

(** [authentication] always answers; it either rejects, leaving the
    request as it was, or attaches what [validateToken] returned. *)
Lemma authentication_eq request reply w :
  authentication request reply w
  = if negb (JS.truthy (cookie "authToken" request)) then
      (Ok (request, no_token_reply reply), w)
    else
      match validateToken (JS.render (cookie "authToken" request)) w with
      | (Ok verified, w') => (Ok (set_user request verified, reply), w')
      | (Throw _, w') => (Ok (request, invalid_token_reply reply), w')
      end.
Proof.
  unfold authentication, try_catch, bind, ret.
  destruct (negb (JS.truthy (cookie "authToken" request))); [reflexivity |].
  destruct (validateToken _ w) as [[v | e] w']; reflexivity.
Qed.

(** C3.  [authentication] attaches an identity to the request only
    when [validateToken] returned it for the cookie's token, and then
    a key present in the key cache at that time carries the token's
    key identifier and validates its signature under RS256, the
    issuer claim equals the configured issuer URL, and the expiry is
    ahead of the instant of verification.  Otherwise the request is
    left as it was and the reply is a 401: in particular for a token
    with a missing key identifier, with one no cached key carries,
    for an expired token, and for an algorithm other than RS256. *)
Theorem identity_only_when_validated :
  forall (request : Request) (reply : Reply) (w : World),
  exists request' reply' w',
    authentication request reply w = (Ok (request', reply'), w')
    /\ ((request' = request /\ statusCode reply' = 401)
        \/ (exists token verified,
              cookie "authToken" request = Some token
              /\ validateToken token w = (Ok verified, w')
              /\ request' = set_user request verified
              /\ reply' = reply
              /\ validated token verified w' (verify_instant w)))
    /\ (forall token decodedToken,
          cookie "authToken" request = Some token ->
          jwt_decode token = Ok (Some decodedToken) ->
          JS.truthy (Header.kid (header decodedToken)) = false
          \/ unknown_kid decodedToken w'
          \/ expired decodedToken (verify_instant w)
          \/ Header.alg (header decodedToken) <> Some "RS256" ->
          request' = request /\ user request' = user request
          /\ statusCode reply' = 401).
Proof.
  intros request reply w. rewrite authentication_eq.
  destruct (JS.truthy (cookie "authToken" request)) eqn:Hcookie; cbn [negb].
  - destruct (cookie "authToken" request) as [token |] eqn:Htoken;
      [| discriminate].
    cbn [JS.render].
    destruct (validateToken token w) as [[v | e] w'] eqn:Hrun.
    + exists (set_user request v), reply, w'.
      pose proof (validateToken_ok _ _ _ _ Hrun) as Hval.
      split; [reflexivity |]. split.
      * right. exists token, v. repeat split; assumption.
      * intros token' d [= <-] Hdec Hbad. exfalso.
        destruct Hval as (d' & key & pem & cached & Hdec' & Hv & Hkid
                          & Hcache & Hin & Hsame & _ & Halg & _ & _ & Hahead).
        rewrite Hdec in Hdec'. injection Hdec' as <-.
        destruct Hbad as [Hmissing | [Hunknown | [(exp & Hexp & Hpast) | Hother]]].
        -- congruence.
        -- apply (Hunknown cached key Hcache Hin Hsame).
        -- subst v. apply (past_expiry exp (verify_instant w) Hpast).
           apply Hahead. exact Hexp.
        -- contradiction.
    + exists request, (invalid_token_reply reply), w'.
      split; [reflexivity |]. split.
      * left. split; reflexivity.
      * intros. repeat split.
  - exists request, (no_token_reply reply), w.
    split; [reflexivity |]. split.
    + left. split; reflexivity.
    + intros. repeat split.
Qed.

End Authentication.

(** ** The program at work on the sample deployment *)
Section Runs.
Import AuthPlugin Sample.

(** A valid token signed by a cached key is accepted, without a
    request. *)
Example validateToken_accepts :
  fst (validateToken tok_abc (cached one_minute down))
  = Ok (claims 1800000000).
Proof. vm_compute. reflexivity. Qed.

(** After a start with an empty cache the key set is fetched once. *)
Example validateToken_first_use :
  fst (validateToken tok_xyz (boot (fun _ => t0) up))
  = Ok (claims 1800000000)
  /\ fetches (snd (validateToken tok_xyz (boot (fun _ => t0) up))) = 1%nat.
Proof. split; vm_compute; reflexivity. Qed.

(** C5 at the boundary: the cached set is exactly 24 hours old and the
    endpoint is down. *)
Lemma getJwks_within_ttl_witness :
  getJwks (cached one_day down)
  = (Ok (Some [key_abc]), after_hit (cached one_day down))
  /\ fetches (after_hit (cached one_day down)) = 0%nat.
Proof.
  destruct (getJwks_within_ttl (cached one_day down) [key_abc])
    as (Hrun & Hfetch & _).
  - reflexivity.
  - vm_compute. discriminate.
  - split; [exact Hrun | exact Hfetch].
Defined.

(** C2, as stated, fails: one millisecond past the TTL, with the
    endpoint down, the stale set is in the cache and is not
    returned. *)
Lemma getJwks_stale_not_returned :
  jwksCache (cached (one_day + 1) down) = Some [key_abc]
  /\ network (cached (one_day + 1) down) 0%nat = Rejected
  /\ fst (getJwks (cached (one_day + 1) down))
     = Throw (Error "Failed to retrieve JWKs")
  /\ fst (getJwks (cached (one_day + 1) down)) <> Ok (Some [key_abc]).
Proof.
  split; [reflexivity |]. split; [reflexivity |].
  split; [vm_compute; reflexivity | vm_compute; discriminate].
Qed.

Lemma getJwks_fetch_failure_witness :
  fst (getJwks (cached (one_day + 1) down))
  = Throw (Error "Failed to retrieve JWKs")
  /\ jwksCache (snd (getJwks (cached (one_day + 1) down))) = Some [key_abc]
  /\ fst (getJwks (boot (fun _ => t0) down))
     = Throw (Error "Failed to retrieve JWKs").
Proof.
  destruct (getJwks_fetch_failure (cached (one_day + 1) down))
    as (Hstale & _); [reflexivity | reflexivity |].
  destruct (getJwks_fetch_failure (boot (fun _ => t0) down))
    as (Hnone & _); [reflexivity | reflexivity |].
  rewrite Hstale, Hnone. repeat split.
Defined.

Lemma authentication_no_cookie_witness :
  authentication request_without fresh_reply (cached (one_day + 1) down)
  = (Ok (request_without,
         mkReply 401 (Some (mkBody "No authentication token provided"))),
     cached (one_day + 1) down).
Proof.
  apply (authentication_no_cookie request_without fresh_reply
           (cached (one_day + 1) down)).
  reflexivity.
Defined.

(** C1, as stated, fails: the cache is one minute old and holds
    [abc] only, the remote set holds [xyz] as well; a token signed by
    [xyz] is rejected, and no request has been made. *)
Lemma validateToken_rotated_key_rejected :
  find (fun k => JS.strict_eq (JWK.kid k) (Some "xyz")) [key_abc] = None
  /\ network (cached one_minute up) 0%nat
     = Resolved (Some (mkDoc (Some [key_abc; key_xyz])))
  /\ find (fun k => JS.strict_eq (JWK.kid k) (Some "xyz")) [key_abc; key_xyz]
     = Some key_xyz
  /\ fst (validateToken tok_xyz (cached one_minute up))
     = Throw (Error "Invalid token signature: Key ID not found")
  /\ fetches (snd (validateToken tok_xyz (cached one_minute up))) = 0%nat.
Proof. repeat split; vm_compute; reflexivity. Qed.

Lemma validateToken_no_retry_witness :
  fst (validateToken tok_xyz (cached one_minute up))
  = Throw (Error "Invalid token signature: Key ID not found")
  /\ fetches (snd (validateToken tok_xyz (cached one_minute up)))
     = fetches (cached one_minute up).
Proof.
  destruct (validateToken_no_retry tok_xyz (cached one_minute up))
    as (_ & _ & Hfresh & Hunknown).
  split.
  - apply (Hunknown
             (mkJwt (Header.mk (Some "RS256") (Some "xyz") (Some "JWT"))
                    (claims 1800000000) "sig-xyz")
             [key_abc]); reflexivity.
  - apply Hfresh. reflexivity.
Defined.

(** C4, as stated, fails: a token with algorithm [none] and no key
    identifier is rejected as malformed, not as invalid. *)
Lemma validateToken_none_without_kid :
  jwt_decode tok_none_nokid
  = Ok (Some (mkJwt (Header.mk (Some "none") None (Some "JWT"))
                    (claims 1800000000) ""))
  /\ fst (validateToken tok_none_nokid (cached one_minute up))
     = Throw (Error "Invalid token format")
  /\ fst (validateToken tok_none_nokid (cached one_minute up))
     <> Throw (Error "Invalid token").
Proof.
  split; [reflexivity |].
  split; [vm_compute; reflexivity | vm_compute; discriminate].
Qed.

(** An HS256 token whose signature check would pass under the cached
    key is rejected as invalid. *)
Lemma validateToken_rejects_other_algorithms_witness :
  jws_verify tok_hs256 "HS256" "PEM:n-abc" = true
  /\ fst (validateToken tok_hs256 (cached one_minute up))
     = Throw (Error "Invalid token").
Proof.
  split; [reflexivity |].
  destruct (validateToken_rejects_other_algorithms tok_hs256
              (mkJwt (Header.mk (Some "HS256") (Some "abc") (Some "JWT"))
                     (claims 1800000000) "mac-abc")
              (cached one_minute up)) as [_ Hinvalid].
  - reflexivity.
  - discriminate.
  - apply (Hinvalid key_abc "PEM:n-abc").
    eexists. exists [key_abc]. repeat split; reflexivity.
Defined.

(** C6, as stated, fails: an expired token naming a key the cache
    does not hold is rejected for the key, not as invalid. *)
Lemma validateToken_expired_unknown_key :
  jwt_decode tok_expired_xyz
  = Ok (Some (mkJwt (Header.mk (Some "RS256") (Some "xyz") (Some "JWT"))
                    (claims 1000) "sig-xyz"))
  /\ 1000 * 1000 < verify_instant (cached one_minute up)
  /\ fst (validateToken tok_expired_xyz (cached one_minute up))
     = Throw (Error "Invalid token signature: Key ID not found")
  /\ fst (validateToken tok_expired_xyz (cached one_minute up))
     <> Throw (Error "Invalid token").
Proof.
  split; [reflexivity |]. split; [reflexivity |].
  split; [vm_compute; reflexivity | vm_compute; discriminate].
Qed.

Lemma validateToken_rejects_expired_witness :
  jws_verify tok_expired "RS256" "PEM:n-abc" = true
  /\ fst (validateToken tok_expired (cached one_minute up))
     = Throw (Error "Invalid token").
Proof.
  split; [reflexivity |].
  destruct (validateToken_rejects_expired tok_expired
              (mkJwt (Header.mk (Some "RS256") (Some "abc") (Some "JWT"))
                     (claims 1000) "sig-abc")
              (cached one_minute up)) as [_ Hinvalid].
  - reflexivity.
  - exists 1000. split; reflexivity.
  - apply (Hinvalid key_abc "PEM:n-abc").
    eexists. exists [key_abc]. repeat split; reflexivity.
Defined.

(** An expired token in the cookie: the reply is a 401 and the request
    carries no identity. *)
Lemma identity_only_when_validated_witness :
  exists request' reply' w',
    authentication (request_with tok_expired) fresh_reply
                   (cached one_minute up)
    = (Ok (request', reply'), w')
    /\ request' = request_with tok_expired
    /\ user request' = None
    /\ statusCode reply' = 401.
Proof.
  destruct (identity_only_when_validated (request_with tok_expired)
              fresh_reply (cached one_minute up))
    as (request' & reply' & w' & Hrun & _ & Hreject).
  exists request', reply', w'. split; [exact Hrun |].
  apply (Hreject tok_expired
           (mkJwt (Header.mk (Some "RS256") (Some "abc") (Some "JWT"))
                  (claims 1000) "sig-abc")); [reflexivity | reflexivity |].
  right. right. left. exists 1000. split; reflexivity.
Defined.

End Runs.

(* ===================================================================== *)
(** * Part III: further properties, and the claims that rest on them       *)
(* ===================================================================== *)

(** ** The key cache and the verifier, beyond the specification *)
Section AuthenticationMore.
Import AuthPlugin AuthPluginRuns.
Context {lib : JwtLibrary} {env : ProcessEnv}.

#[local] Arguments JWK_URL : simpl never.
#[local] Arguments expected_issuer : simpl never.
#[local] Arguments ticks : simpl never.
#[local] Arguments fetches : simpl never.
#[local] Arguments calls : simpl never.

(** X1.  When [getJwks] has to fetch and the endpoint answers with a
    document, the cached set is replaced by the document's keys as a
    whole (what was cached before plays no part), the timestamp becomes
    the instant read at the start of the call, the new set is returned,
    and exactly one request was made. *)
Theorem getJwks_refresh :
  forall (w : World) (data : JwksDocument),
    needs_fetch w = true ->
    network w (fetches w) = Resolved (Some data) ->
    getJwks w = (Ok (keys data), after_refresh w data)
    /\ jwksCache (snd (getJwks w)) = keys data
    /\ jwksLastFetch (snd (getJwks w)) = clock w (ticks w)
    /\ fetches (snd (getJwks w)) = S (fetches w).
Proof.
  intros w data Hneeds Hnet.
  assert (Heq : getJwks w = (Ok (keys data), after_refresh w data)).
  { rewrite getJwks_eq, Hneeds, Hnet. reflexivity. }
  rewrite Heq. repeat split.
Qed.

(** The readings of the clock from the [k]-th on stay within the TTL of
    the timestamp, for [n] readings. *)
Lemma getJwks_times_hits (n : nat) :
  forall (w : World) (cached : list JWK.t),
    jwksCache w = Some cached ->
    (forall k, (ticks w <= k < ticks w + n)%nat ->
               clock w k - jwksLastFetch w <= CACHE_TTL) ->
    fst (getJwks_times n w) = repeat (Ok (Some cached)) n
    /\ fetches (snd (getJwks_times n w)) = fetches w
    /\ jwksCache (snd (getJwks_times n w)) = Some cached
    /\ jwksLastFetch (snd (getJwks_times n w)) = jwksLastFetch w.
Proof.
  induction n as [| n IH]; intros w cached Hcache Hclock.
  - cbn. repeat split. exact Hcache.
  - cbn [getJwks_times].
    assert (Hhit : getJwks w = (Ok (Some cached), after_hit w)).
    { rewrite getJwks_eq. unfold needs_fetch. rewrite Hcache. cbn [no_cache orb].
      destruct (Z.gtb_spec (clock w (ticks w) - jwksLastFetch w) CACHE_TTL)
        as [Hgt | _]; [| reflexivity].
      specialize (Hclock (ticks w)). lia. }
    rewrite Hhit.
    destruct (IH (after_hit w) cached) as (Hrs & Hf & Hc & Hl).
    + exact Hcache.
    + intros k Hk. change (ticks (after_hit w)) with (S (ticks w)) in Hk.
      apply (Hclock k). lia.
    + destruct (getJwks_times n (after_hit w)) as [rs w'].
      cbn [fst snd] in *. rewrite Hrs. repeat split; assumption.
Qed.

(** X2.  One fetch serves every call within the TTL: when a call of
    [getJwks] fetches an array of keys, that call and any number of
    calls after it whose clock readings are within 24 hours of the
    first all return the fetched set, and one request is made in
    all. *)
Theorem getJwks_one_fetch_serves_all :
  forall (n : nat) (w : World) (data : JwksDocument) (fetched : list JWK.t),
    needs_fetch w = true ->
    network w (fetches w) = Resolved (Some data) ->
    keys data = Some fetched ->
    (forall k, (ticks w < k <= ticks w + n)%nat ->
               clock w k - clock w (ticks w) <= CACHE_TTL) ->
    fst (getJwks_times (S n) w) = repeat (Ok (Some fetched)) (S n)
    /\ fetches (snd (getJwks_times (S n) w)) = S (fetches w)
    /\ jwksCache (snd (getJwks_times (S n) w)) = Some fetched.
Proof.
  intros n w data fetched Hneeds Hnet Hkeys Hclock.
  cbn [getJwks_times].
  assert (Heq : getJwks w = (Ok (Some fetched), after_refresh w data)).
  { rewrite getJwks_eq, Hneeds, Hnet, Hkeys. reflexivity. }
  rewrite Heq.
  destruct (getJwks_times_hits n (after_refresh w data) fetched)
    as (Hrs & Hf & Hc & _).
  - exact Hkeys.
  - intros k Hk. change (ticks (after_refresh w data)) with (S (ticks w)) in Hk.
    apply (Hclock k). lia.
  - destruct (getJwks_times n (after_refresh w data)) as [rs w'].
    cbn [fst snd] in *. rewrite Hrs. repeat split; assumption.
Qed.

(** [jwt.verify] with the options of [validateToken], decided. *)
Lemma jwt_verify_decided token d pem w :
  jwt_decode token = Ok (Some d) ->
  (passes token d pem (clock w (ticks w)) ->
   fst (jwt_verify token pem (mkOptions expected_issuer ["RS256"]) w)
   = Ok (payload d))
  /\ (~ passes token d pem (clock w (ticks w)) ->
      exists e,
        fst (jwt_verify token pem (mkOptions expected_issuer ["RS256"]) w)
        = Throw e).
Proof.
  intros Hdec.
  unfold jwt_verify, bind, Date_now, lift, throw, ret, passes, not_yet_valid.
  rewrite Hdec. cbn [fst snd algorithms issuer existsb].
  set (now := clock w (ticks w)).
  destruct (Header.alg (header d)) as [alg |] eqn:Halg; cbn [JS.strict_eq].
  2:{ cbn. split; [intros (Hno & _); discriminate | eauto]. }
  destruct (String.eqb_spec "RS256" alg) as [<- | Hne]; cbn [orb negb JS.render].
  2:{ cbn. split; [intros (Heq & _); congruence | eauto]. }
  destruct (jws_verify token "RS256" pem) eqn:Hsig; cbn [negb].
  2:{ cbn. split; [intros (_ & Hno & _); discriminate | eauto]. }
  destruct (Payload.nbf (payload d)) as [nbf |] eqn:Hnbf.
  - destruct (Z.gtb_spec nbf (now / 1000)) as [Hgt | Hle].
    { cbn. split; [| eauto].
      intros (_ & _ & Hnot & _). exfalso. apply Hnot. exists nbf.
      split; [reflexivity | lia]. }
    destruct (Payload.exp (payload d)) as [exp |] eqn:Hexp.
    + destruct (Z.geb_spec (now / 1000) exp) as [Hge | Hlt].
      { cbn. split; [| eauto].
        intros (_ & _ & _ & Hahead & _). specialize (Hahead exp eq_refl). lia. }
      destruct (Payload.iss (payload d)) as [iss |] eqn:Hiss; cbn [JS.strict_eq].
      * destruct (String.eqb_spec iss expected_issuer) as [-> | Hother]; cbn.
        -- split; [reflexivity |]. intros Hnot. exfalso. apply Hnot.
           repeat split.
           ++ intros (nbf' & [= <-] & Hlater). lia.
           ++ intros exp' [= <-]. lia.
        -- split; [| eauto]. intros (_ & _ & _ & _ & Heq). congruence.
      * cbn. split; [| eauto]. intros (_ & _ & _ & _ & Heq). discriminate.
    + destruct (Payload.iss (payload d)) as [iss |] eqn:Hiss; cbn [JS.strict_eq].
      * destruct (String.eqb_spec iss expected_issuer) as [-> | Hother]; cbn.
        -- split; [reflexivity |]. intros Hnot. exfalso. apply Hnot.
           repeat split.
           ++ intros (nbf' & [= <-] & Hlater). lia.
           ++ intros exp' [=].
        -- split; [| eauto]. intros (_ & _ & _ & _ & Heq). congruence.
      * cbn. split; [| eauto]. intros (_ & _ & _ & _ & Heq). discriminate.
  - destruct (Payload.exp (payload d)) as [exp |] eqn:Hexp.
    + destruct (Z.geb_spec (now / 1000) exp) as [Hge | Hlt].
      { cbn. split; [| eauto].
        intros (_ & _ & _ & Hahead & _). specialize (Hahead exp eq_refl). lia. }
      destruct (Payload.iss (payload d)) as [iss |] eqn:Hiss; cbn [JS.strict_eq].
      * destruct (String.eqb_spec iss expected_issuer) as [-> | Hother]; cbn.
        -- split; [reflexivity |]. intros Hnot. exfalso. apply Hnot.
           repeat split.
           ++ intros (nbf' & [=] & _).
           ++ intros exp' [= <-]. lia.
        -- split; [| eauto]. intros (_ & _ & _ & _ & Heq). congruence.
      * cbn. split; [| eauto]. intros (_ & _ & _ & _ & Heq). discriminate.
    + destruct (Payload.iss (payload d)) as [iss |] eqn:Hiss; cbn [JS.strict_eq].
      * destruct (String.eqb_spec iss expected_issuer) as [-> | Hother]; cbn.
        -- split; [reflexivity |]. intros Hnot. exfalso. apply Hnot.
           repeat split.
           ++ intros (nbf' & [=] & _).
           ++ intros exp' [=].
        -- split; [| eauto]. intros (_ & _ & _ & _ & Heq). congruence.
      * cbn. split; [| eauto]. intros (_ & _ & _ & _ & Heq). discriminate.
Qed.

(** X3.  Once steps 1 to 3 have passed, step 4 decides, and the first
    key of the set that carries the token's key identifier is the only
    one tried: [validateToken] returns the token's payload exactly when
    the header says RS256, the signature holds under that key, [nbf] is
    not ahead and [exp] is ahead of the instant of verification, and the
    issuer is the configured one; in every other case it throws
    "Invalid token". *)
Theorem validateToken_decided :
  forall (token : string) (w : World) (decodedToken : Jwt) (key : JWK.t)
         (pem : Pem),
    jwt_decode token = Ok (Some decodedToken) ->
    resolves token w key pem ->
    (passes token decodedToken pem (verify_instant w) ->
     fst (validateToken token w) = Ok (payload decodedToken))
    /\ (~ passes token decodedToken pem (verify_instant w) ->
        fst (validateToken token w) = Throw (Error "Invalid token")).
Proof.
  intros token w d key pem Hdec (d' & jwks & Hdec' & Hkid & Hjwks & Hfind & Hpem).
  rewrite Hdec in Hdec'. injection Hdec' as <-.
  rewrite validateToken_eq, Hdec, Hkid. cbn [negb].
  pose proof (getJwks_frame (entered w)) as Hf. cbv zeta in Hf.
  destruct Hf as (Hclock & _ & Hticks & _).
  destruct (getJwks (entered w)) as [r w1]. cbn [fst snd] in *. subst r.
  rewrite Hfind, Hpem.
  destruct (jwt_verify_decided token d pem w1 Hdec) as [Hyes Hno].
  assert (Hinstant : clock w1 (ticks w1) = verify_instant w).
  { rewrite Hticks, Hclock. reflexivity. }
  rewrite Hinstant in Hyes, Hno.
  split; intros Hp.
  - specialize (Hyes Hp).
    destruct (jwt_verify token pem _ w1) as [[v | e] w2]; cbn [fst] in *;
      congruence.
  - destruct (Hno Hp) as [e He].
    destruct (jwt_verify token pem _ w1) as [[v | e'] w2]; cbn [fst] in *;
      [discriminate | reflexivity].
Qed.

(** X4.  A token that decodes to nothing, or whose header names no key
    identifier, is rejected with "Invalid token format" before anything
    else happens: [getJwks] is not called, the clock is not read, no
    request is made and the cache is not touched. *)
Theorem validateToken_malformed :
  forall (token : string) (w : World),
    jwt_decode token = Ok None
    \/ (exists decodedToken,
          jwt_decode token = Ok (Some decodedToken)
          /\ JS.truthy (Header.kid (header decodedToken)) = false) ->
    validateToken token w = (Throw (Error "Invalid token format"), entered w)
    /\ calls "getJwks" (snd (validateToken token w)) = calls "getJwks" w
    /\ ticks (snd (validateToken token w)) = ticks w
    /\ fetches (snd (validateToken token w)) = fetches w
    /\ jwksCache (snd (validateToken token w)) = jwksCache w
    /\ jwksLastFetch (snd (validateToken token w)) = jwksLastFetch w.
Proof.
  intros token w Hbad.
  assert (Heq : validateToken token w
                = (Throw (Error "Invalid token format"), entered w)).
  { rewrite validateToken_eq.
    destruct Hbad as [Hnull | (d & Hdec & Hkid)].
    - rewrite Hnull. reflexivity.
    - rewrite Hdec, Hkid. reflexivity. }
  rewrite Heq. repeat split.
Qed.

(** The cache after [validateToken]: untouched, or what the endpoint
    delivered to this call. *)
Lemma validateToken_cache (token : string) (w : World) :
  let w' := snd (validateToken token w) in
  (jwksCache w' = jwksCache w /\ jwksLastFetch w' = jwksLastFetch w)
  \/ (needs_fetch w = true
      /\ exists data,
           network w (fetches w) = Resolved (Some data)
           /\ jwksCache w' = keys data
           /\ jwksLastFetch w' = clock w (ticks w)).
Proof.
  rewrite validateToken_eq.
  destruct (jwt_decode token) as [[d |] | e]; try (left; split; reflexivity).
  destruct (negb (JS.truthy (Header.kid (header d))));
    try (left; split; reflexivity).
  assert (Hw1 :
    let w1 := snd (getJwks (entered w)) in
    (jwksCache w1 = jwksCache w /\ jwksLastFetch w1 = jwksLastFetch w)
    \/ (needs_fetch w = true
        /\ exists data,
             network w (fetches w) = Resolved (Some data)
             /\ jwksCache w1 = keys data
             /\ jwksLastFetch w1 = clock w (ticks w))).
  { rewrite getJwks_eq, needs_fetch_entered.
    destruct (needs_fetch w) eqn:Hneeds; [| left; split; reflexivity].
    change (network (entered w) (fetches (entered w)))
      with (network w (fetches w)).
    destruct (network w (fetches w)) as [| [data |]] eqn:Hnet;
      try (left; split; reflexivity).
    right. split; [reflexivity |]. exists data. repeat split. }
  cbv zeta in Hw1.
  destruct (getJwks (entered w)) as [[[jwks |] | e] w1]; cbn [snd] in *;
    try exact Hw1.
  destruct (find _ jwks) as [key |]; try exact Hw1.
  destruct (jwkToPem key) as [pem | e]; try exact Hw1.
  pose proof (jwt_verify_world token pem
                (mkOptions expected_issuer ["RS256"]) w1) as Hv.
  destruct (jwt_verify token pem _ w1) as [[v | e] w2];
    cbn [snd] in *; subst w2; exact Hw1.
Qed.

(** X5.  No request can put anything of its own into the key cache:
    after [authentication] the cache and its timestamp are as before,
    or they are the key set the endpoint delivered to this call and the
    instant [getJwks] read; and when the cached set was within its TTL
    they are as before. *)
Theorem authentication_cache_invariant :
  forall (request : Request) (reply : Reply) (w : World),
    ((jwksCache (snd (authentication request reply w)) = jwksCache w
      /\ jwksLastFetch (snd (authentication request reply w))
         = jwksLastFetch w)
     \/ (exists data,
           network w (fetches w) = Resolved (Some data)
           /\ jwksCache (snd (authentication request reply w)) = keys data
           /\ jwksLastFetch (snd (authentication request reply w))
              = clock w (ticks w)))
    /\ (needs_fetch w = false ->
        jwksCache (snd (authentication request reply w)) = jwksCache w
        /\ jwksLastFetch (snd (authentication request reply w))
           = jwksLastFetch w).
Proof.
  intros request reply w.
  assert (Hcases :
    (jwksCache (snd (authentication request reply w)) = jwksCache w
     /\ jwksLastFetch (snd (authentication request reply w)) = jwksLastFetch w)
    \/ (needs_fetch w = true
        /\ exists data,
             network w (fetches w) = Resolved (Some data)
             /\ jwksCache (snd (authentication request reply w)) = keys data
             /\ jwksLastFetch (snd (authentication request reply w))
                = clock w (ticks w))).
  { rewrite authentication_eq.
    destruct (negb (JS.truthy (cookie "authToken" request)));
      [left; split; reflexivity |].
    pose proof (validateToken_cache
                  (JS.render (cookie "authToken" request)) w) as Hc.
    cbv zeta in Hc.
    destruct (validateToken _ w) as [[v | e] w']; exact Hc. }
  split.
  - destruct Hcases as [Hsame | (_ & Hnew)]; [left | right]; assumption.
  - intros Hfresh. destruct Hcases as [Hsame | (Hneeds & _)];
      [assumption | congruence].
Qed.

(** X6.  When the key set has to be fetched and the fetch fails, every
    request that carries a token is answered 401
    "Invalid authentication token", whatever the token is; the request
    gets no identity and the cache is left as it was. *)
Theorem authentication_endpoint_down :
  forall (request : Request) (reply : Reply) (w : World),
    JS.truthy (cookie "authToken" request) = true ->
    needs_fetch w = true ->
    fetch_fails (network w (fetches w)) = true ->
    fst (authentication request reply w)
    = Ok (request, invalid_token_reply reply)
    /\ jwksCache (snd (authentication request reply w)) = jwksCache w.
Proof.
  intros request reply w Hcookie Hneeds Hfails.
  rewrite authentication_eq, Hcookie. cbn [negb].
  set (token := JS.render (cookie "authToken" request)).
  assert (Hthrows : exists e w',
             validateToken token w = (Throw e, w')
             /\ jwksCache w' = jwksCache w).
  { rewrite validateToken_eq.
    destruct (jwt_decode token) as [[d |] | e]; try (eexists; eexists; split; reflexivity).
    destruct (negb (JS.truthy (Header.kid (header d))));
      try (eexists; eexists; split; reflexivity).
    rewrite getJwks_eq, needs_fetch_entered, Hneeds.
    change (network (entered w) (fetches (entered w)))
      with (network w (fetches w)).
    destruct (network w (fetches w)) as [| [data |]]; cbn in Hfails;
      try discriminate; eexists; eexists; split; reflexivity. }
  destruct Hthrows as (e & w' & Hrun & Hcache). rewrite Hrun.
  split; [reflexivity | exact Hcache].
Qed.

(** X7.  A key document without [keys] wipes the cache: the call that
    fetched it fails with a [TypeError], the cached set is gone (even a
    stale one that held the token's key), and the next call has to
    fetch again. *)
Theorem validateToken_document_without_keys :
  forall (token : string) (w : World) (decodedToken : Jwt),
    jwt_decode token = Ok (Some decodedToken) ->
    JS.truthy (Header.kid (header decodedToken)) = true ->
    needs_fetch w = true ->
    network w (fetches w) = Resolved (Some (mkDoc None)) ->
    validateToken token w
    = (Throw (TypeError "Cannot read properties of undefined"),
       after_refresh (entered w) (mkDoc None))
    /\ jwksCache (snd (validateToken token w)) = None
    /\ needs_fetch (snd (validateToken token w)) = true.
Proof.
  intros token w d Hdec Hkid Hneeds Hnet.
  assert (Heq : validateToken token w
                = (Throw (TypeError "Cannot read properties of undefined"),
                   after_refresh (entered w) (mkDoc None))).
  { rewrite validateToken_eq, Hdec, Hkid. cbn [negb].
    rewrite getJwks_eq, needs_fetch_entered, Hneeds.
    change (network (entered w) (fetches (entered w)))
      with (network w (fetches w)).
    rewrite Hnet. reflexivity. }
  rewrite Heq. repeat split.
Qed.

(** A token that fails step 4 under every key is never accepted. *)
Lemma validateToken_never_accepts token d w :
  jwt_decode token = Ok (Some d) ->
  (forall pem, ~ passes token d pem (verify_instant w)) ->
  forall verified, fst (validateToken token w) <> Ok verified.
Proof.
  intros Hdec Hfails v.
  rewrite validateToken_eq, Hdec.
  destruct (negb (JS.truthy (Header.kid (header d)))); [discriminate |].
  pose proof (getJwks_frame (entered w)) as Hf. cbv zeta in Hf.
  destruct Hf as (Hclock & _ & Hticks & _).
  destruct (getJwks (entered w)) as [[[jwks |] | e] w1]; try discriminate.
  cbn [snd] in *.
  destruct (find _ jwks) as [key |]; try discriminate.
  destruct (jwkToPem key) as [pem | e]; try discriminate.
  destruct (jwt_verify_decided token d pem w1 Hdec) as [_ Hno].
  assert (Hinstant : clock w1 (ticks w1) = verify_instant w).
  { rewrite Hticks, Hclock. reflexivity. }
  rewrite Hinstant in Hno. destruct (Hno (Hfails pem)) as [e He].
  destruct (jwt_verify token pem _ w1) as [[v' | e'] w2]; cbn [fst] in *;
    discriminate.
Qed.

(** X8.  A token that is not yet valid ([nbf] ahead of the instant of
    verification, in whole seconds) or whose issuer claim is missing or
    differs from the configured issuer URL is never accepted, whatever
    its signature; the rejection is "Invalid token" whenever steps 1 to
    3 pass. *)
Theorem validateToken_rejects_early_or_foreign :
  forall (token : string) (decodedToken : Jwt) (w : World),
    jwt_decode token = Ok (Some decodedToken) ->
    not_yet_valid decodedToken (verify_instant w)
    \/ Payload.iss (payload decodedToken) <> Some expected_issuer ->
    (exists e, fst (validateToken token w) = Throw e)
    /\ (forall key pem,
          resolves token w key pem ->
          fst (validateToken token w) = Throw (Error "Invalid token")).
Proof.
  intros token d w Hdec Hbad.
  assert (Hnever : forall verified, fst (validateToken token w) <> Ok verified).
  { apply (validateToken_never_accepts token d w Hdec).
    intros pem (_ & _ & Hnbf & _ & Hiss).
    destruct Hbad as [Hearly | Hforeign]; contradiction. }
  split.
  - destruct (fst (validateToken token w)) as [v | e] eqn:Hrun.
    + destruct (Hnever v eq_refl).
    + exists e. reflexivity.
  - intros key pem Hres.
    apply (validateToken_invalid token w key pem Hres Hnever).
Qed.

(** X9.  What [jwt.decode] or [jwkToPem] throw is not classified:
    [validateToken] passes the library's own error on, without reading
    the clock for a verification; [authentication] still answers with
    the one 401 "Invalid authentication token". *)
Theorem validateToken_library_errors :
  forall (token : string) (w : World) (e : Exn),
    (jwt_decode token = Throw e ->
     validateToken token w = (Throw e, entered w))
    /\ (forall decodedToken key,
          jwt_decode token = Ok (Some decodedToken) ->
          JS.truthy (Header.kid (header decodedToken)) = true ->
          (exists jwks,
             fst (getJwks (entered w)) = Ok (Some jwks)
             /\ find (fun k => JS.strict_eq (JWK.kid k)
                                 (Header.kid (header decodedToken))) jwks
                = Some key) ->
          jwkToPem key = Throw e ->
          validateToken token w = (Throw e, snd (getJwks (entered w)))
          /\ ticks (snd (validateToken token w)) = S (ticks w))
    /\ (forall request reply,
          cookie "authToken" request = Some token ->
          token <> "" ->
          fst (validateToken token w) = Throw e ->
          fst (authentication request reply w)
          = Ok (request, invalid_token_reply reply)).
Proof.
  intros token w e. split; [| split].
  - intros Hdec. rewrite validateToken_eq, Hdec. reflexivity.
  - intros d key Hdec Hkid (jwks & Hjwks & Hfind) Hpem.
    assert (Heq : validateToken token w
                  = (Throw e, snd (getJwks (entered w)))).
    { rewrite validateToken_eq, Hdec, Hkid. cbn [negb].
      destruct (getJwks (entered w)) as [r w1]. cbn [fst snd] in *. subst r.
      rewrite Hfind, Hpem. reflexivity. }
    split; [exact Heq |]. rewrite Heq. cbn [snd].
    pose proof (getJwks_frame (entered w)) as Hf. cbv zeta in Hf.
    destruct Hf as (_ & _ & Hticks & _). exact Hticks.
  - intros request reply Hcookie Hne Hrun.
    rewrite authentication_eq, Hcookie.
    assert (Htruthy : JS.truthy (Some token) = true).
    { cbn. destruct (String.eqb_spec token ""); [contradiction | reflexivity]. }
    rewrite Htruthy. cbn [negb JS.render].
    destruct (validateToken token w) as [r w']. cbn [fst] in Hrun. subst r.
    reflexivity.
Qed.

End AuthenticationMore.

(** ** The shape of the credential hash *)
Section CredentialHashShape.
Import Crypto CryptoUtils.

Lemma be_bytes_length (width : nat) (x : Z) :
  List.length (be_bytes width x) = width.
Proof.
  unfold be_bytes. rewrite length_map, length_rev, length_seq. reflexivity.
Qed.

Lemma compress_length (hs block : list Z) :
  List.length hs = 8%nat -> List.length (compress hs block) = 8%nat.
Proof.
  intros Hhs. unfold compress.
  rewrite length_map, length_combine, Hhs.
  destruct (fold_left round _ _) as [[[[[[[a b] c] d] e] f] g] h].
  reflexivity.
Qed.

Lemma blocks_length (n : nat) :
  forall hs ws : list Z,
    List.length hs = 8%nat -> List.length (blocks n hs ws) = 8%nat.
Proof.
  induction n as [| n IH]; intros hs ws Hhs; cbn [blocks].
  - destruct ws; exact Hhs.
  - destruct ws as [| x ws']; [exact Hhs |].
    apply IH. apply compress_length. exact Hhs.
Qed.

Lemma flat_map_be_bytes_length (l : list Z) :
  List.length (flat_map (be_bytes 4) l) = (4 * List.length l)%nat.
Proof.
  induction l as [| x l IH]; [reflexivity |].
  cbn [flat_map]. rewrite length_app, be_bytes_length, IH. cbn [List.length]. lia.
Qed.

(** A digest has 32 bytes, whatever the message. *)
Lemma sha256_length (msg : bytes) : List.length (sha256 msg) = 32%nat.
Proof.
  unfold sha256. rewrite flat_map_be_bytes_length, blocks_length; reflexivity.
Qed.

(** Lists, three elements at a time. *)
Lemma list_ind3 {A : Type} (P : list A -> Prop) :
  P [] -> (forall a, P [a]) -> (forall a b, P [a; b]) ->
  (forall a b c l, P l -> P (a :: b :: c :: l)) ->
  forall l, P l.
Proof.
  intros H0 H1 H2 H3 l.
  assert (Hall : P l /\ (forall a, P (a :: l)) /\ (forall a b, P (a :: b :: l))).
  { induction l as [| x l (IH0 & IH1 & IH2)].
    - repeat split; auto.
    - repeat split; auto. }
  apply Hall.
Qed.

(** Base64 writes four characters for every three bytes, rounded up. *)
Lemma base64_encode_length (bs : bytes) :
  String.length (base64_encode bs) = (4 * ((List.length bs + 2) / 3))%nat.
Proof.
  induction bs as [| a | a b | a b c l IH] using list_ind3;
    try reflexivity.
  cbn [base64_encode String.length List.length]. rewrite IH.
  replace (S (S (S (List.length l))) + 2)%nat
    with ((List.length l + 2) + 1 * 3)%nat by lia.
  rewrite Nat.div_add by discriminate. lia.
Qed.

(** X10.  The credential hash is always 44 characters long (the base64
    text of a 32-byte MAC), whatever the client identifier, the secret
    and the user name, the empty strings included. *)
Theorem calculateSecretHash_length :
  forall clientId clientSecret username : string,
    String.length (calculateSecretHash clientId clientSecret username)
    = 44%nat.
Proof.
  intros clientId clientSecret username.
  unfold calculateSecretHash, digest, update, createHmac.
  cbn [hmac_algorithm hmac_key hmac_data].
  rewrite base64_encode_length.
  unfold hmac_sha256. rewrite sha256_length. reflexivity.
Qed.

End CredentialHashShape.

(** ** The credential hash and the standards

    The model of Node's [crypto] and the functions of the standards are
    two independent pieces of text.  Both compute the published vectors;
    the lemmas below show that they agree on every input, and the claim
    about the credential hash follows. *)
Section CredentialHashStandard.
Import Crypto CryptoUtils.

(** The functions of [Standard] on the vectors of FIPS 180-4, of
    RFC 4231 (cases 2 and 6, the latter with a key longer than a block)
    and of RFC 4648. *)
Example standard_sha256_abc :
  hex_encode (Standard.sha256 (Standard.octets "abc"))
  = "ba7816bf8f01cfea414140de5dae2223b00361a396177a9cb410ff61f20015ad".
Proof. vm_compute. reflexivity. Qed.

Example standard_sha256_two_blocks :
  hex_encode (Standard.sha256 (Standard.octets
    "abcdbcdecdefdefgefghfghighijhijkijkljklmklmnlmnomnopnopq"))
  = "248d6a61d20638b8e5c026930c3e6039a33ce45964ff2167f6ecedd419db06c1".
Proof. vm_compute. reflexivity. Qed.

Example standard_hmac_rfc4231_case2 :
  hex_encode (Standard.hmac_sha256
                (Standard.octets "Jefe")
                (Standard.octets "what do ya want for nothing?"))
  = "5bdcc146bf60754e6a042426089575c75a003f089d2739839dec58b964ec3843".
Proof. vm_compute. reflexivity. Qed.

Example standard_hmac_rfc4231_case6 :
  hex_encode (Standard.hmac_sha256
                (repeat 170 131)
                (Standard.octets
                   "Test Using Larger Than Block-Size Key - Hash Key First"))
  = "60e431591ee0b67f0d8a26aacbf5b77f8e0bc6213728c5140546040f0ee37f54".
Proof. vm_compute. reflexivity. Qed.

Example standard_base64_rfc4648 :
  map (fun s => Standard.base64 (Standard.octets s))
      [ "f"; "fo"; "foo"; "foob"; "fooba"; "foobar" ]%list
  = [ "Zg=="; "Zm8="; "Zm9v"; "Zm9vYg=="; "Zm9vYmE="; "Zm9vYmFy" ]%list.
Proof. vm_compute. reflexivity. Qed.

(** *** Words *)

Lemma w32_mod (x : Z) : w32 x = x mod 2 ^ 32.
Proof.
  unfold w32. change 0xFFFFFFFF with (Z.ones 32).
  apply Z.land_ones. lia.
Qed.

Lemma add32_mod (x y : Z) : add32 x y = (x + y) mod 2 ^ 32.
Proof. unfold add32. apply w32_mod. Qed.

Lemma rotr_ROTR (n x : Z) :
  0 <= n <= 32 -> rotr n x = Standard.ROTR n x.
Proof.
  intros Hn. unfold rotr, Standard.ROTR.
  rewrite w32_mod, Z.shiftr_div_pow2, Z.shiftl_mul_pow2 by lia.
  reflexivity.
Qed.

Lemma Ch_standard (x y z : Z) : Ch x y z = Standard.Ch x y z.
Proof. reflexivity. Qed.

Lemma Maj_standard (x y z : Z) : Maj x y z = Standard.Maj x y z.
Proof. reflexivity. Qed.

Lemma Sigma0_standard (x : Z) : Sigma0 x = Standard.Sigma0 x.
Proof.
  unfold Sigma0, Standard.Sigma0. rewrite !rotr_ROTR by lia. reflexivity.
Qed.

Lemma Sigma1_standard (x : Z) : Sigma1 x = Standard.Sigma1 x.
Proof.
  unfold Sigma1, Standard.Sigma1. rewrite !rotr_ROTR by lia. reflexivity.
Qed.

Lemma sigma0_standard (x : Z) : sigma0 x = Standard.sigma0 x.
Proof.
  unfold sigma0, Standard.sigma0, Standard.SHR.
  rewrite !rotr_ROTR, Z.shiftr_div_pow2 by lia. reflexivity.
Qed.

Lemma sigma1_standard (x : Z) : sigma1 x = Standard.sigma1 x.
Proof.
  unfold sigma1, Standard.sigma1, Standard.SHR.
  rewrite !rotr_ROTR, Z.shiftr_div_pow2 by lia. reflexivity.
Qed.

(** Sums that are reduced at every addition and sums that are reduced
    once agree. *)
Lemma add32_sum4 (a b c d : Z) :
  add32 (add32 a b) (add32 c d) = (a + b + c + d) mod 2 ^ 32.
Proof.
  rewrite !add32_mod. change (2 ^ 32) with 4294967296.
  Z.div_mod_to_equations. lia.
Qed.

Lemma add32_sum5 (a b c d e : Z) :
  add32 (add32 (add32 a b) (add32 c d)) e = (a + b + c + d + e) mod 2 ^ 32.
Proof.
  rewrite !add32_mod. change (2 ^ 32) with 4294967296.
  Z.div_mod_to_equations. lia.
Qed.

Lemma constants_standard : K256 = Standard.K /\ H256 = Standard.H0.
Proof. split; vm_compute; reflexivity. Qed.

(** *** The message schedule *)

Lemma extend_length (n : nat) :
  forall W : list Z,
    List.length (Standard.extend n W) = (List.length W + n)%nat.
Proof.
  induction n as [| n IH]; intros W; cbn [Standard.extend].
  - lia.
  - rewrite IH, length_app. cbn [List.length]. lia.
Qed.

(** The program keeps the schedule with the most recent word first and
    reads it from the head; the standard counts from [W0]. *)
Lemma schedule_standard (n : nat) :
  forall W : list Z,
    (16 <= List.length W)%nat ->
    rev (schedule n (rev W)) = Standard.extend n W.
Proof.
  induction n as [| n IH]; intros W HW; cbn [schedule Standard.extend].
  - apply rev_involutive.
  - rewrite !rev_nth by lia.
    rewrite add32_sum4, sigma0_standard, sigma1_standard.
    fold (Standard.next_word W).
    rewrite <- rev_unit. apply IH.
    rewrite length_app. cbn [List.length]. lia.
Qed.

(** *** The sixty-four steps *)

Lemma round_standard (W : list Z) (t : nat) (v : regs) :
  round v (nth t Standard.K 0, nth t W 0) = Standard.step W t v.
Proof.
  destruct v as [[[[[[[a b] c] d] e] f] g] h].
  unfold round, Standard.step. cbn [fst snd].
  rewrite add32_sum5, !add32_mod.
  rewrite Sigma0_standard, Sigma1_standard, Ch_standard, Maj_standard.
  reflexivity.
Qed.

Lemma firstn_succ {A : Type} (d : A) (n : nat) :
  forall l : list A,
    (n < List.length l)%nat ->
    firstn (S n) l = (firstn n l ++ [nth n l d])%list.
Proof.
  induction n as [| n IH]; intros [| x l] Hl; cbn [List.length] in Hl;
    try lia.
  - reflexivity.
  - cbn [firstn nth app]. rewrite <- IH by lia. reflexivity.
Qed.

Lemma rounds_standard (W : list Z) (v : regs) :
  List.length W = 64%nat ->
  forall n : nat,
    (n <= 64)%nat ->
    fold_left round (firstn n (combine K256 W)) v = Standard.steps n W v.
Proof.
  intros HW. induction n as [| n IH]; intros Hn.
  - reflexivity.
  - rewrite (firstn_succ (0, 0)).
    + rewrite fold_left_app, IH by lia. cbn [fold_left Standard.steps].
      rewrite combine_nth by (rewrite HW; reflexivity).
      destruct constants_standard as [-> _].
      apply round_standard.
    + rewrite length_combine, HW. change (List.length K256) with 64%nat. lia.
Qed.

(** *** One block *)

Lemma rounds_all (W : list Z) (v : regs) :
  List.length W = 64%nat ->
  fold_left round (combine K256 W) v = Standard.steps 64 W v.
Proof.
  intros HW. rewrite <- (rounds_standard W v HW 64 (le_n 64)).
  rewrite firstn_all2; [reflexivity |].
  rewrite length_combine, HW. reflexivity.
Qed.

Lemma compress_standard (hs block : list Z) :
  List.length hs = 8%nat -> List.length block = 16%nat ->
  compress hs block = Standard.hash_block hs block.
Proof.
  intros Hhs Hblock. unfold compress, Standard.hash_block.
  unfold Standard.message_schedule.
  rewrite schedule_standard by lia.
  assert (HW : List.length (Standard.extend 48 block) = 64%nat)
    by (rewrite extend_length; lia).
  revert HW. generalize (Standard.extend 48 block) as W. intros W HW.
  rewrite rounds_all by exact HW. unfold regs_of.
  generalize (Standard.steps 64 W
                (nth 0 hs 0, nth 1 hs 0, nth 2 hs 0, nth 3 hs 0,
                 nth 4 hs 0, nth 5 hs 0, nth 6 hs 0, nth 7 hs 0)) as v.
  intros [[[[[[[a b] c] d] e] f] g] h].
  destruct hs as [| h0 [| h1 [| h2 [| h3 [| h4 [| h5 [| h6 [| h7 [| ? ?]]]]]]]]];
    try discriminate.
  cbn [list_of combine map fst snd nth].
  rewrite !add32_mod.
  rewrite (Z.add_comm h0), (Z.add_comm h1), (Z.add_comm h2), (Z.add_comm h3),
    (Z.add_comm h4), (Z.add_comm h5), (Z.add_comm h6), (Z.add_comm h7).
  reflexivity.
Qed.

(** *** Words and blocks of the padded message *)

Lemma be_words_length (n : nat) :
  forall bs : bytes,
    List.length bs = (4 * n)%nat -> List.length (be_words bs) = n.
Proof.
  induction n as [| n IH]; intros bs Hbs.
  - destruct bs; [reflexivity | discriminate].
  - destruct bs as [| a [| b [| c [| d rest]]]]; cbn [List.length] in Hbs;
      try lia.
    cbn [be_words List.length]. f_equal. apply IH. lia.
Qed.

Lemma be_words_nth (i : nat) :
  forall bs : bytes,
    (i < List.length (be_words bs))%nat ->
    nth i (be_words bs) 0 = Standard.word_at bs i.
Proof.
  induction i as [| i IH]; intros bs Hi;
    destruct bs as [| a [| b [| c [| d rest]]]];
    cbn [be_words List.length] in Hi; try lia.
  - unfold Standard.word_at. cbn [be_words nth Nat.mul Nat.add].
    rewrite !Z.shiftl_mul_pow2 by lia. reflexivity.
  - cbn [be_words nth]. rewrite IH by lia.
    unfold Standard.word_at.
    replace (4 * S i)%nat with (S (S (S (S (4 * i))))) by lia.
    cbn [Nat.add nth]. reflexivity.
Qed.

Lemma block_standard (bs : bytes) (n i : nat) :
  List.length bs = (64 * n)%nat -> (i < n)%nat ->
  firstn 16 (skipn (16 * i) (be_words bs)) = Standard.block bs i.
Proof.
  intros Hbs Hi.
  assert (Hws : List.length (be_words bs) = (16 * n)%nat)
    by (apply be_words_length; lia).
  unfold Standard.block.
  apply (nth_ext _ _ 0 0).
  - rewrite length_firstn, length_skipn, length_map, length_seq, Hws. lia.
  - intros t Ht.
    rewrite length_firstn, length_skipn, Hws in Ht.
    assert (Ht16 : (t < 16)%nat) by lia.
    rewrite nth_firstn.
    destruct (Nat.ltb_spec t 16) as [_ | ?]; [| lia].
    rewrite nth_skipn, be_words_nth by lia.
    set (f := fun t : nat => Standard.word_at bs (16 * i + t)).
    rewrite (nth_indep (map f (seq 0 16)) 0 (f 0%nat))
      by (rewrite length_map, length_seq; lia).
    rewrite map_nth, seq_nth by lia. reflexivity.
Qed.

Lemma hash_blocks_succ (M : list Z) (i : nat) :
  Standard.hash_blocks (S i) M
  = Standard.hash_block (Standard.hash_blocks i M) (Standard.block M i).
Proof. cbn [Standard.hash_blocks]. reflexivity. Qed.

(** The program walks the words from the front, sixteen at a time; the
    standard numbers the blocks. *)
Lemma blocks_standard (bs : bytes) (n : nat) :
  List.length bs = (64 * n)%nat ->
  forall k i fuel : nat,
    (i + k = n)%nat -> (k <= fuel)%nat ->
    blocks fuel (Standard.hash_blocks i bs) (skipn (16 * i) (be_words bs))
    = Standard.hash_blocks n bs.
Proof.
  intros Hbs.
  assert (Hws : List.length (be_words bs) = (16 * n)%nat)
    by (apply be_words_length; lia).
  assert (Hlen : forall i, List.length (Standard.hash_blocks i bs) = 8%nat).
  { intros [| i]; cbn [Standard.hash_blocks]; [reflexivity |].
    unfold Standard.hash_block.
    destruct (Standard.steps 64 _ _) as [[[[[[[a b] c] d] e] f] g] h].
    reflexivity. }
  induction k as [| k IH]; intros i fuel Hik Hfuel.
  - replace i with n by lia.
    rewrite skipn_all2 by lia.
    destruct fuel; reflexivity.
  - destruct fuel as [| fuel]; [lia |].
    destruct (skipn (16 * i) (be_words bs)) as [| w ws] eqn:Hskip.
    + apply (f_equal (@List.length Z)) in Hskip.
      rewrite length_skipn, Hws in Hskip. cbn [List.length] in Hskip. lia.
    + cbn [blocks]. rewrite <- Hskip.
      rewrite (block_standard bs n i) by lia.
      rewrite compress_standard.
      * rewrite skipn_skipn.
        replace (16 + 16 * i)%nat with (16 * S i)%nat by lia.
        rewrite <- hash_blocks_succ. apply IH; lia.
      * apply Hlen.
      * unfold Standard.block. rewrite length_map, length_seq. reflexivity.
Qed.

(** *** Padding and output *)

Lemma be_bytes_standard (width : nat) (x : Z) :
  be_bytes width x = Standard.big_endian width x.
Proof.
  unfold be_bytes. induction width as [| n IH]; [reflexivity |].
  rewrite seq_S, rev_unit. cbn [map Standard.big_endian Nat.add].
  rewrite IH. f_equal.
  change 0xFF with (Z.ones 8).
  rewrite Z.land_ones, Z.shiftr_div_pow2 by lia.
  rewrite Z.pow_mul_r by lia. reflexivity.
Qed.

Lemma pad_standard (msg : bytes) :
  pad msg = (msg ++ Standard.padding (Z.of_nat (List.length msg)))%list.
Proof.
  unfold pad, Standard.padding. rewrite be_bytes_standard.
  replace (56 - (Z.of_nat (List.length msg) + 1))
    with (55 - Z.of_nat (List.length msg)) by lia.
  reflexivity.
Qed.

Lemma pad_length (msg : bytes) :
  exists n : nat, List.length (pad msg) = (64 * n)%nat.
Proof.
  unfold pad.
  exists (Z.to_nat ((Z.of_nat (List.length msg) + 9
                     + (55 - Z.of_nat (List.length msg)) mod 64) / 64)).
  cbn [List.length app].
  rewrite length_app. cbn [List.length].
  rewrite length_app, repeat_length, be_bytes_length.
  set (len := List.length msg).
  Z.div_mod_to_equations. lia.
Qed.

(** *** The hash *)

Lemma sha256_standard (msg : bytes) : sha256 msg = Standard.sha256 msg.
Proof.
  unfold sha256, Standard.sha256.
  destruct (pad_length msg) as [n Hn].
  rewrite <- pad_standard, Hn.
  replace (64 * n / 64)%nat with n
    by (rewrite Nat.mul_comm, Nat.div_mul; [reflexivity | discriminate]).
  assert (Hws : List.length (be_words (pad msg)) = (16 * n)%nat)
    by (apply be_words_length; lia).
  pose proof (blocks_standard (pad msg) n Hn n 0%nat
                (List.length (be_words (pad msg)))) as Hb.
  change (skipn (16 * 0) (be_words (pad msg))) with (be_words (pad msg)) in Hb.
  cbn [Standard.hash_blocks] in Hb.
  destruct constants_standard as [_ ->].
  rewrite Hb by lia.
  apply flat_map_ext. intros w. apply be_bytes_standard.
Qed.

(** *** The MAC *)

Lemma xor_repeat (c : Z) (n : nat) :
  forall l : list Z,
    List.length l = n -> map (Z.lxor c) l = Standard.xor l (repeat c n).
Proof.
  induction n as [| n IH]; intros [| x l] Hl; try discriminate.
  - reflexivity.
  - cbn [map repeat]. unfold Standard.xor. cbn [combine map fst snd].
    rewrite Z.lxor_comm. f_equal. apply IH.
    cbn [List.length] in Hl. lia.
Qed.

Lemma hmac_key_block_length (key : bytes) :
  List.length (hmac_key_block key) = 64%nat.
Proof.
  unfold hmac_key_block, hmac_block_size.
  destruct (Nat.ltb_spec 64 (List.length key)) as [Hlong | Hshort];
    rewrite length_app, repeat_length.
  - rewrite sha256_length. reflexivity.
  - lia.
Qed.

Lemma hmac_sha256_standard (key msg : bytes) :
  hmac_sha256 key msg = Standard.hmac_sha256 key msg.
Proof.
  unfold hmac_sha256, Standard.hmac_sha256, Standard.hmac.
  unfold Standard.ipad, Standard.opad.
  assert (Hkey : hmac_key_block key
                 = Standard.key_block Standard.sha256 64 key).
  { unfold hmac_key_block, Standard.key_block, hmac_block_size.
    rewrite sha256_standard. reflexivity. }
  rewrite <- Hkey.
  rewrite <- !(xor_repeat _ 64) by apply hmac_key_block_length.
  rewrite !sha256_standard. reflexivity.
Qed.

(** *** The encoding *)

Lemma be_bytes_are_octets (width : nat) (w x : Z) :
  In x (be_bytes width w) -> Standard.is_octet x.
Proof.
  unfold be_bytes. intros Hin. apply in_map_iff in Hin.
  destruct Hin as [i [<- _]].
  change 0xFF with (Z.ones 8). rewrite Z.land_ones by lia.
  unfold Standard.is_octet. change (2 ^ 8) with 256.
  pose proof (Z.mod_pos_bound (Z.shiftr w (8 * Z.of_nat i)) 256). lia.
Qed.

Lemma sha256_is_octets (msg : bytes) : Forall Standard.is_octet (sha256 msg).
Proof.
  apply Forall_forall. intros x Hin. unfold sha256 in Hin.
  apply in_flat_map in Hin. destruct Hin as [w [_ Hin]].
  apply (be_bytes_are_octets 4 w). exact Hin.
Qed.

Lemma get_nth (d : ascii) (s : string) :
  forall n : nat,
    match get n s with Some c => c | None => d end
    = nth n (list_ascii_of_string s) d.
Proof.
  induction s as [| c s IH]; intros [| n]; try reflexivity.
  cbn [get list_ascii_of_string nth]. apply IH.
Qed.

Lemma base64_char_letter (i : Z) : base64_char i = Standard.letter i.
Proof.
  unfold base64_char, Standard.letter, Standard.letters.
  apply get_nth.
Qed.

(** The identities between the shifts and masks of the program and the
    quotients and remainders of the standard are settled on the 256
    octets, one by one. *)
Lemma in_all_octets (x : Z) : Standard.is_octet x -> In x Standard.all_octets.
Proof.
  intros Hx. unfold Standard.all_octets. apply in_map_iff.
  exists (Z.to_nat x). split; [unfold Standard.is_octet in Hx; lia |].
  apply in_seq. unfold Standard.is_octet in Hx. lia.
Qed.

Lemma by_enumeration (P : Z -> Z -> bool) :
  forallb (fun a => forallb (P a) Standard.all_octets) Standard.all_octets
  = true ->
  forall a b : Z, Standard.is_octet a -> Standard.is_octet b -> P a b = true.
Proof.
  intros Hall a b Ha Hb.
  rewrite forallb_forall in Hall.
  specialize (Hall a (in_all_octets a Ha)).
  rewrite forallb_forall in Hall.
  apply Hall. apply in_all_octets. exact Hb.
Qed.

Lemma sextet_first (a : Z) : Z.shiftr a 2 = a / 4.
Proof. rewrite Z.shiftr_div_pow2 by lia. reflexivity. Qed.

Lemma sextet_second (a b : Z) :
  Standard.is_octet a -> Standard.is_octet b ->
  Z.lor (Z.shiftl (Z.land a 3) 4) (Z.shiftr b 4) = (a mod 4) * 16 + b / 16.
Proof.
  intros Ha Hb. apply Z.eqb_eq.
  apply (by_enumeration
           (fun a b => Z.eqb (Z.lor (Z.shiftl (Z.land a 3) 4) (Z.shiftr b 4))
                             ((a mod 4) * 16 + b / 16)));
    [| exact Ha | exact Hb].
  vm_compute. reflexivity.
Qed.

Lemma sextet_third (b c : Z) :
  Standard.is_octet b -> Standard.is_octet c ->
  Z.lor (Z.shiftl (Z.land b 15) 2) (Z.shiftr c 6) = (b mod 16) * 4 + c / 64.
Proof.
  intros Hb Hc. apply Z.eqb_eq.
  apply (by_enumeration
           (fun b c => Z.eqb (Z.lor (Z.shiftl (Z.land b 15) 2) (Z.shiftr c 6))
                             ((b mod 16) * 4 + c / 64)));
    [| exact Hb | exact Hc].
  vm_compute. reflexivity.
Qed.

Lemma sextet_fourth (c : Z) : Z.land c 63 = c mod 64.
Proof. change 63 with (Z.ones 6). rewrite Z.land_ones by lia. reflexivity. Qed.

Lemma sextet_last1 (a : Z) : Z.shiftl (Z.land a 3) 4 = (a mod 4) * 16.
Proof.
  change 3 with (Z.ones 2).
  rewrite Z.land_ones, Z.shiftl_mul_pow2 by lia. reflexivity.
Qed.

Lemma sextet_last2 (b : Z) : Z.shiftl (Z.land b 15) 2 = (b mod 16) * 4.
Proof.
  change 15 with (Z.ones 4).
  rewrite Z.land_ones, Z.shiftl_mul_pow2 by lia. reflexivity.
Qed.

Ltac sextets :=
  unfold Standard.is_octet in *;
  change (2 ^ 2) with 4; change (2 ^ 4) with 16; change (2 ^ 6) with 64;
  change (2 ^ 8) with 256; change (2 ^ 12) with 4096;
  change (2 ^ 16) with 65536; change (2 ^ 18) with 262144;
  Z.div_mod_to_equations; lia.

(** The four numbers of a full group, the two of a group of 8 bits and
    the three of a group of 16 bits. *)
Lemma group24 (a b c : Z) :
  Standard.is_octet a -> Standard.is_octet b -> Standard.is_octet c ->
  (a * 2 ^ 16 + b * 2 ^ 8 + c) / 2 ^ 18 = a / 4
  /\ ((a * 2 ^ 16 + b * 2 ^ 8 + c) / 2 ^ 12) mod 2 ^ 6 = (a mod 4) * 16 + b / 16
  /\ ((a * 2 ^ 16 + b * 2 ^ 8 + c) / 2 ^ 6) mod 2 ^ 6 = (b mod 16) * 4 + c / 64
  /\ (a * 2 ^ 16 + b * 2 ^ 8 + c) mod 2 ^ 6 = c mod 64.
Proof. intros Ha Hb Hc. repeat split; sextets. Qed.

Lemma group8 (a : Z) :
  Standard.is_octet a ->
  (a * 2 ^ 4) / 2 ^ 6 = a / 4 /\ (a * 2 ^ 4) mod 2 ^ 6 = (a mod 4) * 16.
Proof. intros Ha. split; sextets. Qed.

Lemma group16 (a b : Z) :
  Standard.is_octet a -> Standard.is_octet b ->
  ((a * 2 ^ 8 + b) * 2 ^ 2) / 2 ^ 12 = a / 4
  /\ (((a * 2 ^ 8 + b) * 2 ^ 2) / 2 ^ 6) mod 2 ^ 6 = (a mod 4) * 16 + b / 16
  /\ ((a * 2 ^ 8 + b) * 2 ^ 2) mod 2 ^ 6 = (b mod 16) * 4.
Proof. intros Ha Hb. repeat split; sextets. Qed.

Lemma base64_standard (bs : bytes) :
  Forall Standard.is_octet bs -> base64_encode bs = Standard.base64 bs.
Proof.
  induction bs as [| a | a b | a b c l IH] using list_ind3; intros Hbs.
  - reflexivity.
  - apply Forall_cons_iff in Hbs. destruct Hbs as [Ha _].
    cbn [base64_encode Standard.base64].
    destruct (group8 a Ha) as (-> & ->).
    rewrite !base64_char_letter, sextet_first, sextet_last1.
    reflexivity.
  - apply Forall_cons_iff in Hbs. destruct Hbs as [Ha Hbs].
    apply Forall_cons_iff in Hbs. destruct Hbs as [Hb _].
    cbn [base64_encode Standard.base64].
    destruct (group16 a b Ha Hb) as (-> & -> & ->).
    rewrite !base64_char_letter, sextet_first, sextet_second, sextet_last2
      by assumption.
    reflexivity.
  - apply Forall_cons_iff in Hbs. destruct Hbs as [Ha Hbs].
    apply Forall_cons_iff in Hbs. destruct Hbs as [Hb Hbs].
    apply Forall_cons_iff in Hbs. destruct Hbs as [Hc Hl].
    cbn [base64_encode Standard.base64].
    destruct (group24 a b c Ha Hb Hc) as (-> & -> & -> & ->).
    rewrite !base64_char_letter, sextet_first, sextet_second, sextet_third,
      sextet_fourth, IH by assumption.
    reflexivity.
Qed.

Lemma bytes_of_string_standard (s : string) :
  bytes_of_string s = Standard.octets s.
Proof.
  unfold bytes_of_string, Standard.octets. apply map_ext. intros a.
  unfold nat_of_ascii. symmetry. apply N_nat_Z.
Qed.

(** C8.  For all [clientId], [clientSecret] and [username], what
    [calculateSecretHash] returns is the base64 encoding (RFC 4648) of
    the HMAC (RFC 2104) over SHA-256 (FIPS 180-4), keyed by the octets
    of [clientSecret], of the octets of the string [username + clientId],
    these three functions being the ones written from the standards in
    [Standard], not the ones of the model of Node's [crypto].  Both
    sides are functions of the three strings alone, so equal inputs
    give equal outputs and nothing else is read or written. *)
Theorem calculateSecretHash_is_hmac_base64 :
  forall clientId clientSecret username : string,
    calculateSecretHash clientId clientSecret username
    = Spec.hash clientId clientSecret username.
Proof.
  intros clientId clientSecret username.
  unfold calculateSecretHash, Spec.hash, digest.
  cbn [hmac_algorithm hmac_data hmac_key createHmac update app].
  rewrite base64_standard by (unfold hmac_sha256; apply sha256_is_octets).
  rewrite hmac_sha256_standard, !bytes_of_string_standard.
  reflexivity.
Qed.

End CredentialHashStandard.

(** ** The error responder *)
Section ErrorResponder.
Import ErrorHandler ErrorResponse.
Context {rt : Runtime.t}.

Ltac split_case :=
  match goal with
  | |- context [String.eqb ?a ?b] =>
      destruct (String.eqb_spec a b) as [-> | ?]
  end.

(** The mapper never produces a status of its own outside the list. *)
Lemma handleCognitoError_status (error : option RawError) :
  In (statusCode (handleCognitoError error)) own_statuses.
Proof.
  unfold handleCognitoError. generalize (errorType error) as c. intros c.
  repeat (split_case; [cbn; tauto |]). cbn. tauto.
Qed.

(** An error with a non-empty [__type] is known by it. *)
Lemma errorType_of_type (raw : RawError) (type : string) :
  __type raw = Some type -> type <> "" -> errorType (Some raw) = type.
Proof.
  intros Htype Hne.
  assert (Htruthy : JS.truthy (Some type) = true).
  { cbn. destruct (String.eqb_spec type ""); [contradiction | reflexivity]. }
  unfold errorType, JS.or. rewrite Htype, Htruthy. cbv iota.
  rewrite Htruthy. reflexivity.
Qed.

(** X11.  An error that is not an [AppError] and whose text mentions
    "token" or "unauthorized" (in any letter case) is answered 401 with
    the code AUTH_REQUIRED and with its own text as the message,
    whatever its [__type] and [name]: the provider mapping is not
    consulted for it. *)
Theorem sendErrorResponse_auth_words :
  forall (reply : Http.Reply) (raw : RawError) (requestId : option string)
         (text : string),
    raw_message raw = Some text ->
    text <> "" ->
    mentions_auth (Some text) = true ->
    sendErrorResponse reply (Raw raw) requestId
    = Http.send (Http.code reply 401)
        (Http.JObject
           [ ("error", Http.JString text);
             ("errorCode", Http.JString "AUTH_REQUIRED");
             ("requestId", Http.optional requestId) ]).
Proof.
  intros reply raw requestId text Htext Hne Hmentions.
  unfold sendErrorResponse, to_AppError. rewrite Htext, Hmentions.
  unfold or_else, JS.or. cbn [JS.truthy].
  destruct (String.eqb_spec text "") as [-> | _]; [contradiction |].
  reflexivity.
Qed.

(** X12.  For an error that is not an [AppError] and whose text does not
    mention "token" or "unauthorized": with a non-empty [__type] the
    response is the one of the provider mapping for that [__type] alone
    (status, fixed message and code; the error's own text is not
    sent); without one it is 500 INTERNAL_SERVER_ERROR with the error's
    own text, or "An unexpected error occurred" when it has none. *)
Theorem sendErrorResponse_unmentioned :
  forall (reply : Http.Reply) (raw : RawError) (requestId : option string),
    mentions_auth (raw_message raw) = false ->
    (forall type,
       __type raw = Some type -> type <> "" ->
       sendErrorResponse reply (Raw raw) requestId
       = Http.send
           (Http.code reply
              (statusCode
                 (handleCognitoError (Some (mkRawError (Some type) None None)))))
           (error_body
              (handleCognitoError (Some (mkRawError (Some type) None None)))
              requestId))
    /\ (JS.truthy (__type raw) = false ->
        sendErrorResponse reply (Raw raw) requestId
        = Http.send (Http.code reply 500)
            (Http.JObject
               [ ("error",
                  Http.JString
                    (or_else (raw_message raw) "An unexpected error occurred"));
                 ("errorCode", Http.JString "INTERNAL_SERVER_ERROR");
                 ("requestId", Http.optional requestId) ])).
Proof.
  intros reply raw requestId Hquiet. split.
  - intros type Htype Hne.
    assert (Htruthy : JS.truthy (__type raw) = true).
    { rewrite Htype. cbn. destruct (String.eqb_spec type "");
        [contradiction | reflexivity]. }
    unfold sendErrorResponse, to_AppError, error_body.
    rewrite Hquiet, Htruthy.
    assert (Hsame : handleCognitoError (Some raw)
                    = handleCognitoError (Some (mkRawError (Some type) None None))).
    { apply handleCognitoError_by_code.
      rewrite (errorType_of_type raw type Htype Hne).
      rewrite (errorType_of_type (mkRawError (Some type) None None) type
                 eq_refl Hne).
      reflexivity. }
    rewrite Hsame. reflexivity.
  - intros Hfalsy. unfold sendErrorResponse, to_AppError.
    rewrite Hquiet, Hfalsy. reflexivity.
Qed.

(** X13.  [sendErrorResponse] never consults the [name] of an error:
    two thrown objects that differ in their [name] only get the same
    response.  (The mapper it calls does fall back on the name, but is
    called only for errors that have a [__type].) *)
Theorem sendErrorResponse_ignores_name :
  forall (reply : Http.Reply) (raw : RawError) (name : option string)
         (requestId : option string),
    sendErrorResponse reply (Raw (rename raw name)) requestId
    = sendErrorResponse reply (Raw raw) requestId.
Proof.
  intros reply raw name requestId.
  assert (Hsame : to_AppError (Raw (rename raw name)) = to_AppError (Raw raw)).
  { destruct raw as [type old_name text].
    unfold to_AppError, rename. cbv [__type raw_message raw_name].
    destruct (mentions_auth text); [reflexivity |].
    destruct type as [type |]; [| reflexivity].
    unfold JS.truthy.
    destruct (String.eqb_spec type "") as [-> | Hne]; [reflexivity |].
    cbn [negb]. apply handleCognitoError_by_code.
    rewrite (errorType_of_type (mkRawError (Some type) old_name text) type
               eq_refl Hne).
    apply errorType_of_type; [reflexivity | exact Hne]. }
  unfold sendErrorResponse. rewrite Hsame. reflexivity.
Qed.


(** X14.  The status of the response: an [AppError] keeps its own; for
    every other error it is one of 400, 401, 403, 404, 409, 429 and
    500.  The cookies of the reply are never touched and a body is
    always sent. *)
Theorem sendErrorResponse_status :
  forall (reply : Http.Reply) (error : Thrown) (requestId : option string),
    (forall e, error = App e ->
       sendErrorResponse reply error requestId
       = Http.send (Http.code reply (statusCode e)) (error_body e requestId))
    /\ (forall raw, error = Raw raw ->
          In (Http.statusCode (sendErrorResponse reply error requestId))
             own_statuses)
    /\ Http.cookieOps (sendErrorResponse reply error requestId)
       = Http.cookieOps reply
    /\ Http.sent (sendErrorResponse reply error requestId) <> None.
Proof.
  intros reply error requestId. repeat split.
  - intros e ->. reflexivity.
  - intros raw ->. unfold sendErrorResponse, to_AppError.
    cbn [Http.send Http.code Http.statusCode].
    destruct (mentions_auth (raw_message raw)); [cbn; tauto |].
    destruct (JS.truthy (__type raw)); [apply handleCognitoError_status |].
    cbn. tauto.
  - discriminate.
Qed.

End ErrorResponder.

(** ** The provider errors, from the mapper to the client *)
Section ProviderErrors.
Import ErrorHandler ErrorResponse.
Context {rt : Runtime.t}.

(** [message || fallback] is the message when there is a non-empty
    one. *)
Lemma or_else_text (text fallback : string) :
  text <> "" -> or_else (Some text) fallback = text.
Proof.
  intros Hne. unfold or_else, JS.or. cbn [JS.truthy].
  destruct (String.eqb_spec text "") as [-> | _]; [contradiction |].
  reflexivity.
Qed.

(** C9, amended.  The mapper [handleCognitoError] has a case for ten
    provider error codes: UserNotConfirmedException 403,
    NotAuthorizedException 401, UserNotFoundException 404,
    PasswordResetRequiredException 403, CodeMismatchException 400,
    ExpiredCodeException 400, TooManyRequestsException 429,
    InvalidPasswordException 400, UsernameExistsException 409 and
    LimitExceededException 429 (the table [switch_codes]).  For each of
    them it returns a kind with that status and with the code itself
    as machine-readable code, different from the kind of every other
    code and from the generic kind; for every other code it returns
    the one generic kind (500, INTERNAL_AUTH_ERROR); and what it
    returns depends on the code alone.
    The client is answered by [sendErrorResponse], which does not
    always consult the mapper.  A provider error whose text mentions
    "token" or "unauthorized" is answered 401 AUTH_REQUIRED with
    [message || "Authentication required"] as the message.  One whose
    text mentions neither is answered, if it has a non-empty [__type],
    with the mapper's kind (its status, its fixed message, its code),
    and otherwise 500 INTERNAL_SERVER_ERROR with
    [message || "An unexpected error occurred"] as the message.  In
    both cases [message || ...] is the error's own text whenever it has
    a non-empty one. *)
Theorem provider_errors_answered :
  forall error : option RawError,
    (forall status, lookup_code (errorType error) switch_codes = Some status ->
       statusCode (handleCognitoError error) = status
       /\ errorCode (handleCognitoError error) = errorType error
       /\ handleCognitoError error <> generic_error)
    /\ (lookup_code (errorType error) switch_codes = None ->
          handleCognitoError error = generic_error
          /\ statusCode (handleCognitoError error) = 500)
    /\ (forall other : option RawError,
          lookup_code (errorType error) switch_codes <> None ->
          errorType other <> errorType error ->
          handleCognitoError other <> handleCognitoError error)
    /\ (forall other : option RawError,
          errorType other = errorType error ->
          handleCognitoError other = handleCognitoError error)
    /\ (forall (raw : RawError) (reply : Http.Reply)
               (requestId : option string),
          error = Some raw ->
          (mentions_auth (raw_message raw) = true ->
           sendErrorResponse reply (Raw raw) requestId
           = Http.send (Http.code reply 401)
               (Http.JObject
                  [ ("error",
                     Http.JString
                       (or_else (raw_message raw) "Authentication required"));
                    ("errorCode", Http.JString "AUTH_REQUIRED");
                    ("requestId", Http.optional requestId) ]))
          /\ (mentions_auth (raw_message raw) = false ->
              JS.truthy (__type raw) = true ->
              sendErrorResponse reply (Raw raw) requestId
              = Http.send
                  (Http.code reply (statusCode (handleCognitoError error)))
                  (error_body (handleCognitoError error) requestId))
          /\ (mentions_auth (raw_message raw) = false ->
              JS.truthy (__type raw) = false ->
              sendErrorResponse reply (Raw raw) requestId
              = Http.send (Http.code reply 500)
                  (Http.JObject
                     [ ("error",
                        Http.JString
                          (or_else (raw_message raw)
                                   "An unexpected error occurred"));
                       ("errorCode", Http.JString "INTERNAL_SERVER_ERROR");
                       ("requestId", Http.optional requestId) ]))
          /\ (forall text fallback : string,
                raw_message raw = Some text -> text <> "" ->
                or_else (raw_message raw) fallback = text)).
Proof.
  intros error.
  destruct (handleCognitoError_kinds error)
    as (Hknown & Hother & Hapart & Hcode).
  split; [exact Hknown |].
  split; [exact Hother |].
  split; [exact Hapart |].
  split; [exact Hcode |].
  intros raw reply requestId ->. split; [| split; [| split]].
  - intros Hmentions.
    unfold sendErrorResponse, to_AppError.
    rewrite Hmentions. reflexivity.
  - intros Hquiet Htyped.
    unfold sendErrorResponse, to_AppError, error_body.
    rewrite Hquiet, Htyped. reflexivity.
  - intros Hquiet Huntyped.
    unfold sendErrorResponse, to_AppError.
    rewrite Hquiet, Huntyped. reflexivity.
  - intros text fallback -> Hne. apply or_else_text. exact Hne.
Qed.

End ProviderErrors.

(** ** The user service and the routes *)
Section Routes.
Import Http ErrorHandler ErrorResponse UserService UserController.
Context {rt : Runtime.t} {provider : Provider} {proc : Process}.

Lemma last_value_snoc (name : string) (l : list AttributeType)
    (a : AttributeType) :
  last_value name (l ++ [a])
  = if Name a =? name then or_null (Value a) else last_value name l.
Proof.
  unfold last_value. rewrite rev_app_distr. cbn [rev app find].
  destruct (Name a =? name); reflexivity.
Qed.

(** X15.  [verifyUser] reads each of the four attributes it knows from
    the last entry of that name in the provider's list: a later entry
    overrides an earlier one, also with an empty or missing value, which
    gives [null]; entries of other names are ignored and the order of
    entries of different names plays no part. *)
Theorem read_attributes_last_wins :
  forall attrs : list AttributeType,
    read_attributes (Some attrs)
    = mkVerified (last_value "email" attrs) (last_value "given_name" attrs)
                 (last_value "family_name" attrs) (last_value "sub" attrs).
Proof.
  intros attrs. unfold read_attributes.
  induction attrs as [| a l IH] using rev_ind; [reflexivity |].
  rewrite fold_left_app. cbn [fold_left]. rewrite IH.
  rewrite !last_value_snoc. unfold read_attribute.
  cbn [v_email v_firstName v_lastName v_userId].
  destruct (String.eqb_spec (Name a) "email") as [-> | ?]; [reflexivity |].
  destruct (String.eqb_spec (Name a) "given_name") as [-> | ?]; [reflexivity |].
  destruct (String.eqb_spec (Name a) "family_name") as [-> | ?]; [reflexivity |].
  destruct (Name a =? "sub"); reflexivity.
Qed.

Lemma cleared_ops (reply : Reply) (a b c : string) :
  cookieOps (clearCookie (clearCookie (clearCookie reply a) b) c)
  = (cookieOps reply ++ [ClearCookie a; ClearCookie b; ClearCookie c])%list.
Proof. cbn. rewrite <- !app_assoc. reflexivity. Qed.

(** X16.  [GET /me] without an authentication cookie (or with an empty
    one) sends no command to the provider; it clears the three session
    cookies and answers 401 "Authentication required" with the code
    MISSING_TOKEN. *)
Theorem get_me_without_cookie :
  forall (request : Request) (reply : Reply) (sent : list Command),
    JS.truthy (cookie "authToken" request) = false ->
    exists reply',
      get_me request reply sent = (Ok reply', sent)
      /\ Http.statusCode reply' = 401
      /\ cookieOps reply' = (cookieOps reply ++ cleared)%list
      /\ Http.sent reply'
         = Some (JObject [ ("error", JString "Authentication required");
                           ("errorCode", JString "MISSING_TOKEN");
                           ("requestId", JUndefined) ]).
Proof.
  intros request reply sent Hfalsy.
  eexists. split.
  - unfold get_me, try_catch, bind, verifyUser. rewrite Hfalsy. reflexivity.
  - split; [reflexivity |]. split; [| reflexivity].
    unfold sendErrorResponse. cbn [send code cookieOps].
    apply cleared_ops.
Qed.

(** X17.  [POST /refresh-token] without a refresh-token cookie or
    without an email cookie answers 401 INVALID_REFRESH_REQUEST; it
    sends no command to the provider and neither sets nor clears a
    cookie. *)
Theorem post_refresh_token_without_cookies :
  forall (request : Request) (reply : Reply) (sent : list Command),
    JS.truthy (cookie "refreshToken" request) = false
    \/ JS.truthy (cookie "email" request) = false ->
    exists reply',
      post_refresh_token request reply sent = (Ok reply', sent)
      /\ Http.statusCode reply' = 401
      /\ cookieOps reply' = cookieOps reply
      /\ Http.sent reply'
         = Some (JObject
                   [ ("error", JString "Missing refresh token or email");
                     ("errorCode", JString "INVALID_REFRESH_REQUEST") ]).
Proof.
  intros request reply sent Hmissing.
  eexists. split.
  - unfold post_refresh_token, try_catch.
    destruct Hmissing as [-> | ->]; cbn [negb orb]; [reflexivity |].
    rewrite orb_true_r. reflexivity.
  - repeat split.
Qed.

(** The command [POST /refresh-token] sends. *)
Lemma refresh_command (token email : string) :
  refreshToken token email
  = fun sent =>
      match cognito (InitiateAuthCommand CLIENT_ID "REFRESH_TOKEN_AUTH"
                       [ ("REFRESH_TOKEN", token);
                         ("SECRET_HASH",
                          CryptoUtils.calculateSecretHash CLIENT_ID
                            CLIENT_SECRET email) ]) with
      | Fails error =>
          (Throw (Raw error),
           (sent ++ [InitiateAuthCommand CLIENT_ID "REFRESH_TOKEN_AUTH"
                       [ ("REFRESH_TOKEN", token);
                         ("SECRET_HASH",
                          CryptoUtils.calculateSecretHash CLIENT_ID
                            CLIENT_SECRET email) ]])%list)
      | Returns output =>
          (Ok (AuthenticationResult output),
           (sent ++ [InitiateAuthCommand CLIENT_ID "REFRESH_TOKEN_AUTH"
                       [ ("REFRESH_TOKEN", token);
                         ("SECRET_HASH",
                          CryptoUtils.calculateSecretHash CLIENT_ID
                            CLIENT_SECRET email) ]])%list)
      end.
Proof.
  unfold refreshToken, bind, cognitoClient_send, generateSecretHash,
    REFRESH_TOKEN_AUTH, ret.
  set (cmd := InitiateAuthCommand _ _ _).
  destruct (cognito cmd); reflexivity.
Qed.

Lemma truthy_some (v : string) : v <> "" -> JS.truthy (Some v) = true.
Proof.
  intros Hne. cbn. destruct (String.eqb_spec v ""); [contradiction | reflexivity].
Qed.

(** X18.  [POST /refresh-token] with both cookies, when the provider
    delivers tokens: one command is sent, the refresh flow with the
    cookie's refresh token and the secret hash of the cookie's email;
    the answer is 200; the authentication cookie is set to the new
    access token for 12 hours; the refresh-token cookie is set, for 7
    days, only when the provider returned a new refresh token; the
    email cookie is neither set nor cleared. *)
Theorem post_refresh_token_success :
  forall (request : Request) (reply : Reply) (sent : list Command)
         (token email : string) (output : Output)
         (tokens : AuthenticationResultType),
    cookie "refreshToken" request = Some token -> token <> "" ->
    cookie "email" request = Some email -> email <> "" ->
    cognito (InitiateAuthCommand CLIENT_ID "REFRESH_TOKEN_AUTH"
               [ ("REFRESH_TOKEN", token);
                 ("SECRET_HASH",
                  CryptoUtils.calculateSecretHash CLIENT_ID CLIENT_SECRET
                    email) ])
    = Returns output ->
    AuthenticationResult output = Some tokens ->
    exists reply',
      post_refresh_token request reply sent
      = (Ok reply',
         (sent ++ [InitiateAuthCommand CLIENT_ID "REFRESH_TOKEN_AUTH"
                     [ ("REFRESH_TOKEN", token);
                       ("SECRET_HASH",
                        CryptoUtils.calculateSecretHash CLIENT_ID
                          CLIENT_SECRET email) ]])%list)
      /\ Http.statusCode reply' = 200
      /\ Http.sent reply' = Some (JObject [])
      /\ cookieOps reply'
         = (cookieOps reply
            ++ SetCookie "authToken" (AccessToken tokens)
                 (cookieConfig (Some 43200))
            :: (if JS.truthy (RefreshToken tokens)
                then [ SetCookie "refreshToken" (RefreshToken tokens)
                         (cookieConfig (Some 604800)) ]
                else []))%list.
Proof.
  intros request reply sent token email output tokens
         Htoken Hne Hemail Hne' Hcognito Hresult.
  unfold post_refresh_token, try_catch, bind.
  rewrite Htoken, Hemail, (truthy_some token Hne), (truthy_some email Hne').
  cbn [negb orb JS.render]. rewrite refresh_command, Hcognito, Hresult.
  cbn [destructure ret].
  eexists. split; [reflexivity |].
  split; [reflexivity |]. split; [reflexivity |].
  destruct (JS.truthy (RefreshToken tokens)); cbn.
  - rewrite <- app_assoc. reflexivity.
  - reflexivity.
Qed.


(** What [login] does with the provider's answer. *)
Lemma login_eq (email password : string) (sent : list Command) :
  login email password sent
  = let command :=
      InitiateAuthCommand CLIENT_ID "USER_PASSWORD_AUTH"
        [ ("USERNAME", email); ("PASSWORD", password);
          ("SECRET_HASH",
           CryptoUtils.calculateSecretHash CLIENT_ID CLIENT_SECRET email) ] in
    match cognito command with
    | Fails error => (Throw (Raw error), (sent ++ [command])%list)
    | Returns output =>
        match AuthenticationResult output with
        | Some result =>
            if JS.truthy (AccessToken result)
            then (Ok result, (sent ++ [command])%list)
            else (Throw (plain_error "Missing authentication token"),
                  (sent ++ [command])%list)
        | None => (Throw (plain_error "Missing authentication token"),
                   (sent ++ [command])%list)
        end
    end.
Proof.
  unfold login, bind, cognitoClient_send, USER_PASSWORD_AUTH, ret, throw.
  cbv zeta. set (cmd := InitiateAuthCommand _ _ _).
  destruct (cognito cmd) as [error | output]; [reflexivity |].
  destruct (AuthenticationResult output) as [result |]; [| reflexivity].
  destruct (JS.truthy (AccessToken result)); reflexivity.
Qed.

(** X20.  [POST /login], when the provider returns an access token:
    one command is sent, the password flow with the submitted email and
    password and the secret hash of that email; the answer is 200; and
    three cookies are set, in this order and with the same options (HTTP
    only, same-site strict, path [/], secure in production only, no
    maximal age of their own): the access token, the refresh token as
    the provider gave it, and the submitted email. *)
Theorem post_login_success :
  forall (request : Request) (reply : Reply) (sent : list Command)
         (output : Output) (tokens : AuthenticationResultType),
    cognito (InitiateAuthCommand CLIENT_ID "USER_PASSWORD_AUTH"
               [ ("USERNAME", Http.email (body_user request));
                 ("PASSWORD", password (body_user request));
                 ("SECRET_HASH",
                  CryptoUtils.calculateSecretHash CLIENT_ID CLIENT_SECRET
                    (Http.email (body_user request))) ])
    = Returns output ->
    AuthenticationResult output = Some tokens ->
    JS.truthy (AccessToken tokens) = true ->
    exists reply',
      post_login request reply sent
      = (Ok reply',
         (sent ++ [InitiateAuthCommand CLIENT_ID "USER_PASSWORD_AUTH"
                     [ ("USERNAME", Http.email (body_user request));
                       ("PASSWORD", password (body_user request));
                       ("SECRET_HASH",
                        CryptoUtils.calculateSecretHash CLIENT_ID
                          CLIENT_SECRET (Http.email (body_user request))) ]])
         %list)
      /\ Http.statusCode reply' = 200
      /\ Http.sent reply' = Some (JObject [])
      /\ cookieOps reply'
         = (cookieOps reply
            ++ [ SetCookie "authToken" (AccessToken tokens)
                   (mkOptions true (JS.strict_eq NODE_ENV (Some "production"))
                              "strict" "/" None);
                 SetCookie "refreshToken" (RefreshToken tokens)
                   (mkOptions true (JS.strict_eq NODE_ENV (Some "production"))
                              "strict" "/" None);
                 SetCookie "email" (Some (Http.email (body_user request)))
                   (mkOptions true (JS.strict_eq NODE_ENV (Some "production"))
                              "strict" "/" None) ])%list.
Proof.
  intros request reply sent output tokens Hcognito Hresult Haccess.
  unfold post_login, try_catch, bind.
  rewrite login_eq. cbv zeta. rewrite Hcognito, Hresult, Haccess.
  eexists. split; [reflexivity |].
  split; [reflexivity |]. split; [reflexivity |].
  cbn. rewrite <- !app_assoc. reflexivity.
Qed.

(** X21.  [POST /login], when the provider does not return an access
    token: no cookie is set or cleared.  When the command fails the
    answer is the error response for the provider's error; when the
    answer lacks an access token it is the error response for
    "Missing authentication token", which (its text mentioning "token")
    is a 401 with the code AUTH_REQUIRED. *)
Theorem post_login_failure :
  forall (request : Request) (reply : Reply) (sent : list Command)
         (reply' : Reply),
    fst (post_login request reply sent) = Ok reply' ->
    (forall output tokens,
       cognito (InitiateAuthCommand CLIENT_ID "USER_PASSWORD_AUTH"
                  [ ("USERNAME", Http.email (body_user request));
                    ("PASSWORD", password (body_user request));
                    ("SECRET_HASH",
                     CryptoUtils.calculateSecretHash CLIENT_ID CLIENT_SECRET
                       (Http.email (body_user request))) ])
       = Returns output ->
       AuthenticationResult output = Some tokens ->
       JS.truthy (AccessToken tokens) = false) ->
    cookieOps reply' = cookieOps reply
    /\ (forall error,
          cognito (InitiateAuthCommand CLIENT_ID "USER_PASSWORD_AUTH"
                     [ ("USERNAME", Http.email (body_user request));
                       ("PASSWORD", password (body_user request));
                       ("SECRET_HASH",
                        CryptoUtils.calculateSecretHash CLIENT_ID
                          CLIENT_SECRET (Http.email (body_user request))) ])
          = Fails error ->
          reply' = sendErrorResponse reply (Raw error) None)
    /\ (forall output,
          cognito (InitiateAuthCommand CLIENT_ID "USER_PASSWORD_AUTH"
                     [ ("USERNAME", Http.email (body_user request));
                       ("PASSWORD", password (body_user request));
                       ("SECRET_HASH",
                        CryptoUtils.calculateSecretHash CLIENT_ID
                          CLIENT_SECRET (Http.email (body_user request))) ])
          = Returns output ->
          mentions_auth (Some "Missing authentication token") = true ->
          reply'
          = send (code reply 401)
              (JObject [ ("error", JString "Missing authentication token");
                         ("errorCode", JString "AUTH_REQUIRED");
                         ("requestId", JUndefined) ])).
Proof.
  intros request reply sent reply' Hrun Hnone.
  unfold post_login, try_catch, bind in Hrun.
  rewrite login_eq in Hrun. cbv zeta in Hrun.
  set (cmd := InitiateAuthCommand _ _ _) in *.
  destruct (cognito cmd) as [error | output] eqn:Hcognito.
  - cbn [ret fst] in Hrun. injection Hrun as <-.
    split; [reflexivity |]. split.
    + intros error' [= <-]. reflexivity.
    + intros output' [=].
  - assert (Hmissing :
      reply' = sendErrorResponse reply
                 (plain_error "Missing authentication token") None).
    { destruct (AuthenticationResult output) as [tokens |] eqn:Hresult.
      - rewrite (Hnone output tokens eq_refl Hresult) in Hrun.
        cbn [ret fst] in Hrun. injection Hrun as <-. reflexivity.
      - cbn [ret fst] in Hrun. injection Hrun as <-. reflexivity. }
    subst reply'. split; [reflexivity |]. split.
    + intros error [=].
    + intros output' _ Hmentions.
      unfold sendErrorResponse, to_AppError, plain_error.
      cbn [raw_message]. rewrite Hmentions. reflexivity.
Qed.

(** X22.  [GET /get-auth-token] looks at the [Origin] header only: a
    request with a non-empty origin that is not on the list is answered
    403 "Forbidden" and the body holds nothing else; every other
    request (no origin, or a listed one) is answered with the value of
    the authentication cookie.  The local development origin is on the
    list exactly when [NODE_ENV] is [development].  No command is sent
    and no cookie is set or cleared. *)
Theorem get_auth_token_origin :
  forall (request : Request) (reply : Reply) (sent : list Command),
    (JS.truthy (origin request) = true ->
     origin_allowed (origin request) = false ->
     get_auth_token request reply sent
     = (Ok (send (code reply 403) (JObject [ ("error", JString "Forbidden") ])),
        sent))
    /\ (JS.truthy (origin request) = false
        \/ origin_allowed (origin request) = true ->
        get_auth_token request reply sent
        = (Ok (send reply
                 (JObject [ ("authToken",
                             optional (cookie "authToken" request)) ])),
           sent))
    /\ (origin_allowed (Some "http://localhost:5173") = true
        <-> NODE_ENV = Some "development").
Proof.
  intros request reply sent. split; [| split].
  - intros Htruthy Hnot. unfold get_auth_token, try_catch.
    rewrite Htruthy, Hnot. reflexivity.
  - intros Hok. unfold get_auth_token, try_catch.
    destruct Hok as [-> | ->]; [reflexivity |].
    rewrite andb_false_r. reflexivity.
  - unfold origin_allowed, allowedOrigins.
    destruct NODE_ENV as [mode |]; cbn [JS.strict_eq].
    + destruct (String.eqb_spec mode "development") as [-> | Hne].
      * split; [reflexivity |]. intros _. reflexivity.
      * split; [discriminate |]. intros [= Heq]. contradiction.
    + split; discriminate.
Qed.

(** One route at work: its reply, always there, and what it sent. *)
Lemma handle_outcome (route : Route) (request : Request) (reply : Reply)
    (sent : list Command) :
  exists reply',
    fst (handle route request reply sent) = Ok reply'
    /\ Http.sent reply' <> None
    /\ (snd (handle route request reply sent) = sent
        \/ exists command,
             snd (handle route request reply sent) = (sent ++ [command])%list
             /\ forall user hash,
                  named_user command = Some (user, hash) ->
                  hash = CryptoUtils.calculateSecretHash CLIENT_ID
                           CLIENT_SECRET user).
Proof.
  destruct route; cbn [handle].
  - unfold get_me, try_catch, bind, verifyUser.
    destruct (negb (JS.truthy (cookie "authToken" request))).
    + eexists. split; [reflexivity |]. split; [discriminate | left; reflexivity].
    + unfold cognitoClient_send.
      destruct (cognito _) as [error | output]; eexists;
        (split; [reflexivity |]); (split; [discriminate |]);
        right; eexists; (split; [reflexivity |]); intros user hash [=].
  - unfold get_auth_token, try_catch.
    destruct (JS.truthy (origin request) && negb (origin_allowed (origin request)));
      eexists; (split; [reflexivity |]); (split; [discriminate |]);
      left; reflexivity.
  - unfold post_signup, try_catch, bind, createUser, cognitoClient_send.
    destruct (cognito _) as [error | output]; eexists;
      (split; [reflexivity |]); (split; [discriminate |]);
      right; eexists; (split; [reflexivity |]);
      intros user hash [= <- <-]; reflexivity.
  - unfold post_confirm, try_catch, bind, confirmUser, cognitoClient_send.
    destruct (cognito _) as [error | output]; eexists;
      (split; [reflexivity |]); (split; [discriminate |]);
      right; eexists; (split; [reflexivity |]);
      intros user hash [= <- <-]; reflexivity.
  - unfold post_refresh_token, try_catch, bind.
    destruct (negb (JS.truthy (cookie "refreshToken" request))
              || negb (JS.truthy (cookie "email" request))).
    + eexists. split; [reflexivity |]. split; [discriminate | left; reflexivity].
    + rewrite refresh_command.
      destruct (cognito _) as [error | output].
      * eexists. split; [reflexivity |]. split; [discriminate |].
        right. eexists. split; [reflexivity |]. intros user hash [=].
      * destruct (AuthenticationResult output) as [tokens |];
          cbn [destructure ret throw]; eexists;
          (split; [reflexivity |]); (split; [discriminate |]);
          right; eexists; (split; [reflexivity |]); intros user hash [=].
  - unfold post_login, try_catch, bind. rewrite login_eq. cbv zeta.
    destruct (cognito _) as [error | output].
    + eexists. split; [reflexivity |]. split; [discriminate |].
      right. eexists. split; [reflexivity |].
      intros user hash [= <- <-]. reflexivity.
    + destruct (AuthenticationResult output) as [tokens |];
        [destruct (JS.truthy (AccessToken tokens)) |];
        eexists; (split; [reflexivity |]); (split; [discriminate |]);
        right; eexists; (split; [reflexivity |]);
        intros user hash [= <- <-]; reflexivity.
  - unfold post_logout, ret. eexists. split; [reflexivity |].
    split; [discriminate | left; reflexivity].
  - unfold post_forgot_password, try_catch, bind, forgotPassword,
      cognitoClient_send.
    destruct (cognito _) as [error | output]; eexists;
      (split; [reflexivity |]); (split; [discriminate |]);
      right; eexists; (split; [reflexivity |]);
      intros user hash [= <- <-]; reflexivity.
  - unfold post_confirm_forgot_password, try_catch, bind,
      confirmForgotPassword, cognitoClient_send.
    destruct (cognito _) as [error | output]; eexists;
      (split; [reflexivity |]); (split; [discriminate |]);
      right; eexists; (split; [reflexivity |]);
      intros user hash [= <- <-]; reflexivity.
  - unfold post_resend_confirmation_code, try_catch, bind,
      resendConfirmationCode, cognitoClient_send.
    destruct (cognito _) as [error | output]; eexists;
      (split; [reflexivity |]); (split; [discriminate |]);
      right; eexists; (split; [reflexivity |]);
      intros user hash [= <- <-]; reflexivity.
Qed.

(** X23.  Every route answers: whatever the request, the cookies and
    the provider's behaviour, the handler does not throw and the reply
    it returns has a body; and it sends at most one command to the
    provider. *)
Theorem routes_always_answer :
  forall (route : Route) (request : Request) (reply : Reply)
         (sent : list Command),
    exists reply',
      fst (handle route request reply sent) = Ok reply'
      /\ Http.sent reply' <> None
      /\ (snd (handle route request reply sent) = sent
          \/ exists command,
               snd (handle route request reply sent)
               = (sent ++ [command])%list).
Proof.
  intros route request reply sent.
  destruct (handle_outcome route request reply sent)
    as (reply' & Hrun & Hbody & Hsent).
  exists reply'. split; [exact Hrun |]. split; [exact Hbody |].
  destruct Hsent as [Hnone | (command & Hone & _)]; [left | right].
  - exact Hnone.
  - exists command. exact Hone.
Qed.

(** X24.  Every command a route sends that names a user and carries a
    secret hash carries the hash of that very user name: the credential
    hash of [CLIENT_ID], [CLIENT_SECRET] and the user name in the same
    command. *)
Theorem routes_secret_hash :
  forall (route : Route) (request : Request) (reply : Reply)
         (sent : list Command) (command : Command) (user hash : string),
    In command (snd (handle route request reply sent)) ->
    ~ In command sent ->
    named_user command = Some (user, hash) ->
    hash = CryptoUtils.calculateSecretHash CLIENT_ID CLIENT_SECRET user.
Proof.
  intros route request reply sent command user hash Hin Hnew Hnamed.
  destruct (handle_outcome route request reply sent)
    as (reply' & _ & _ & Hsent).
  destruct Hsent as [Hnone | (command' & Hone & Hhash)].
  - rewrite Hnone in Hin. contradiction.
  - rewrite Hone in Hin. apply in_app_or in Hin.
    destruct Hin as [Hold | [<- | []]]; [contradiction |].
    apply Hhash. exact Hnamed.
Qed.

End Routes.

(** ** A valid token, end to end *)
Section ValidToken.
Import AuthPlugin AuthPluginRuns.
Context {lib : JwtLibrary} {env : ProcessEnv}.

(** X25.  A request whose cookie holds a token that passes steps 1 to 4
    gets the token's payload attached as [request.user] (so the subject
    is the token's), and its cookies and the reply are left as they
    were. *)
Theorem authentication_accepts :
  forall (request : Request) (reply : Reply) (w : World) (token : string)
         (decodedToken : Jwt) (key : JWK.t) (pem : Pem),
    cookie "authToken" request = Some token ->
    token <> "" ->
    jwt_decode token = Ok (Some decodedToken) ->
    resolves token w key pem ->
    passes token decodedToken pem (verify_instant w) ->
    fst (authentication request reply w)
    = Ok (mkRequest (cookies request) (Some (payload decodedToken)), reply).
Proof.
  intros request reply w token d key pem Hcookie Hne Hdec
         (d' & jwks & Hdec' & Hkid & Hjwks & Hfind & Hpem) Hpasses.
  rewrite Hdec in Hdec'. injection Hdec' as <-.
  rewrite authentication_eq, Hcookie.
  assert (Htruthy : JS.truthy (Some token) = true).
  { cbn. destruct (String.eqb_spec token ""); [contradiction | reflexivity]. }
  rewrite Htruthy. cbn [negb JS.render].
  rewrite validateToken_eq, Hdec, Hkid. cbn [negb].
  pose proof (getJwks_frame (entered w)) as Hf. cbv zeta in Hf.
  destruct Hf as (Hclock & _ & Hticks & _).
  destruct (getJwks (entered w)) as [r w1]. cbn [fst snd] in *. subst r.
  rewrite Hfind, Hpem.
  destruct (jwt_verify_decided token d pem w1 Hdec) as [Hyes _].
  assert (Hinstant : clock w1 (ticks w1) = verify_instant w).
  { rewrite Hticks, Hclock. reflexivity. }
  rewrite Hinstant in Hyes. specialize (Hyes Hpasses).
  destruct (jwt_verify token pem _ w1) as [[v | e] w2]; cbn [fst] in *;
    [| discriminate].
  injection Hyes as ->. reflexivity.
Qed.

End ValidToken.

(** ** The further properties at work on the samples *)
Section MoreRuns.
Import AuthPlugin AuthPluginRuns Sample SampleMore.

(** A stale set is replaced by the fetched one. *)
Lemma getJwks_refresh_witness :
  fst (getJwks (cached (one_day + 1) up)) = Ok (Some [key_abc; key_xyz])
  /\ jwksCache (snd (getJwks (cached (one_day + 1) up)))
     = Some [key_abc; key_xyz]
  /\ jwksLastFetch (snd (getJwks (cached (one_day + 1) up)))
     = t0 + (one_day + 1).
Proof.
  destruct (getJwks_refresh (cached (one_day + 1) up)
              (mkDoc (Some [key_abc; key_xyz])))
    as (Hrun & Hcache & Hlast & _); [reflexivity | reflexivity |].
  rewrite Hrun. split; [reflexivity |]. split; [exact Hcache | exact Hlast].
Defined.

(** Four calls, an hour apart, after a start with an empty cache. *)
Lemma getJwks_one_fetch_serves_all_witness :
  fst (getJwks_times 4 (boot hourly up))
  = repeat (Ok (Some [key_abc; key_xyz])) 4
  /\ fetches (snd (getJwks_times 4 (boot hourly up))) = 1%nat.
Proof.
  destruct (getJwks_one_fetch_serves_all 3 (boot hourly up)
              (mkDoc (Some [key_abc; key_xyz])) [key_abc; key_xyz])
    as (Hrun & Hfetch & _).
  - reflexivity.
  - reflexivity.
  - reflexivity.
  - intros k Hk. change (ticks (boot hourly up)) with 0%nat in *.
    unfold boot, hourly, CACHE_TTL. cbn [clock]. lia.
  - split; [exact Hrun | exact Hfetch].
Defined.

Lemma validateToken_decided_witness :
  fst (validateToken tok_abc (cached one_minute down))
  = Ok (claims 1800000000)
  /\ fst (validateToken (lib := lib_more) tok_foreign (cached one_minute down))
     = Throw (Error "Invalid token").
Proof.
  split.
  - apply (validateToken_decided tok_abc (cached one_minute down)
             (mkJwt (Header.mk (Some "RS256") (Some "abc") (Some "JWT"))
                    (claims 1800000000) "sig-abc")
             key_abc "PEM:n-abc").
    + reflexivity.
    + eexists. exists [key_abc]. repeat split; reflexivity.
    + repeat split; try reflexivity.
      * intros (nbf & Hnbf & _). discriminate.
      * intros exp [= <-]. reflexivity.
  - apply (validateToken_decided (lib := lib_more) tok_foreign
             (cached one_minute down)
             (mkJwt (Header.mk (Some "RS256") (Some "abc") (Some "JWT"))
                    foreign_claims "sig-abc")
             key_abc "PEM:n-abc").
    + reflexivity.
    + eexists. exists [key_abc]. repeat split; reflexivity.
    + intros (_ & _ & _ & _ & Hiss). discriminate.
Defined.

Lemma validateToken_malformed_witness :
  validateToken tok_none_nokid (cached (one_day + 1) up)
  = (Throw (Error "Invalid token format"), entered (cached (one_day + 1) up))
  /\ fetches (snd (validateToken tok_none_nokid (cached (one_day + 1) up)))
     = 0%nat.
Proof.
  destruct (validateToken_malformed tok_none_nokid (cached (one_day + 1) up))
    as (Hrun & _ & _ & Hfetch & _).
  - right. eexists. split; reflexivity.
  - split; [exact Hrun | exact Hfetch].
Defined.

Lemma authentication_cache_invariant_witness :
  jwksCache (snd (authentication (request_with tok_xyz) fresh_reply
                    (cached one_minute up)))
  = Some [key_abc].
Proof.
  apply (authentication_cache_invariant (request_with tok_xyz) fresh_reply
           (cached one_minute up)).
  reflexivity.
Defined.

(** A token that would be accepted is refused while the endpoint is
    down and the cached set is stale. *)
Lemma authentication_endpoint_down_witness :
  fst (validateToken tok_abc (cached one_minute down)) = Ok (claims 1800000000)
  /\ fst (authentication (request_with tok_abc) fresh_reply
            (cached (one_day + 1) down))
     = Ok (request_with tok_abc,
           mkReply 401 (Some (mkBody "Invalid authentication token"))).
Proof.
  split; [vm_compute; reflexivity |].
  apply (authentication_endpoint_down (request_with tok_abc) fresh_reply
           (cached (one_day + 1) down)); reflexivity.
Defined.

Lemma validateToken_document_without_keys_witness :
  fst (validateToken tok_abc (cached (one_day + 1) keyless))
  = Throw (TypeError "Cannot read properties of undefined")
  /\ jwksCache (snd (validateToken tok_abc (cached (one_day + 1) keyless)))
     = None.
Proof.
  destruct (validateToken_document_without_keys tok_abc
              (cached (one_day + 1) keyless)
              (mkJwt (Header.mk (Some "RS256") (Some "abc") (Some "JWT"))
                     (claims 1800000000) "sig-abc"))
    as (Hrun & Hcache & _); try reflexivity.
  rewrite Hrun. split; [reflexivity | exact Hcache].
Defined.

Lemma validateToken_rejects_early_or_foreign_witness :
  fst (validateToken (lib := lib_more) tok_early (cached one_minute down))
  = Throw (Error "Invalid token")
  /\ fst (validateToken (lib := lib_more) tok_foreign (cached one_minute down))
     = Throw (Error "Invalid token").
Proof.
  split.
  - destruct (validateToken_rejects_early_or_foreign (lib := lib_more)
                tok_early
                (mkJwt (Header.mk (Some "RS256") (Some "abc") (Some "JWT"))
                       early_claims "sig-abc")
                (cached one_minute down)) as [_ Hinvalid].
    + reflexivity.
    + left. exists 1900000000. split; reflexivity.
    + apply (Hinvalid key_abc "PEM:n-abc").
      eexists. exists [key_abc]. repeat split; reflexivity.
  - destruct (validateToken_rejects_early_or_foreign (lib := lib_more)
                tok_foreign
                (mkJwt (Header.mk (Some "RS256") (Some "abc") (Some "JWT"))
                       foreign_claims "sig-abc")
                (cached one_minute down)) as [_ Hinvalid].
    + reflexivity.
    + right. discriminate.
    + apply (Hinvalid key_abc "PEM:n-abc").
      eexists. exists [key_abc]. repeat split; reflexivity.
Defined.

Lemma validateToken_library_errors_witness :
  fst (validateToken (lib := lib_more) tok_broken (cached one_minute down))
  = Throw (LibraryError "SyntaxError" "Unexpected token in JSON")
  /\ fst (validateToken (lib := lib_more) tok_ec (cached_two one_minute down))
     = Throw (LibraryError "Error" "Unsupported key type")
  /\ fst (authentication (lib := lib_more) (request_with tok_ec) fresh_reply
            (cached_two one_minute down))
     = Ok (request_with tok_ec,
           mkReply 401 (Some (mkBody "Invalid authentication token"))).
Proof.
  split; [| split].
  - destruct (validateToken_library_errors (lib := lib_more) tok_broken
                (cached one_minute down)
                (LibraryError "SyntaxError" "Unexpected token in JSON"))
      as (Hdecode & _).
    rewrite (Hdecode eq_refl). reflexivity.
  - destruct (validateToken_library_errors (lib := lib_more) tok_ec
                (cached_two one_minute down)
                (LibraryError "Error" "Unsupported key type"))
      as (_ & Hpem & _).
    destruct (Hpem (mkJwt (Header.mk (Some "RS256") (Some "ec1") (Some "JWT"))
                          (claims 1800000000) "sig-ec1") key_ec)
      as (Hrun & _).
    + reflexivity.
    + reflexivity.
    + exists [key_abc; key_ec]. split; reflexivity.
    + reflexivity.
    + rewrite Hrun. reflexivity.
  - destruct (validateToken_library_errors (lib := lib_more) tok_ec
                (cached_two one_minute down)
                (LibraryError "Error" "Unsupported key type"))
      as (_ & _ & Hauth).
    apply (Hauth (request_with tok_ec) fresh_reply).
    + reflexivity.
    + discriminate.
    + vm_compute. reflexivity.
Defined.

Lemma authentication_accepts_witness :
  fst (authentication (request_with tok_abc) fresh_reply
         (cached one_minute down))
  = Ok (mkRequest [("authToken", tok_abc)] (Some (claims 1800000000)),
        fresh_reply).
Proof.
  apply (authentication_accepts (request_with tok_abc) fresh_reply
           (cached one_minute down) tok_abc
           (mkJwt (Header.mk (Some "RS256") (Some "abc") (Some "JWT"))
                  (claims 1800000000) "sig-abc")
           key_abc "PEM:n-abc").
  - reflexivity.
  - discriminate.
  - reflexivity.
  - eexists. exists [key_abc]. repeat split; reflexivity.
  - repeat split; try reflexivity.
    + intros (nbf & Hnbf & _). discriminate.
    + intros exp [= <-]. reflexivity.
Defined.

End MoreRuns.

(** ** The responder and the routes at work on the sample application *)
Section RouteRuns.
Import Http ErrorHandler ErrorResponse UserService UserController SampleApp.

(** The provider's error for a bad refresh token mentions "token": its
    own text is sent, with 401 AUTH_REQUIRED, not the mapped one. *)
Lemma sendErrorResponse_auth_words_witness :
  sendErrorResponse blank
    (Raw (mkRawError (Some "NotAuthorizedException")
            (Some "NotAuthorizedException") (Some "Invalid Refresh Token")))
    (Some "req-1")
  = mkReply 401 []
      (Some (JObject [ ("error", JString "Invalid Refresh Token");
                       ("errorCode", JString "AUTH_REQUIRED");
                       ("requestId", JString "req-1") ])).
Proof.
  apply (sendErrorResponse_auth_words blank
           (mkRawError (Some "NotAuthorizedException")
              (Some "NotAuthorizedException") (Some "Invalid Refresh Token"))
           (Some "req-1") "Invalid Refresh Token").
  - reflexivity.
  - discriminate.
  - reflexivity.
Defined.

(** With a [__type] the mapped text is sent; with a [name] only, the
    error's own text with status 500. *)
Lemma sendErrorResponse_unmentioned_witness :
  sendErrorResponse blank
    (Raw (mkRawError (Some "UserNotFoundException") None
            (Some "User does not exist.")))
    None
  = mkReply 404 []
      (Some (JObject
               [ ("error",
                  JString "User not found. Please register or check your email address.");
                 ("errorCode", JString "UserNotFoundException");
                 ("requestId", JUndefined) ]))
  /\ sendErrorResponse blank
       (Raw (mkRawError None (Some "UserNotFoundException")
               (Some "User does not exist.")))
       None
     = mkReply 500 []
         (Some (JObject [ ("error", JString "User does not exist.");
                          ("errorCode", JString "INTERNAL_SERVER_ERROR");
                          ("requestId", JUndefined) ])).
Proof.
  split.
  - destruct (sendErrorResponse_unmentioned blank
                (mkRawError (Some "UserNotFoundException") None
                   (Some "User does not exist."))
                None) as [Htyped _]; [reflexivity |].
    rewrite (Htyped "UserNotFoundException" eq_refl); [reflexivity |].
    discriminate.
  - destruct (sendErrorResponse_unmentioned blank
                (mkRawError None (Some "UserNotFoundException")
                   (Some "User does not exist."))
                None) as [_ Huntyped]; [reflexivity |].
    rewrite (Huntyped eq_refl). reflexivity.
Defined.

Lemma sendErrorResponse_status_witness :
  sendErrorResponse blank (App (new_AppError "Teapot" (Some 418) (Some "TEAPOT")))
    None
  = mkReply 418 []
      (Some (JObject [ ("error", JString "Teapot");
                       ("errorCode", JString "TEAPOT");
                       ("requestId", JUndefined) ]))
  /\ In (Http.statusCode
           (sendErrorResponse blank
              (plain_error "Something went wrong") None))
        own_statuses.
Proof.
  split.
  - destruct (sendErrorResponse_status blank
                (App (new_AppError "Teapot" (Some 418) (Some "TEAPOT")))
                None) as (Happ & _).
    rewrite (Happ _ eq_refl). reflexivity.
  - destruct (sendErrorResponse_status blank
                (plain_error "Something went wrong") None)
      as (_ & Hraw & _).
    apply (Hraw _ eq_refl).
Defined.

Lemma get_me_without_cookie_witness :
  exists reply',
    get_me (request_of [("email", "user@example.com")] None nobody) blank []
    = (Ok reply', [])
    /\ Http.statusCode reply' = 401
    /\ cookieOps reply' = cleared.
Proof.
  destruct (get_me_without_cookie
              (request_of [("email", "user@example.com")] None nobody)
              blank []) as (reply' & Hrun & Hstatus & Hops & _);
    [reflexivity |].
  exists reply'. split; [exact Hrun |]. split; [exact Hstatus | exact Hops].
Defined.

Lemma post_refresh_token_without_cookies_witness :
  exists reply',
    post_refresh_token (request_of [("refreshToken", "refresh-1")] None nobody)
                       blank []
    = (Ok reply', [])
    /\ Http.statusCode reply' = 401
    /\ cookieOps reply' = [].
Proof.
  destruct (post_refresh_token_without_cookies
              (request_of [("refreshToken", "refresh-1")] None nobody)
              blank []) as (reply' & Hrun & Hstatus & Hops & _);
    [right; reflexivity |].
  exists reply'. split; [exact Hrun |]. split; [exact Hstatus | exact Hops].
Defined.

(** The sample provider returns an access token and no refresh token:
    one cookie is set. *)
Lemma post_refresh_token_success_witness :
  exists reply' commands,
    post_refresh_token
      (request_of [("refreshToken", "refresh-1"); ("email", "user@example.com")]
                  None nobody)
      blank []
    = (Ok reply', commands)
    /\ Http.statusCode reply' = 200
    /\ cookieOps reply'
       = [ SetCookie "authToken" (Some "access-2")
             (mkOptions true true "strict" "/" (Some 43200)) ].
Proof.
  destruct (post_refresh_token_success
              (request_of [("refreshToken", "refresh-1");
                           ("email", "user@example.com")] None nobody)
              blank [] "refresh-1" "user@example.com"
              (mkOutput (Some (mkAuth (Some "access-2") None)) None)
              (mkAuth (Some "access-2") None))
    as (reply' & Hrun & Hstatus & _ & Hops).
  - reflexivity.
  - discriminate.
  - reflexivity.
  - discriminate.
  - reflexivity.
  - reflexivity.
  - exists reply'. eexists. split; [exact Hrun |].
    split; [exact Hstatus | exact Hops].
Defined.


Lemma post_login_success_witness :
  exists reply' commands,
    post_login (request_of [] None (ada "correct horse")) blank []
    = (Ok reply', commands)
    /\ Http.statusCode reply' = 200
    /\ cookieOps reply'
       = [ SetCookie "authToken" (Some "access-1")
             (mkOptions true true "strict" "/" None);
           SetCookie "refreshToken" (Some "refresh-1")
             (mkOptions true true "strict" "/" None);
           SetCookie "email" (Some "user@example.com")
             (mkOptions true true "strict" "/" None) ].
Proof.
  destruct (post_login_success
              (request_of [] None (ada "correct horse")) blank []
              (mkOutput (Some (mkAuth (Some "access-1") (Some "refresh-1"))) None)
              (mkAuth (Some "access-1") (Some "refresh-1")))
    as (reply' & Hrun & Hstatus & _ & Hops).
  - reflexivity.
  - reflexivity.
  - reflexivity.
  - exists reply'. eexists. split; [exact Hrun |].
    split; [exact Hstatus | exact Hops].
Defined.

(** A provider that answers without tokens: 401 AUTH_REQUIRED, and no
    cookie. *)
Lemma post_login_failure_witness :
  fst (post_login (provider := SampleAppMore.silent)
         (request_of [] None (ada "correct horse")) blank [])
  = Ok (mkReply 401 []
          (Some (JObject [ ("error", JString "Missing authentication token");
                           ("errorCode", JString "AUTH_REQUIRED");
                           ("requestId", JUndefined) ]))).
Proof.
  destruct (fst (post_login (provider := SampleAppMore.silent)
                   (request_of [] None (ada "correct horse")) blank []))
    as [reply' | e] eqn:Hrun; [| discriminate].
  destruct (post_login_failure (provider := SampleAppMore.silent)
              (request_of [] None (ada "correct horse")) blank [] reply' Hrun)
    as (_ & _ & Hmissing).
  - intros output tokens [= <-] Hresult. discriminate.
  - rewrite (Hmissing (mkOutput None None) eq_refl eq_refl). reflexivity.
Defined.

Lemma get_auth_token_origin_witness :
  get_auth_token
    (request_of [("authToken", "access-1")] (Some "https://evil.example") nobody)
    blank []
  = (Ok (mkReply 403 [] (Some (JObject [ ("error", JString "Forbidden") ]))), [])
  /\ get_auth_token (request_of [("authToken", "access-1")] None nobody)
       blank []
     = (Ok (mkReply 200 []
              (Some (JObject [ ("authToken", JString "access-1") ]))), []).
Proof.
  split.
  - apply (get_auth_token_origin
             (request_of [("authToken", "access-1")]
                         (Some "https://evil.example") nobody) blank []);
      reflexivity.
  - apply (get_auth_token_origin
             (request_of [("authToken", "access-1")] None nobody) blank []).
    left. reflexivity.
Defined.

(** The command of [POST /forgot-password] for the sample user. *)
Lemma routes_secret_hash_witness :
  "HUcyXOagzC8xPg5OF5Z6P1nV4llo7nnI7sDP2pYyq1k="
  = CryptoUtils.calculateSecretHash CLIENT_ID CLIENT_SECRET "user@example.com".
Proof.
  assert (Hsent :
    In (ForgotPasswordCommand "client123"
          "HUcyXOagzC8xPg5OF5Z6P1nV4llo7nnI7sDP2pYyq1k=" "user@example.com")
       (snd (handle PostForgotPassword (request_of [] None (ada "")) blank []))).
  { vm_compute. left. reflexivity. }
  exact (routes_secret_hash PostForgotPassword
           (request_of [] None (ada "")) blank []
           (ForgotPasswordCommand "client123"
              "HUcyXOagzC8xPg5OF5Z6P1nV4llo7nnI7sDP2pYyq1k="
              "user@example.com")
           "user@example.com"
           "HUcyXOagzC8xPg5OF5Z6P1nV4llo7nnI7sDP2pYyq1k="
           Hsent (fun H : False => H) eq_refl).
Defined.

End RouteRuns.

(** ** The credential hash and the provider errors at work *)
Section HashAndErrorRuns.
Import Http ErrorHandler ErrorResponse CryptoUtils SampleApp SampleAppMore.

(** The hash of a sample user, as Python's [hmac] and [base64] modules
    compute it too; the right-hand side is evaluated with the functions
    of [Standard]. *)
Lemma calculateSecretHash_is_hmac_base64_witness :
  calculateSecretHash "client123" "s3cr3t" "user@example.com"
  = "HUcyXOagzC8xPg5OF5Z6P1nV4llo7nnI7sDP2pYyq1k=".
Proof.
  assert (Hstandard : Spec.hash "client123" "s3cr3t" "user@example.com"
                      = "HUcyXOagzC8xPg5OF5Z6P1nV4llo7nnI7sDP2pYyq1k=")
    by (vm_compute; reflexivity).
  exact (eq_trans
           (calculateSecretHash_is_hmac_base64
              "client123" "s3cr3t" "user@example.com")
           Hstandard).
Defined.

(** C9, as stated, fails.  The provider's error for an expired refresh
    token has the recognised code NotAuthorizedException, for which the
    mapper has a fixed message; but its text mentions "token", so the
    client is sent that text, with the code AUTH_REQUIRED.  And
    LimitExceededException, which the claim does not list, is not
    mapped to the generic kind: it has a kind of its own, with
    status 429. *)
Lemma provider_text_reaches_client :
  errorType (Some token_expired) = "NotAuthorizedException"
  /\ raw_message token_expired = Some "Refresh Token has expired"
  /\ message (handleCognitoError (Some token_expired))
     = "Incorrect username or password. Please verify your credentials."
  /\ sendErrorResponse blank (Raw token_expired) None
     = mkReply 401 []
         (Some (JObject [ ("error", JString "Refresh Token has expired");
                          ("errorCode", JString "AUTH_REQUIRED");
                          ("requestId", JUndefined) ]))
  /\ statusCode (handleCognitoError Sample.limit_exceeded) = 429
  /\ errorCode (handleCognitoError Sample.limit_exceeded) = "LimitExceededException"
  /\ handleCognitoError Sample.limit_exceeded <> generic_error.
Proof. repeat split; try reflexivity. discriminate. Qed.

(** The three ways of [sendErrorResponse] with a provider error, and
    the mapper on a code it has a case for and on one it has none
    for. *)
Lemma provider_errors_answered_witness :
  statusCode (handleCognitoError Sample.limit_exceeded) = 429
  /\ handleCognitoError
       (Some (mkRawError (Some "SomethingElse") None (Some "raw text")))
     = generic_error
  /\ sendErrorResponse blank (Raw user_not_found) None
     = mkReply 404 []
         (Some (JObject
                  [ ("error",
                     JString "User not found. Please register or check your email address.");
                    ("errorCode", JString "UserNotFoundException");
                    ("requestId", JUndefined) ]))
  /\ sendErrorResponse blank (Raw token_expired) None
     = mkReply 401 []
         (Some (JObject [ ("error", JString "Refresh Token has expired");
                          ("errorCode", JString "AUTH_REQUIRED");
                          ("requestId", JUndefined) ]))
  /\ sendErrorResponse blank (Raw connection_refused) None
     = mkReply 500 []
         (Some (JObject [ ("error", JString "connect ECONNREFUSED 10.0.0.12:443");
                          ("errorCode", JString "INTERNAL_SERVER_ERROR");
                          ("requestId", JUndefined) ])).
Proof.
  split; [| split; [| split; [| split]]].
  - apply (provider_errors_answered Sample.limit_exceeded). reflexivity.
  - apply (provider_errors_answered
             (Some (mkRawError (Some "SomethingElse") None (Some "raw text")))).
    reflexivity.
  - destruct (provider_errors_answered (Some user_not_found))
      as (_ & _ & _ & _ & Hsent).
    destruct (Hsent user_not_found blank None eq_refl) as (_ & Hmapped & _).
    apply Hmapped; reflexivity.
  - destruct (provider_errors_answered (Some token_expired))
      as (_ & _ & _ & _ & Hsent).
    destruct (Hsent token_expired blank None eq_refl) as (Hauth & _ & _ & Hown).
    rewrite Hauth by reflexivity.
    rewrite (Hown "Refresh Token has expired" "Authentication required")
      by (reflexivity || discriminate).
    reflexivity.
  - destruct (provider_errors_answered (Some connection_refused))
      as (_ & _ & _ & _ & Hsent).
    destruct (Hsent connection_refused blank None eq_refl)
      as (_ & _ & Hplain & Hown).
    rewrite Hplain by reflexivity.
    rewrite (Hown "connect ECONNREFUSED 10.0.0.12:443"
                  "An unexpected error occurred")
      by (reflexivity || discriminate).
    reflexivity.
Defined.

End HashAndErrorRuns.
